(** * le-belle-epoch: status probing, normalisation and rendering

    A shallow embedding of the browser page of the repository
    ([src/app.ts], [src/runtime/runtime-panel.ts] and the older copy of the
    page that has no runtime panel), followed by the properties that the
    specification states about it.

    Conventions of the embedding.
    - A JavaScript value that comes out of [JSON.parse], or is built by the
      page from such values, is a [Value].  A number is carried as the
      rational its literal writes, an integer as [VNum] and any other as
      [VFrac]; the engine computes with the double nearest to it
      ([nearest_double]), rounds each product to the nearest double and
      prints a double with the fewest digits that read back as the same
      double.  On integers the arithmetic of the page (one comparison with
      [100000000000], one multiplication by [1000], the range check of
      [Date]) is exact below [2^53] and ends in the same out-of-range
      answer above it, and is done in [Z].
    - An object has the properties of its literal and the methods of
      [Object.prototype]; a property of its own named [toString] is, coming
      from JSON, not a function, and converting such an object to a string
      is a [TypeError].
    - A string is a [string]; one character stands for one code unit.  The
      string operations used ([length], [slice], concatenation) do not look
      at the characters.
    - [async] functions are computations in the monad [M]: a state (the
      network, the requests issued so far, the page's elements) is threaded
      through, and a computation ends in [Ret] or in [Throw].  [await] is
      sequencing; a rejected promise is [Throw]; [try]/[catch] is
      [try_catch].  What was written to the state before a [Throw] stays
      written.
    - The browser is the class [Host]: the network behind [fetch], the
      [meta] tags of the page, what [Date.parse] does with a string that is
      not an ISO calendar date, and what number the engine reads in a
      string that is not a row of digits. *)

From Stdlib Require Import ZArith List String Ascii Bool Lia DecimalString.
From Stdlib Require Import Sorted.
Import ListNotations.

Local Open Scope list_scope.
Local Open Scope string_scope.
Local Open Scope Z_scope.

(** ** Numbers

    A double that is not [NaN]: [Finite m e] is [m * 2^e], with [m] of at
    most 53 bits and [e] at least [-1074], and as large as that allows. *)

Inductive Double : Type :=
| Finite (m e : Z)
| Infinite (negative : bool).

(** [n / d] rounded to the nearest integer, a tie to the even one; [n] is
    not negative and [d] is positive. *)
Definition round_half_even (n d : Z) : Z :=
  let q := n / d in
  match 2 * (n mod d) ?= d with
  | Lt => q
  | Gt => q + 1
  | Eq => if Z.even q then q else q + 1
  end.

(** The [e] with [2^e <= p / q < 2^(e + 1)], for positive [p] and [q]. *)
Definition binade (p q : Z) : Z :=
  let e := Z.log2 p - Z.log2 q in
  if q * 2 ^ Z.max e 0 <=? p * 2 ^ Z.max (- e) 0 then e else e - 1.

(** The double a numeric literal is read as: the one nearest to
    [num / den], a tie going to the even mantissa, and an infinity from
    [2^1024] on. *)
Definition nearest_double (num : Z) (den : positive) : Double :=
  let p := Z.abs num in
  let q := Z.pos den in
  if p =? 0 then Finite 0 0
  else
    let e := binade p q in
    let u := Z.max (e - 52) (-1074) in
    let m := round_half_even (p * 2 ^ Z.max (- u) 0) (q * 2 ^ Z.max u 0) in
    let '(m, u) := if m =? 2 ^ 53 then (2 ^ 52, u + 1) else (m, u) in
    if m =? 0 then Finite 0 0
    else if 1024 <=? Z.log2 m + u then Infinite (num <? 0)
    else Finite (Z.sgn num * m) u.

Definition double_is_zero (d : Double) : bool :=
  match d with
  | Finite m _ => m =? 0
  | Infinite _ => false
  end.

(** [d < z] and [d <= z] for an integer [z]. *)
Definition double_ltb (d : Double) (z : Z) : bool :=
  match d with
  | Finite m e => m * 2 ^ Z.max e 0 <? z * 2 ^ Z.max (- e) 0
  | Infinite negative => negative
  end.

Definition double_leb (d : Double) (z : Z) : bool :=
  match d with
  | Finite m e => m * 2 ^ Z.max e 0 <=? z * 2 ^ Z.max (- e) 0
  | Infinite negative => negative
  end.

(** [d * z] for a positive integer [z]: the product, rounded. *)
Definition double_times (d : Double) (z : Z) : Double :=
  match d with
  | Finite m e =>
      nearest_double (m * z * 2 ^ Z.max e 0) (Z.to_pos (2 ^ Z.max (- e) 0))
  | Infinite negative => Infinite negative
  end.

(** The integral part of a double, the fraction dropped; none for an
    infinity. *)
Definition double_truncate (d : Double) : option Z :=
  match d with
  | Finite m e => Some (Z.quot (m * 2 ^ Z.max e 0) (2 ^ Z.max (- e) 0))
  | Infinite _ => None
  end.

(** ** JavaScript values *)

Set Warnings "-register-all".

Inductive Value : Type :=
| VUndefined
| VNull
| VBool (b : bool)
| VNum (n : Z)
| VFrac (num : Z) (den : positive)
| VStr (s : string)
| VArr (items : list Value)
| VObj (props : list (string * Value)).

(** What a computation can be rejected with. *)
Inductive Exn : Type :=
| TypeError
| NetworkError
| SyntaxError
| ErrorMsg (msg : string).

Inductive Outcome (A : Type) : Type :=
| Ret (a : A)
| Throw (e : Exn).

Arguments Ret {A} a.
Arguments Throw {A} e.

(** One step after another, in a function that is not [async]. *)
Definition and_then {A B : Type} (o : Outcome A) (k : A -> Outcome B) : Outcome B :=
  match o with
  | Ret a => k a
  | Throw e => Throw e
  end.

Notation "'let*' x ':=' o 'in' k" := (and_then o (fun x => k))
  (at level 10, x name, o at level 100, k at level 200).

(** [!!v]. *)
Definition truthy (v : Value) : bool :=
  match v with
  | VUndefined | VNull => false
  | VBool b => b
  | VNum n => negb (n =? 0)
  | VFrac num den => negb (double_is_zero (nearest_double num den))
  | VStr s => negb (s =? EmptyString)%string
  | VArr _ | VObj _ => true
  end.

(** [v == null]. *)
Definition nullish (v : Value) : bool :=
  match v with
  | VUndefined | VNull => true
  | _ => false
  end.

(** [a || b] and [a ?? b]. *)
Definition or_else (a b : Value) : Value := if truthy a then a else b.
Definition coalesce (a b : Value) : Value := if nullish a then b else a.

(** Whether an object literal has a property [k] of its own. *)
Definition has_key (k : string) (ps : list (string * Value)) : bool :=
  existsb (fun p => (fst p =? k)%string) ps.

(** The own property [k] of an object literal; the first binding of a key
    is the one seen. *)
Fixpoint lookup (k : string) (ps : list (string * Value)) : Value :=
  match ps with
  | [] => VUndefined
  | (k', v) :: rest => if (k =? k')%string then v else lookup k rest
  end.

(** [v.k] for a [v] that is neither [null] nor [undefined].  None of the
    keys the page reads is a property of a built-in prototype, so on a
    primitive or an array the answer is [undefined]. *)
Definition member (v : Value) (k : string) : Value :=
  match v with
  | VObj ps => lookup k ps
  | _ => VUndefined
  end.

(** [v.k]: a [TypeError] on [null] and [undefined]. *)
Definition prop (v : Value) (k : string) : Outcome Value :=
  if nullish v then Throw TypeError else Ret (member v k).

(** [v?.k]. *)
Definition opt_prop (v : Value) (k : string) : Value :=
  if nullish v then VUndefined else member v k.

(** [Array.isArray(v)]. *)
Definition isArray (v : Value) : bool :=
  match v with VArr _ => true | _ => false end.

(** [a === b] for a string [b]. *)
Definition strict_eq_str (a : Value) (b : string) : bool :=
  match a with VStr s => (s =? b)%string | _ => false end.

(** ** Strings *)

(** An integer in decimal, all digits written out. *)
Definition decimal (n : Z) : string :=
  NilZero.string_of_int (Z.to_int n).

(** The [n] with [10^(n-1) <= p / q < 10^n], for positive [p] and [q]. *)
Definition decade (p q : Z) : Z :=
  let g := binade p q * 1233 / 4096 in
  let reaches k := q * 10 ^ Z.max k 0 <=? p * 10 ^ Z.max (- k) 0 in
  if reaches (g + 2) then g + 3
  else if reaches (g + 1) then g + 2
  else if reaches g then g + 1
  else g.

(** The decimal [s * 10^t] is read as the double [m * 2^u]. *)
Definition reads_as (s t m u : Z) : bool :=
  match nearest_double (s * 10 ^ Z.max t 0) (Z.to_pos (10 ^ Z.max (- t) 0)) with
  | Finite m' u' => (m' =? m) && (u' =? u)
  | Infinite _ => false
  end.

(** The digits [s], their number [k] and the exponent [n] of
    [Number::toString] for the positive double [m * 2^u]: the fewest
    digits such that [s * 10^(n-k)] is read as that double and, of the
    two candidates with that many digits, the nearer one.  Seventeen
    digits always do. *)
Fixpoint shortest_digits (fuel : nat) (k m u n : Z) : Z * Z * Z :=
  match fuel with
  | O => (m, k, n)
  | S fuel' =>
      let t := n - k in
      let num := m * 2 ^ Z.max u 0 * 10 ^ Z.max (- t) 0 in
      let den := 2 ^ Z.max (- u) 0 * 10 ^ Z.max t 0 in
      let lo := num / den in
      let hi := lo + 1 in
      let lo_reads := reads_as lo t m u in
      let hi_reads := reads_as hi t m u in
      let lo_nearer :=
        match 2 * (num mod den) ?= den with
        | Lt => true
        | Gt => false
        | Eq => Z.even lo
        end in
      if lo_reads && (negb hi_reads || lo_nearer) then (lo, k, n)
      else if hi_reads then
        (if hi =? 10 ^ k then (10 ^ (k - 1), k, n + 1) else (hi, k, n))
      else shortest_digits fuel' (k + 1) m u n
  end.

Definition zeros (n : Z) : string :=
  string_of_list_ascii (repeat "0"%char (Z.to_nat n)).

(** [Number::toString] for a double. *)
Definition Number_toString (d : Double) : string :=
  match d with
  | Infinite negative => if negative then "-Infinity" else "Infinity"
  | Finite m u =>
      if m =? 0 then "0"
      else
        let a := Z.abs m in
        let '(s, k, n) :=
          shortest_digits 17 1 a u
            (decade (a * 2 ^ Z.max u 0) (2 ^ Z.max (- u) 0)) in
        let digits := decimal s in
        let exponent :=
          "e" ++ (if n - 1 <? 0 then "-" else "+") ++ decimal (Z.abs (n - 1)) in
        (if m <? 0 then "-" else EmptyString)
        ++ (if (k <=? n) && (n <=? 21) then digits ++ zeros (n - k)
            else if (0 <? n) && (n <=? 21) then
              substring 0 (Z.to_nat n) digits ++ "."
              ++ substring (Z.to_nat n) (Z.to_nat (k - n)) digits
            else if (-6 <? n) && (n <=? 0) then "0." ++ zeros (- n) ++ digits
            else if k =? 1 then digits ++ exponent
            else substring 0 1 digits ++ "."
                 ++ substring 1 (Z.to_nat (k - 1)) digits ++ exponent)
  end.

(** [String(n)] for an integer: below [2^53] every integer is a double
    and is printed with all its digits. *)
Definition number_to_string (n : Z) : string :=
  if Z.abs n <? 2 ^ 53 then decimal n
  else Number_toString (nearest_double n 1).

(** [parts.join(sep)] for strings. *)
Fixpoint join (sep : string) (parts : list string) : string :=
  match parts with
  | [] => EmptyString
  | [p] => p
  | p :: rest => p ++ sep ++ join sep rest
  end.

(** A value that can be converted to a string.  An object is converted by
    the [toString] it has: that of [Object.prototype], unless it has a
    property of that name of its own, which is not a function; its
    [valueOf] gives the object back, and no string.  An array is converted
    by joining its elements, each converted in turn. *)
Fixpoint printable (v : Value) : bool :=
  match v with
  | VArr items => forallb printable items
  | VObj props => negb (has_key "toString" props)
  | _ => true
  end.

(** The string a printable value is converted to.  An element of an array
    that is [null] or [undefined] prints as nothing. *)
Fixpoint printed (v : Value) : string :=
  match v with
  | VUndefined => "undefined"
  | VNull => "null"
  | VBool true => "true"
  | VBool false => "false"
  | VNum n => number_to_string n
  | VFrac num den => Number_toString (nearest_double num den)
  | VStr s => s
  | VArr items =>
      join "," (map (fun x => if nullish x then EmptyString else printed x) items)
  | VObj _ => "[object Object]"
  end.

(** [String(v)], also what a template literal does with [${v}] and what
    an assignment to [textContent] or [title] does with a [v] that is not
    a string. *)
Definition ToString (v : Value) : Outcome string :=
  if printable v then Ret (printed v) else Throw TypeError.

(** [items.join(sep)] for an array of values. *)
Definition join_values (sep : string) (items : list Value) : Outcome string :=
  if forallb printable items
  then Ret (join sep (map (fun x => if nullish x then EmptyString else printed x) items))
  else Throw TypeError.

(** The index arithmetic of [slice]: a negative index counts from the end,
    and both ends are clamped to the string. *)
Definition clamp_index (len i : Z) : Z :=
  if i <? 0 then Z.max (len + i) 0 else Z.min i len.

(** [s.slice(from)] and [s.slice(from, to)]. *)
Definition slice (s : string) (from : Z) (to : option Z) : string :=
  let len := Z.of_nat (String.length s) in
  let a := clamp_index len from in
  let b := match to with Some t => clamp_index len t | None => len end in
  substring (Z.to_nat a) (Z.to_nat (Z.max (b - a) 0)) s.

(** [s.replace(pat, by)] for a one-character pattern: the first occurrence
    only. *)
Fixpoint replace_first (pat : ascii) (by_ : string) (s : string) : string :=
  match s with
  | EmptyString => EmptyString
  | String c rest =>
      if Ascii.eqb c pat then by_ ++ rest else String c (replace_first pat by_ rest)
  end.

Definition hex_digit (n : Z) : string :=
  substring (Z.to_nat n) 1 "0123456789ABCDEF".

(** The characters [encodeURIComponent] leaves alone. *)
Definition uri_unreserved (c : ascii) : bool :=
  let n := Z.of_nat (nat_of_ascii c) in
  ((65 <=? n) && (n <=? 90)) || ((97 <=? n) && (n <=? 122))
  || ((48 <=? n) && (n <=? 57))
  || existsb (Z.eqb n) [45; 95; 46; 33; 126; 42; 39; 40; 41].

(** [encodeURIComponent(s)] for a string of bytes. *)
Fixpoint encodeURIComponent (s : string) : string :=
  match s with
  | EmptyString => EmptyString
  | String c rest =>
      (if uri_unreserved c then String c EmptyString
       else let n := Z.of_nat (nat_of_ascii c) in
            "%" ++ hex_digit (n / 16) ++ hex_digit (n mod 16))
      ++ encodeURIComponent rest
  end.

(** ** Dates

    The part of [Date] the page uses: a time value is a number of
    milliseconds since the epoch, [None] is the invalid date (the time
    value [NaN]). *)

Definition msPerDay : Z := 86400000.

(** The range check of the [Date] constructor. *)
Definition TimeClip (t : Z) : option Z :=
  if Z.abs t <=? 8640000000000000 then Some t else None.

(** [new Date(d).getTime()] for a double: the fraction of a millisecond is
    dropped. *)
Definition Date_of_double (d : Double) : option Z :=
  match double_truncate d with
  | Some t => TimeClip t
  | None => None
  end.

(** The proleptic Gregorian date [(year, month, day)] of a day number
    counted from 1970-01-01, month and day counted from 1. *)
Definition civil_from_days (days : Z) : Z * Z * Z :=
  let z := days + 719468 in
  let era := z / 146097 in
  let doe := z - era * 146097 in
  let yoe := (doe - doe / 1460 + doe / 36524 - doe / 146096) / 365 in
  let doy := doe - (365 * yoe + yoe / 4 - yoe / 100) in
  let mp := (5 * doy + 2) / 153 in
  let d := doy - (153 * mp + 2) / 5 + 1 in
  let m := if mp <? 10 then mp + 3 else mp - 9 in
  ((if m <=? 2 then yoe + era * 400 + 1 else yoe + era * 400), m, d).

(** The day number of a date, the inverse of [civil_from_days]. *)
Definition days_from_civil (y m d : Z) : Z :=
  let y' := if m <=? 2 then y - 1 else y in
  let era := y' / 400 in
  let yoe := y' - era * 400 in
  let doy := (153 * (if 2 <? m then m - 3 else m + 9) + 2) / 5 + d - 1 in
  let doe := yoe * 365 + yoe / 4 - yoe / 100 + doy in
  era * 146097 + doe - 719468.

Definition is_leap (y : Z) : bool :=
  ((y mod 4 =? 0) && negb (y mod 100 =? 0)) || (y mod 400 =? 0).

Definition days_in_month (y m : Z) : Z :=
  if m =? 2 then (if is_leap y then 29 else 28)
  else if existsb (Z.eqb m) [4; 6; 9; 11] then 30 else 31.

(** A non-negative number in decimal, padded with zeros on the left to
    [width] characters. *)
Definition pad (width : nat) (n : Z) : string :=
  let s := number_to_string n in
  string_of_list_ascii (repeat "0"%char (width - String.length s)) ++ s.

(** [date.toISOString()] of a valid date: [YYYY-MM-DDTHH:mm:ss.sssZ], and a
    sign with six digits for a year outside [0 .. 9999]. *)
Definition toISOString (t : Z) : string :=
  let '(y, m, d) := civil_from_days (t / msPerDay) in
  let r := t mod msPerDay in
  let year :=
    if (0 <=? y) && (y <=? 9999) then pad 4 y
    else (if y <? 0 then "-" else "+") ++ pad 6 (Z.abs y) in
  year ++ "-" ++ pad 2 m ++ "-" ++ pad 2 d
  ++ "T" ++ pad 2 (r / 3600000) ++ ":" ++ pad 2 (r / 60000 mod 60)
  ++ ":" ++ pad 2 (r / 1000 mod 60) ++ "." ++ pad 3 (r mod 1000) ++ "Z".

Definition digit (c : ascii) : option Z :=
  let n := Z.of_nat (nat_of_ascii c) in
  if (48 <=? n) && (n <=? 57) then Some (n - 48) else None.

(** The number written by a string of decimal digits. *)
Fixpoint digits_from (acc : Z) (s : string) : option Z :=
  match s with
  | EmptyString => Some acc
  | String c rest =>
      match digit c with
      | Some d => digits_from (acc * 10 + d) rest
      | None => None
      end
  end.

Definition digits (s : string) : option Z :=
  match s with
  | EmptyString => None
  | _ => digits_from 0 s
  end.

(** The date-only forms of the date-time string format, [YYYY], [YYYY-MM]
    and [YYYY-MM-DD] with a month and a day that exist: midnight UTC of
    that day. Every engine reads these the same way. *)
Definition parse_iso_date (s : string) : option Z :=
  let field from len := digits (substring from len s) in
  let dash at_ := (substring at_ 1 s =? "-")%string in
  let make y m d :=
    if (1 <=? m) && (m <=? 12) && (1 <=? d) && (d <=? days_in_month y m)
    then Some (days_from_civil y m d * msPerDay) else None in
  match String.length s with
  | 4%nat =>
      match field 0%nat 4%nat with Some y => make y 1 1 | None => None end
  | 7%nat =>
      match field 0%nat 4%nat, field 5%nat 2%nat with
      | Some y, Some m => if dash 4%nat then make y m 1 else None
      | _, _ => None
      end
  | 10%nat =>
      match field 0%nat 4%nat, field 5%nat 2%nat, field 8%nat 2%nat with
      | Some y, Some m, Some d =>
          if dash 4%nat && dash 7%nat then make y m d else None
      | _, _, _ => None
      end
  | _ => None
  end.

(** ** The browser *)

(** A response: its status line and what [response.json()] gives, [None]
    when the body is not JSON (the promise of [json()] is rejected). *)
Record Response : Type := {
  res_status : Z;
  res_body : option Value
}.

(** What a call of [fetch] ends in: a rejected promise (no connection, a
    dropped connection, or the abort of the 3000 ms timer), or a response. *)
Inductive Reply : Type :=
| Rejected
| Responded (r : Response).

(** [response.ok]. *)
Definition res_ok (r : Response) : bool :=
  (200 <=? res_status r) && (res_status r <=? 299).

Class Host : Type := {
  World : Type;
  (** the network: the reply to a request, and the network afterwards *)
  fetch : string -> World -> Reply * World;
  (** the [content] attribute of [<meta name=...>], if there is one *)
  meta : string -> option string;
  (** [Date.parse] on a string that is not an ISO calendar date *)
  hostDateParse : string -> option Z;
  (** the number read in a string that is neither empty nor a row of
      digits, [None] for [NaN] *)
  hostStringToNumber : string -> option Double
}.

(** The elements of the page that [bootstrap] writes to, each [None] when
    the page has no such element.  A card or a table row is the list of the
    texts that fill the holes of its template. *)
Record PostCard : Type := {
  pc_project : string;
  pc_date : string;
  pc_tags : string;
  pc_title : string;
  pc_summary : string;
  pc_voice : string
}.

Record HeadlineCard : Type := {
  hc_project : string;
  hc_title : string;
  hc_summary : string;
  hc_date : string;
  hc_tags : string
}.

Record TableRow : Type := {
  tr_resource : string;
  tr_type : string;
  tr_statusClass : string;
  tr_statusLabel : string;
  tr_docs : string;
  tr_updated : string;
  tr_endpoint : string
}.

Record DOM : Type := {
  heroTerminal : option string;
  headlineGrid : option (list HeadlineCard);
  postList : option (list PostCard);
  systemTableBody : option (list TableRow);
  chatTerminal : option string
}.

(** ** The data of the page *)

Inductive Status : Type := Ok | Down | Unknown.

Record SystemRow : Type := {
  row_resource : string;
  row_type : string;
  row_status : Status;
  row_docs : Value;
  row_updated : Value;
  row_endpoint : Value
}.

(** The result of [fetchJson]: [{ok: false}] has no [data]. *)
Record Probe : Type := {
  ok : bool;
  data : Value
}.

Record RagStats : Type := {
  stats_count : string;
  stats_updated : Value
}.

(** [string | null | undefined], the parameter of [trimModelId]. *)
Inductive Nullable (A : Type) : Type :=
| Undefined
| Null
| Present (a : A).

Arguments Undefined {A}.
Arguments Null {A}.
Arguments Present {A} a.

Definition str (s : string) : Value := VStr s.

Definition post (id title summary tag1 tag2 project published_at : string) : Value :=
  VObj [("id", str id); ("title", str title); ("summary", str summary);
        ("tags", VArr [str tag1; str tag2]); ("project", str project);
        ("voice_id", str "kokoro_default"); ("published_at", str published_at)].

Definition fallbackPosts : Value :=
  VObj [("generated_at", str "2025-12-28T00:00:00Z");
        ("posts", VArr [
           post "anthology-brief-001"
                "Anthology brief: what changed this week"
                "Snapshot of new documents, system shifts, and active experiments."
                "anthology" "summary" "Anthology" "2025-12-28";
           post "voice-notes-002"
                "Voice notes: RAG maintenance signals"
                "Covers collection health, sync gaps, and query thresholds."
                "rag" "maintenance" "mlx-services" "2025-12-27";
           post "generator-003"
                "Generator pipeline: markdown to posts.json"
                "Outline of the static build flow and runtime overlays."
                "blog" "pipeline" "le-belle-epoch" "2025-12-26";
           post "systems-004"
                "System table: mlx-services alignment"
                "Status boards for llm, rag, audio, and mcp endpoints."
                "mlx" "status" "mlx-services" "2025-12-25"])].

(** ** runtime/runtime-panel.ts: [trimModelId] *)

Definition trimModelId (value : Nullable string) : string :=
  match value with
  | Undefined | Null => "-"
  | Present value =>
      if (value =? EmptyString)%string then "-"
      else if Z.of_nat (String.length value) <=? 52 then value
      else slice value 0 (Some 24) ++ "..." ++ slice value (-18) None
  end.

(** ** Computations *)

Section Page.

Context `{Host}.

(** The state an [async] function runs in. *)
Record State : Type := {
  world : World;
  requests : list string;
  page : DOM
}.

Definition M (A : Type) : Type := State -> Outcome A * State.

Definition ret {A} (a : A) : M A := fun s => (Ret a, s).

Definition throw {A} (e : Exn) : M A := fun s => (Throw e, s).

Definition bind {A B} (m : M A) (k : A -> M B) : M B :=
  fun s =>
    match m s with
    | (Ret a, s') => k a s'
    | (Throw e, s') => (Throw e, s')
    end.

(** [try { m } catch { handler }]. *)
Definition try_catch {A} (m : M A) (handler : Exn -> M A) : M A :=
  fun s =>
    match m s with
    | (Ret a, s') => (Ret a, s')
    | (Throw e, s') => handler e s'
    end.

Definition lift {A} (o : Outcome A) : M A := fun s => (o, s).

Notation "x <- m ;; k" := (bind m (fun x => k))
  (at level 61, m at next level, right associativity).
Notation "m ;;; k" := (bind m (fun _ => k))
  (at level 61, right associativity).

(** [for (const x of xs) body], the loop carrying the array it pushes to. *)
Fixpoint for_of {A B} (xs : list A) (body : A -> B -> M B) (acc : B) : M B :=
  match xs with
  | [] => ret acc
  | x :: rest => acc' <- body x acc ;; for_of rest body acc'
  end.

(** [xs.forEach(body)]. *)
Fixpoint forEach {A} (xs : list A) (body : A -> M unit) : M unit :=
  match xs with
  | [] => ret tt
  | x :: rest => body x ;;; forEach rest body
  end.

(** [await fetch(url, ...)]: the request is recorded, a rejected promise is
    a [NetworkError]. *)
Definition request (url : string) : M Response :=
  fun s =>
    let (reply, w) := fetch url (world s) in
    let s' := {| world := w; requests := requests s ++ [url]; page := page s |} in
    match reply with
    | Rejected => (Throw NetworkError, s')
    | Responded r => (Ret r, s')
    end.

(** [await response.json()]. *)
Definition json (r : Response) : M Value :=
  match res_body r with
  | Some v => ret v
  | None => throw SyntaxError
  end.

Definition get_page : M DOM := fun s => (Ret (page s), s).

Definition set_page (d : DOM) : M unit :=
  fun s => (Ret tt, {| world := world s; requests := requests s; page := d |}).

(** ** app.ts: configuration *)

Definition getMeta (name : string) : option string :=
  match meta name with
  | Some content => if (content =? EmptyString)%string then None else Some content
  | None => None
  end.

Record Config : Type := {
  ragBaseUrl : string;
  llmBaseUrl : string;
  audioBaseUrl : string
}.

Definition config : Config := {|
  ragBaseUrl := match getMeta "rag-base-url" with Some u => u | None => "http://127.0.0.1:8011" end;
  llmBaseUrl := match getMeta "llm-base-url" with Some u => u | None => "http://127.0.0.1:8080" end;
  audioBaseUrl := match getMeta "audio-base-url" with Some u => u | None => "http://127.0.0.1:7001" end
|}.

(** ** app.ts: dates *)

(** [Date.parse(s)]. *)
Definition Date_parse (s : string) : option Z :=
  match parse_iso_date s with
  | Some t => Some t
  | None => hostDateParse s
  end.

(** [new Date(v).getTime()], [None] for [NaN].  An array or an object is
    converted to a string first. *)
Definition Date_of (v : Value) : Outcome (option Z) :=
  match v with
  | VUndefined => Ret None
  | VNull => Ret (Some 0)
  | VBool b => Ret (Some (if b then 1 else 0))
  | VNum n => Ret (TimeClip n)
  | VFrac num den => Ret (Date_of_double (nearest_double num den))
  | VStr s => Ret (Date_parse s)
  | VArr _ | VObj _ => let* s := ToString v in Ret (Date_parse s)
  end.

Definition formatDate (value : Value) : Outcome Value :=
  if negb (truthy value) then Ret (str "-")
  else
    let* date := Date_of value in
    match date with
    | None => Ret value
    | Some date => Ret (str (slice (toISOString date) 0 (Some 10)))
    end.

Definition formatTimestamp (value : Value) : Outcome Value :=
  if nullish value then Ret (str "-")
  else
    let shown (date : option Z) :=
      match date with
      | None => str "-"
      | Some date =>
          str (replace_first "T" " " (slice (toISOString date) 0 (Some 16)))
      end in
    match value with
    | VNum value =>
        let ms := if value <? 100000000000 then value * 1000 else value in
        Ret (shown (TimeClip ms))
    | VFrac num den =>
        let value := nearest_double num den in
        let ms :=
          if double_ltb value 100000000000 then double_times value 1000 else value in
        Ret (shown (Date_of_double ms))
    | _ => formatDate value
    end.

(** ** runtime/runtime-panel.ts: [trimModelId] on a field of a payload

    The page casts the field to [string | null | undefined] without a
    check, and [trimModelId] then runs on whatever the payload holds. *)

(** [StringToNumber(s)], [None] for [NaN]. *)
Definition StringToNumber (s : string) : option Double :=
  match s with
  | EmptyString => Some (Finite 0 0)
  | _ =>
      match digits s with
      | Some n => Some (nearest_double n 1)
      | None => hostStringToNumber s
      end
  end.

(** [ToNumber(v)], [None] for [NaN].  An array is converted to a string
    first; the string of an object is not a number. *)
Definition ToNumber (v : Value) : Outcome (option Double) :=
  match v with
  | VUndefined => Ret None
  | VNull => Ret (Some (Finite 0 0))
  | VBool b => Ret (Some (nearest_double (if b then 1 else 0) 1))
  | VNum n => Ret (Some (nearest_double n 1))
  | VFrac num den => Ret (Some (nearest_double num den))
  | VStr s => Ret (StringToNumber s)
  | VArr _ => let* s := ToString v in Ret (StringToNumber s)
  | VObj _ => let* _ := ToString v in Ret None
  end.

(** [v <= z] for an integer [z]; a comparison with [NaN] is false. *)
Definition le_number (v : Value) (z : Z) : Outcome bool :=
  let* n := ToNumber v in
  Ret (match n with Some d => double_leb d z | None => false end).

(** [trimModelId(value)].  A string is abbreviated.  A number or [true]
    has no [length], [undefined <= 52] is false, and it has no [slice] to
    call.  An array has both: a short one is returned as it is, of a long
    one the two slices are printed.  An object is returned as it is when
    it has a [length] that is at most 52, and has no [slice] that could be
    called otherwise. *)
Definition trimModelId_of (value : Value) : Outcome Value :=
  if negb (truthy value) then Ret (str "-")
  else
    match value with
    | VStr s => Ret (str (trimModelId (Present s)))
    | VArr items =>
        if Z.of_nat (List.length items) <=? 52 then Ret value
        else
          let* first := ToString (VArr (firstn 24 items)) in
          let* last := ToString (VArr (skipn (List.length items - 18) items)) in
          Ret (str (first ++ "..." ++ last))
    | VObj props =>
        let* short := le_number (lookup "length" props) 52 in
        if short then Ret value else Throw TypeError
    | _ => Throw TypeError
    end.

(** ** app.ts: [fetchJson] *)

Definition fetchJson (url : string) : M Probe :=
  try_catch
    (res <- request url ;;
     if negb (res_ok res) then ret {| ok := false; data := VUndefined |}
     else
       data <- try_catch (json res) (fun _ => ret VNull) ;;
       ret {| ok := true; data := data |})
    (fun _ => ret {| ok := false; data := VUndefined |}).

(** ** app.ts: [extractRagStats] *)

Definition extractRagStats (payload : Value) : Outcome (option RagStats) :=
  if negb (truthy payload) then Ret None
  else
    let data :=
      match member payload "ok" with
      | VBool ok => if ok then member payload "data" else VNull
      | _ => payload
      end in
    if negb (truthy data) then Ret None
    else
      let count :=
        coalesce (coalesce (member data "num_documents") (member data "documents"))
                 (member data "count") in
      let updated :=
        coalesce (coalesce (member data "updated_at") (member data "generated_at"))
                 (member data "created_at") in
      let* count := if nullish count then Ret "-" else ToString count in
      let* updated := formatTimestamp updated in
      Ret (Some {| stats_count := count; stats_updated := updated |}).

(** ** app.ts: [loadSystemRows]

    The function is cut at its blocks: the probe of the combined endpoint,
    the rows of the branch that has its reply, the body of the loop over the
    services in the other branch, and the body of the loop over the
    collections.  [rows] is the array the function pushes to. *)

(** The closure [addServiceRow]; [updated] and [rows] are the variables it
    captures. *)
Definition addServiceRow (updated : Value) (label : string) (service : Value)
    (fallbackBase : string) (docs : Value) (rows : list SystemRow)
  : list SystemRow :=
  (rows ++ [ {| row_resource := label;
                row_type := "service";
                row_status := if truthy service
                              then (if truthy (member service "ok") then Ok else Down)
                              else Unknown;
                row_docs := docs;
                row_updated := updated;
                row_endpoint :=
                  or_else (or_else (opt_prop service "base_url") (str fallbackBase))
                          (str "-") |} ])%list.

(** [let ecosystem = null; if (config.llmBaseUrl) { ... }]: the value of
    [ecosystem] afterwards. *)
Definition probeEcosystem : M Value :=
  if negb (llmBaseUrl config =? EmptyString)%string then
    ecosystemResponse <-
      fetchJson (llmBaseUrl config ++ "/internal/ecosystem/status?collection=anthology") ;;
    ret (if ok ecosystemResponse && truthy (data ecosystemResponse)
         then data ecosystemResponse else VNull)
  else ret VNull.

(** The branch [if (ecosystem?.services) { ... }]. *)
Definition ecosystemRows (ecosystem : Value) (rows : list SystemRow)
  : M (list SystemRow) :=
  let services := member ecosystem "services" in
  updated <- lift (formatTimestamp (member ecosystem "generated_at")) ;;
  let llmService := or_else (member services "llm") VNull in
  llmDocs <-
    lift (if truthy llmService then
            if truthy (member llmService "model_id")
            then trimModelId_of (member llmService "model_id")
            else Ret (str (if truthy (member llmService "loaded")
                           then "loaded" else "unloaded"))
          else Ret (str "-")) ;;
  let rows := addServiceRow updated "mlx-llm" llmService (llmBaseUrl config) llmDocs rows in
  let ragService := or_else (member services "rag") VNull in
  ragDocs <-
    lift (if truthy (opt_prop ragService "embedding_model")
          then trimModelId_of (member ragService "embedding_model")
          else Ret (str "-")) ;;
  let rows := addServiceRow updated "mlx-rag" ragService (ragBaseUrl config) ragDocs rows in
  let rows :=
    addServiceRow updated "mlx-audio" (or_else (member services "audio") VNull)
                  (audioBaseUrl config) (str "-") rows in
  let rows :=
    if truthy (member services "vlm")
    then addServiceRow updated "mlx-vlm" (member services "vlm") "-" (str "-") rows
    else rows in
  let rows :=
    if truthy (member services "mcp")
    then addServiceRow updated "mlx-mcp" (member services "mcp") "-" (str "-") rows
    else rows in
  ret rows.

Record Service : Type := {
  sv_resource : string;
  sv_type : string;
  sv_base : string;
  sv_health : string
}.

(** The array [services] of the [else] branch. *)
Definition services : list Service := [
  {| sv_resource := "mlx-llm"; sv_type := "service";
     sv_base := llmBaseUrl config; sv_health := "/health" |};
  {| sv_resource := "mlx-rag"; sv_type := "service";
     sv_base := ragBaseUrl config; sv_health := "/health" |};
  {| sv_resource := "mlx-audio"; sv_type := "service";
     sv_base := audioBaseUrl config; sv_health := "/health" |} ].

(** The body of [for (const service of services)]. *)
Definition healthRow (service : Service) (rows : list SystemRow)
  : M (list SystemRow) :=
  health <- fetchJson (sv_base service ++ sv_health service) ;;
  ret (rows ++ [ {| row_resource := sv_resource service;
                    row_type := sv_type service;
                    row_status := if ok health then Ok else Down;
                    row_docs := str "-";
                    row_updated := str "-";
                    row_endpoint := str (sv_base service) |} ])%list.

Definition collections : list string := ["anthology"; "blog"; "projects"].

(** The body of [for (const collection of collections)]. *)
Definition collectionRow (ecosystem : Value) (collection : string)
    (rows : list SystemRow) : M (list SystemRow) :=
  statsPayload <-
    (if truthy (opt_prop (opt_prop (opt_prop ecosystem "services") "rag") "stats")
        && strict_eq_str (member ecosystem "collection") collection
     then ret (member (member (member ecosystem "services") "rag") "stats")
     else
       statsResponse <-
         fetchJson (ragBaseUrl config ++ "/rag_stats?collection="
                    ++ encodeURIComponent collection) ;;
       ret (if ok statsResponse
            then VObj [("ok", VBool true); ("data", data statsResponse)]
            else VNull)) ;;
  parsedStats <- lift (extractRagStats statsPayload) ;;
  let count :=
    match parsedStats with Some p => str (stats_count p) | None => str "-" end in
  let updated :=
    match parsedStats with
    | Some p => coalesce (stats_updated p) (str "-")
    | None => str "-"
    end in
  ret (rows ++ [ {| row_resource := "rag:" ++ collection;
                    row_type := "collection";
                    row_status := match parsedStats with Some _ => Ok | None => Down end;
                    row_docs := count;
                    row_updated := updated;
                    row_endpoint := str (ragBaseUrl config ++ "/rag_stats") |} ])%list.

Definition loadSystemRows : M (list SystemRow) :=
  let rows : list SystemRow := [] in
  ecosystem <- probeEcosystem ;;
  rows <-
    (if truthy (opt_prop ecosystem "services")
     then ecosystemRows ecosystem rows
     else for_of services healthRow rows) ;;
  rows <- for_of collections (collectionRow ecosystem) rows ;;
  ret rows.

(** ** app.ts: [loadPosts] *)

Definition loadPosts : M Value :=
  try_catch
    (res <- request "/posts.json" ;;
     if negb (res_ok res) then ret fallbackPosts
     else
       data <- json res ;;
       posts <- lift (prop data "posts") ;;
       if negb (truthy posts) || negb (isArray posts) then ret fallbackPosts
       else ret data)
    (fun _ => ret fallbackPosts).

(** ** app.ts: rendering *)

Definition nl : string := String (ascii_of_nat 10) EmptyString.

Definition setHeroTerminal : M unit :=
  d <- get_page ;;
  match heroTerminal d with
  | None => ret tt
  | Some _ =>
      let lines := [
        "le-belle-epoch boot";
        "- posts.json: ready";
        "- rag sync: pending";
        "- rag endpoint: " ++ ragBaseUrl config;
        "- llm endpoint: " ++ llmBaseUrl config;
        "- audio endpoint: " ++ audioBaseUrl config;
        "- status: awaiting prompts" ] in
      set_page {| heroTerminal := Some (join nl lines);
                  headlineGrid := headlineGrid d;
                  postList := postList d;
                  systemTableBody := systemTableBody d;
                  chatTerminal := chatTerminal d |}
  end.

Definition setChatTerminal : M unit :=
  d <- get_page ;;
  match chatTerminal d with
  | None => ret tt
  | Some _ =>
      let lines := [
        "terminal feed";
        "- chat panel online";
        "- outline: headlines, briefs, status";
        "- prompt chain: inactive" ] in
      set_page {| heroTerminal := heroTerminal d;
                  headlineGrid := headlineGrid d;
                  postList := postList d;
                  systemTableBody := systemTableBody d;
                  chatTerminal := Some (join nl lines) |}
  end.

(** [posts.forEach(...)] and [posts.slice(0, 4)] want an array. *)
Definition as_array (v : Value) : Outcome (list Value) :=
  match v with
  | VArr items => Ret items
  | _ => Throw TypeError
  end.

(** [tags.join(" ")]: only an array has [join]. *)
Definition tags_join (tags : Value) : Outcome string :=
  match tags with
  | VArr items => join_values " " items
  | _ => Throw TypeError
  end.

(** [tags.length ? tags.join(" ") : "untagged"]. *)
Definition tags_text (tags : Value) : Outcome string :=
  match tags with
  | VUndefined | VNull => Throw TypeError
  | VArr [] => Ret "untagged"
  | VArr items => join_values " " items
  | VStr s => if (s =? EmptyString)%string then Ret "untagged" else Throw TypeError
  | VObj ps => if truthy (lookup "length" ps) then Throw TypeError else Ret "untagged"
  | VBool _ | VNum _ | VFrac _ _ => Ret "untagged"
  end.

(** The card [renderHeadlines] builds for one post: the holes of the
    template are filled from left to right. *)
Definition headlineCard (post : Value) : Outcome HeadlineCard :=
  let* project := prop post "project" in
  let* project := ToString (or_else project (str "Anthology")) in
  let* title := ToString (member post "title") in
  let* summary := ToString (member post "summary") in
  let* date := formatDate (member post "published_at") in
  let* date := ToString date in
  let* tags := tags_join (member post "tags") in
  Ret {| hc_project := project;
         hc_title := title;
         hc_summary := summary;
         hc_date := date;
         hc_tags := tags |}.

Definition renderHeadlines (posts : Value) : M unit :=
  d <- get_page ;;
  match headlineGrid d with
  | None => ret tt
  | Some _ =>
      set_page {| heroTerminal := heroTerminal d;
                  headlineGrid := Some [];
                  postList := postList d;
                  systemTableBody := systemTableBody d;
                  chatTerminal := chatTerminal d |} ;;;
      posts <- lift (as_array posts) ;;
      forEach (firstn 4 posts)
        (fun post =>
           card <- lift (headlineCard post) ;;
           d <- get_page ;;
           set_page {| heroTerminal := heroTerminal d;
                       headlineGrid :=
                         Some (match headlineGrid d with Some cs => cs | None => [] end
                               ++ [card])%list;
                       postList := postList d;
                       systemTableBody := systemTableBody d;
                       chatTerminal := chatTerminal d |})
  end.

(** The card [renderPosts] builds for one post: [tags] first, then the
    holes of the template from left to right. *)
Definition postCard (post : Value) : Outcome PostCard :=
  let* tags := prop post "tags" in
  let* tags := tags_text tags in
  let* project := ToString (or_else (member post "project") (str "Anthology")) in
  let* date := formatDate (member post "published_at") in
  let* date := ToString date in
  let* title := ToString (member post "title") in
  let* summary := ToString (member post "summary") in
  let* voice := ToString (or_else (member post "voice_id") (str "kokoro_default")) in
  Ret {| pc_project := project;
         pc_date := date;
         pc_tags := tags;
         pc_title := title;
         pc_summary := summary;
         pc_voice := voice |}.

Definition renderPosts (posts : Value) : M unit :=
  d <- get_page ;;
  match postList d with
  | None => ret tt
  | Some _ =>
      set_page {| heroTerminal := heroTerminal d;
                  headlineGrid := headlineGrid d;
                  postList := Some [];
                  systemTableBody := systemTableBody d;
                  chatTerminal := chatTerminal d |} ;;;
      posts <- lift (as_array posts) ;;
      forEach posts
        (fun post =>
           card <- lift (postCard post) ;;
           d <- get_page ;;
           set_page {| heroTerminal := heroTerminal d;
                       headlineGrid := headlineGrid d;
                       postList :=
                         Some (match postList d with Some cs => cs | None => [] end
                               ++ [card])%list;
                       systemTableBody := systemTableBody d;
                       chatTerminal := chatTerminal d |})
  end.

(** The row [renderTableRows] builds for one system row. *)
Definition tableRow (row : SystemRow) : Outcome TableRow :=
  let* docs := ToString (row_docs row) in
  let* updated := ToString (row_updated row) in
  let* endpoint := ToString (row_endpoint row) in
  Ret {| tr_resource := row_resource row;
         tr_type := row_type row;
         tr_statusClass :=
           match row_status row with
           | Ok => "ok" | Down => "down" | Unknown => EmptyString
           end;
         tr_statusLabel :=
           match row_status row with
           | Ok => "ok" | Down => "down" | Unknown => "unknown"
           end;
         tr_docs := docs;
         tr_updated := updated;
         tr_endpoint := endpoint |}.

Definition renderTableRows (rows : list SystemRow) : M unit :=
  d <- get_page ;;
  match systemTableBody d with
  | None => ret tt
  | Some _ =>
      set_page {| heroTerminal := heroTerminal d;
                  headlineGrid := headlineGrid d;
                  postList := postList d;
                  systemTableBody := Some [];
                  chatTerminal := chatTerminal d |} ;;;
      forEach rows
        (fun row =>
           el <- lift (tableRow row) ;;
           d <- get_page ;;
           set_page {| heroTerminal := heroTerminal d;
                       headlineGrid := headlineGrid d;
                       postList := postList d;
                       systemTableBody :=
                         Some (match systemTableBody d with Some els => els | None => [] end
                               ++ [el])%list;
                       chatTerminal := chatTerminal d |})
  end.

(** ** app.ts: [bootstrap] *)

Definition bootstrap : M unit :=
  setHeroTerminal ;;;
  setChatTerminal ;;;
  postsPayload <- loadPosts ;;
  posts <- lift (prop postsPayload "posts") ;;
  renderHeadlines posts ;;;
  renderPosts posts ;;;
  rows <- loadSystemRows ;;
  renderTableRows rows.

(** ** runtime/runtime-panel.ts: [fetchModelRuntimeStatus] *)

(** The object built from the reply of the diagnostics endpoint.  Each of
    its fields is read off [diagnostics], which is a [TypeError] when the
    reply is [null]. *)
Definition reshapeDiagnostics (diagnostics : Value) : Outcome Value :=
  if nullish diagnostics then Throw TypeError
  else
    Ret (VObj [
      ("status", member diagnostics "status");
      ("loaded", member diagnostics "handler_initialized");
      ("model_id", opt_prop (member diagnostics "loaded_model") "model_id");
      ("model_path", opt_prop (member diagnostics "loaded_model") "model_path");
      ("model_type", opt_prop (member diagnostics "loaded_model") "model_type");
      ("queue", or_else (member diagnostics "queue") VNull);
      ("config", or_else (member diagnostics "config") VNull) ]).

(** The first [try] block either returns from the function ([Some]) or is
    left, normally or through its [catch], for the second ([None]). *)
Definition fetchModelRuntimeStatus (llmBaseUrl : string) : M Value :=
  if (llmBaseUrl =? EmptyString)%string then ret VNull
  else
    let statusUrl := llmBaseUrl ++ "/internal/models/status" in
    let diagnosticsUrl := llmBaseUrl ++ "/internal/diagnostics" in
    returned <-
      try_catch
        (response <- request statusUrl ;;
         if res_ok response then
           payload <- json response ;;
           ret (Some payload)
         else if negb (res_status response =? 404) then
           throw (ErrorMsg ("Status endpoint error ("
                            ++ number_to_string (res_status response) ++ ")"))
         else ret None)
        (fun _ => ret None) ;;
    match returned with
    | Some payload => ret payload
    | None =>
        try_catch
          (response <- request diagnosticsUrl ;;
           if negb (res_ok response) then
             throw (ErrorMsg ("Diagnostics endpoint error ("
                              ++ number_to_string (res_status response) ++ ")"))
           else
             diagnostics <- json response ;;
             lift (reshapeDiagnostics diagnostics))
          (fun _ => ret VNull)
    end.

End Page.

(** ** The older copy of the page *)

Module Legacy.

(** [fetchJson] without the inner [catch] on [res.json()]. *)
Definition fetchJson `{Host} (url : string) : M Probe :=
  try_catch
    (bind (request url) (fun res =>
       if negb (res_ok res) then ret {| ok := false; data := VUndefined |}
       else bind (json res) (fun data => ret {| ok := true; data := data |})))
    (fun _ => ret {| ok := false; data := VUndefined |}).

End Legacy.

(** ** runtime/runtime-panel.ts and app.ts: the runtime panel

    The twelve elements of the panel are the record [Panel]: what the code
    reads and writes of them, and no more.  The functions that only write
    to the panel are state transformers of it; the [async] ones run on a
    [Session], the state of [M] together with the panel, so that what was
    written to the panel before a rejection stays written. *)

(** An element that shows a value: its text and its [title] attribute. *)
Record Element : Type := {
  textContent : string;
  title : option string
}.

(** An [<option>] of the model selector. *)
Record SelectOption : Type := {
  so_value : string;
  so_text : string;
  so_title : option string
}.

Record Panel : Type := {
  llmRuntimeLoaded : Element;
  llmRuntimeModel : Element;
  llmRuntimeType : Element;
  llmRuntimeQueue : Element;
  llmRuntimeActive : Element;
  llmRuntimeConfig : Element;
  llmRuntimeStatus : string;
  selectOptions : list SelectOption;
  selectValue : string;
  refreshDisabled : bool;
  unloadDisabled : bool;
  loadDisabled : bool;
  forceChecked : bool
}.

(** What the browser adds for the two requests that change the server and
    for the texts shown on a failure: [fetch] with [method: "POST"] and a
    JSON body, [response.text()] ([None] when it is rejected), and the
    [message] of what a built-in operation was rejected with. *)
Class PanelHost `{Host} : Type := {
  send : string -> Value -> World -> Reply * World;
  response_text : Response -> option string;
  host_message : Exn -> string
}.

Definition setRuntimeStatusText (text : string) (els : Panel) : Panel :=
  {| llmRuntimeLoaded := llmRuntimeLoaded els;
     llmRuntimeModel := llmRuntimeModel els;
     llmRuntimeType := llmRuntimeType els;
     llmRuntimeQueue := llmRuntimeQueue els;
     llmRuntimeActive := llmRuntimeActive els;
     llmRuntimeConfig := llmRuntimeConfig els;
     llmRuntimeStatus := text;
     selectOptions := selectOptions els;
     selectValue := selectValue els;
     refreshDisabled := refreshDisabled els;
     unloadDisabled := unloadDisabled els;
     loadDisabled := loadDisabled els;
     forceChecked := forceChecked els |}.

Definition setRuntimeBusy (busy : bool) (els : Panel) : Panel :=
  {| llmRuntimeLoaded := llmRuntimeLoaded els;
     llmRuntimeModel := llmRuntimeModel els;
     llmRuntimeType := llmRuntimeType els;
     llmRuntimeQueue := llmRuntimeQueue els;
     llmRuntimeActive := llmRuntimeActive els;
     llmRuntimeConfig := llmRuntimeConfig els;
     llmRuntimeStatus := llmRuntimeStatus els;
     selectOptions := selectOptions els;
     selectValue := selectValue els;
     refreshDisabled := busy;
     unloadDisabled := busy;
     loadDisabled := busy;
     forceChecked := forceChecked els |}.

(** The panel with one of its six elements that show a value replaced. *)
Definition with_loaded (el : Element) (els : Panel) : Panel :=
  {| llmRuntimeLoaded := el;
     llmRuntimeModel := llmRuntimeModel els;
     llmRuntimeType := llmRuntimeType els;
     llmRuntimeQueue := llmRuntimeQueue els;
     llmRuntimeActive := llmRuntimeActive els;
     llmRuntimeConfig := llmRuntimeConfig els;
     llmRuntimeStatus := llmRuntimeStatus els;
     selectOptions := selectOptions els;
     selectValue := selectValue els;
     refreshDisabled := refreshDisabled els;
     unloadDisabled := unloadDisabled els;
     loadDisabled := loadDisabled els;
     forceChecked := forceChecked els |}.

Definition with_model (el : Element) (els : Panel) : Panel :=
  {| llmRuntimeLoaded := llmRuntimeLoaded els;
     llmRuntimeModel := el;
     llmRuntimeType := llmRuntimeType els;
     llmRuntimeQueue := llmRuntimeQueue els;
     llmRuntimeActive := llmRuntimeActive els;
     llmRuntimeConfig := llmRuntimeConfig els;
     llmRuntimeStatus := llmRuntimeStatus els;
     selectOptions := selectOptions els;
     selectValue := selectValue els;
     refreshDisabled := refreshDisabled els;
     unloadDisabled := unloadDisabled els;
     loadDisabled := loadDisabled els;
     forceChecked := forceChecked els |}.

Definition with_type (el : Element) (els : Panel) : Panel :=
  {| llmRuntimeLoaded := llmRuntimeLoaded els;
     llmRuntimeModel := llmRuntimeModel els;
     llmRuntimeType := el;
     llmRuntimeQueue := llmRuntimeQueue els;
     llmRuntimeActive := llmRuntimeActive els;
     llmRuntimeConfig := llmRuntimeConfig els;
     llmRuntimeStatus := llmRuntimeStatus els;
     selectOptions := selectOptions els;
     selectValue := selectValue els;
     refreshDisabled := refreshDisabled els;
     unloadDisabled := unloadDisabled els;
     loadDisabled := loadDisabled els;
     forceChecked := forceChecked els |}.

Definition with_queue (el : Element) (els : Panel) : Panel :=
  {| llmRuntimeLoaded := llmRuntimeLoaded els;
     llmRuntimeModel := llmRuntimeModel els;
     llmRuntimeType := llmRuntimeType els;
     llmRuntimeQueue := el;
     llmRuntimeActive := llmRuntimeActive els;
     llmRuntimeConfig := llmRuntimeConfig els;
     llmRuntimeStatus := llmRuntimeStatus els;
     selectOptions := selectOptions els;
     selectValue := selectValue els;
     refreshDisabled := refreshDisabled els;
     unloadDisabled := unloadDisabled els;
     loadDisabled := loadDisabled els;
     forceChecked := forceChecked els |}.

Definition with_active (el : Element) (els : Panel) : Panel :=
  {| llmRuntimeLoaded := llmRuntimeLoaded els;
     llmRuntimeModel := llmRuntimeModel els;
     llmRuntimeType := llmRuntimeType els;
     llmRuntimeQueue := llmRuntimeQueue els;
     llmRuntimeActive := el;
     llmRuntimeConfig := llmRuntimeConfig els;
     llmRuntimeStatus := llmRuntimeStatus els;
     selectOptions := selectOptions els;
     selectValue := selectValue els;
     refreshDisabled := refreshDisabled els;
     unloadDisabled := unloadDisabled els;
     loadDisabled := loadDisabled els;
     forceChecked := forceChecked els |}.

Definition with_config (el : Element) (els : Panel) : Panel :=
  {| llmRuntimeLoaded := llmRuntimeLoaded els;
     llmRuntimeModel := llmRuntimeModel els;
     llmRuntimeType := llmRuntimeType els;
     llmRuntimeQueue := llmRuntimeQueue els;
     llmRuntimeActive := llmRuntimeActive els;
     llmRuntimeConfig := el;
     llmRuntimeStatus := llmRuntimeStatus els;
     selectOptions := selectOptions els;
     selectValue := selectValue els;
     refreshDisabled := refreshDisabled els;
     unloadDisabled := unloadDisabled els;
     loadDisabled := loadDisabled els;
     forceChecked := forceChecked els |}.

(** A function that writes to the panel and is not [async]: it returns or
    raises, and what it wrote before raising stays written. *)
Definition Writer : Type := Panel -> Outcome unit * Panel.

Definition and_write (a b : Writer) : Writer :=
  fun els =>
    match a els with
    | (Ret _, els') => b els'
    | (Throw e, els') => (Throw e, els')
    end.

(** A step that computes a value, and writes nothing if that raises. *)
Definition computing {A : Type} (o : Outcome A) (k : A -> Writer) : Writer :=
  fun els =>
    match o with
    | Ret a => k a els
    | Throw e => (Throw e, els)
    end.

(** [el.textContent = value]: the attribute is a nullable string, so
    [null] and [undefined] empty the element; any other value is
    converted to a string. *)
Definition textContent_of (value : Value) : Outcome string :=
  match value with
  | VNull | VUndefined => Ret EmptyString
  | _ => ToString value
  end.

(** [setRuntimeValue(el, value, title)]: the text is written first, then
    the title is set, or removed for a falsy [title]. *)
Definition setRuntimeValue (value title_ : Value) (el : Element)
  : Outcome unit * Element :=
  match textContent_of value with
  | Throw e => (Throw e, el)
  | Ret text =>
      if truthy title_ then
        match ToString title_ with
        | Throw e => (Throw e, {| textContent := text; title := title el |})
        | Ret shown => (Ret tt, {| textContent := text; title := Some shown |})
        end
      else (Ret tt, {| textContent := text; title := None |})
  end.

(** [setRuntimeValue] on one element of the panel. *)
Definition write (get : Panel -> Element) (put : Element -> Panel -> Panel)
    (value title_ : Value) : Writer :=
  fun els =>
    let (o, el) := setRuntimeValue value title_ (get els) in (o, put el els).

Section PanelWriters.

Context `{Host}.

(** The list [configBits] of [updateRuntimePanel]. *)
Definition configBits (status : Value) : Outcome (list string) :=
  let config_ := member status "config" in
  let* max_ :=
    if negb (nullish (opt_prop config_ "max_concurrency")) then
      let* n := ToString (member config_ "max_concurrency") in Ret ["max:" ++ n]
    else Ret [] in
  let* q :=
    if negb (nullish (opt_prop config_ "queue_size")) then
      let* n := ToString (member config_ "queue_size") in Ret ["q:" ++ n]
    else Ret [] in
  let* timeout :=
    if negb (nullish (opt_prop config_ "queue_timeout")) then
      let* n := ToString (member config_ "queue_timeout") in
      Ret ["timeout:" ++ n ++ "s"]
    else Ret [] in
  let warmup :=
    match opt_prop config_ "mlx_warmup" with
    | VBool warm => [if warm then "warmup:on" else "warmup:off"]
    | _ => []
    end in
  Ret (max_ ++ q ++ timeout ++ warmup)%list.

(** [updateRuntimePanel(els, status)].  The texts of the configuration are
    built before anything is written; after that each call of
    [setRuntimeValue] has its arguments computed and then writes. *)
Definition updateRuntimePanel (status : Value) : Writer :=
  if negb (truthy status) then
    and_write (write llmRuntimeLoaded with_loaded (str "Unavailable") VUndefined)
   (and_write (write llmRuntimeType with_type (str "-") VUndefined)
   (and_write (write llmRuntimeModel with_model (str "-") VUndefined)
   (and_write (write llmRuntimeQueue with_queue (str "-") VUndefined)
   (and_write (write llmRuntimeActive with_active (str "-") VUndefined)
   (and_write (write llmRuntimeConfig with_config (str "-") VUndefined)
              (fun els =>
                 (Ret tt, setRuntimeStatusText "LLM diagnostics unavailable." els)))))))
  else
    let loaded := if truthy (member status "loaded") then "Loaded" else "Not loaded" in
    let modelId :=
      or_else (or_else (member status "model_id") (member status "model_path"))
              (str EmptyString) in
    let modelType := or_else (member status "model_type") (str "-") in
    let queueStats := opt_prop (member status "queue") "queue_stats" in
    let activeRequests := coalesce (opt_prop queueStats "active_requests") (VNum 0) in
    let queued := coalesce (opt_prop queueStats "queue_size") (VNum 0) in
    let activeStreams :=
      coalesce (opt_prop (member status "queue") "active_streams") (VNum 0) in
    computing (configBits status) (fun bits =>
    and_write (write llmRuntimeLoaded with_loaded (str loaded) VUndefined)
   (and_write (write llmRuntimeType with_type modelType VUndefined)
   (and_write (computing (trimModelId_of modelId) (fun shown =>
               write llmRuntimeModel with_model shown (or_else modelId VNull)))
   (and_write (computing
                 (let* active := ToString activeRequests in
                  let* queued := ToString queued in
                  Ret (active ++ " active / " ++ queued ++ " queued"))
                 (fun text => write llmRuntimeQueue with_queue (str text) VUndefined))
   (and_write (computing
                 (let* streams := ToString activeStreams in Ret (streams ++ " streams"))
                 (fun text => write llmRuntimeActive with_active (str text) VUndefined))
   (and_write (write llmRuntimeConfig with_config
                 (str (match bits with
                       | [] => "-"
                       | _ => join " | " bits
                       end)) VUndefined)
              (fun els =>
                 (Ret tt, setRuntimeStatusText "LLM status updated." els)))))))).

End PanelWriters.

(** The model selector of [populateRuntimeModelSelect]: a [Set] keeps the
    first of equal elements, in the order they were added. *)
Definition set_add (x : string) (set : list string) : list string :=
  if existsb (String.eqb x) set then set else (set ++ [x])%list.

Definition set_from (xs : list string) : list string :=
  fold_left (fun set x => set_add x set) xs [].

(** [Array.prototype.sort()] without a comparator, on strings: the order
    of the code units. *)
Fixpoint sort_insert (x : string) (sorted : list string) : list string :=
  match sorted with
  | [] => [x]
  | y :: rest =>
      if String.leb x y then x :: y :: rest else y :: sort_insert x rest
  end.

Definition sort (xs : list string) : list string :=
  fold_right sort_insert [] xs.

(** [populateRuntimeModelSelect(select, models, activeModel)]: the options
    and the value of the selector afterwards. *)
Definition populateRuntimeModelSelect (models : list string) (activeModel : string)
    (els : Panel) : Panel :=
  let placeholder :=
    {| so_value := EmptyString; so_text := "Select model"; so_title := None |} in
  let modelSet :=
    set_from (filter (fun m => negb (m =? EmptyString)%string) models) in
  let modelSet :=
    if negb (activeModel =? EmptyString)%string then set_add activeModel modelSet
    else modelSet in
  let options :=
    map (fun modelId => {| so_value := modelId;
                           so_text := trimModelId (Present modelId);
                           so_title := Some modelId |})
        (sort modelSet) in
  {| llmRuntimeLoaded := llmRuntimeLoaded els;
     llmRuntimeModel := llmRuntimeModel els;
     llmRuntimeType := llmRuntimeType els;
     llmRuntimeQueue := llmRuntimeQueue els;
     llmRuntimeActive := llmRuntimeActive els;
     llmRuntimeConfig := llmRuntimeConfig els;
     llmRuntimeStatus := llmRuntimeStatus els;
     selectOptions := placeholder :: options;
     selectValue :=
       if negb (activeModel =? EmptyString)%string
          && existsb (String.eqb activeModel) modelSet
       then activeModel else EmptyString;
     refreshDisabled := refreshDisabled els;
     unloadDisabled := unloadDisabled els;
     loadDisabled := loadDisabled els;
     forceChecked := forceChecked els |}.

Section PanelActions.

Context `{PanelHost}.

(** [payload.data.map((model) => model.id)]: reading [id] off [null] is a
    [TypeError]. *)
Fixpoint model_ids (models : list Value) : Outcome (list Value) :=
  match models with
  | [] => Ret []
  | model :: rest =>
      match prop model "id" with
      | Throw e => Throw e
      | Ret id =>
          match model_ids rest with
          | Throw e => Throw e
          | Ret ids => Ret (id :: ids)
          end
      end
  end.

(** [loadRuntimeModels(llmBaseUrl)]; the ids are cast to [string[]]
    without a check, and are values here. *)
Definition loadRuntimeModels (llmBaseUrl : string) : M (list Value) :=
  bind (fetchJson (llmBaseUrl ++ "/v1/models")) (fun response =>
  if negb (ok response) || negb (truthy (data response)) then ret []
  else
    match member (data response) "data" with
    | VArr models =>
        bind (lift (model_ids models)) (fun ids => ret (filter truthy ids))
    | _ => ret []
    end).

Record Session : Type := {
  net : State;
  els : Panel
}.

Definition MP (A : Type) : Type := Session -> Outcome A * Session.

Definition pret {A} (a : A) : MP A := fun s => (Ret a, s).

Definition pbind {A B} (m : MP A) (k : A -> MP B) : MP B :=
  fun s =>
    match m s with
    | (Ret a, s') => k a s'
    | (Throw e, s') => (Throw e, s')
    end.

(** [try { m } catch (error) { handler }]. *)
Definition ptry {A} (m : MP A) (handler : Exn -> MP A) : MP A :=
  fun s =>
    match m s with
    | (Ret a, s') => (Ret a, s')
    | (Throw e, s') => handler e s'
    end.

(** [try { m } finally { cleanup }]. *)
Definition pfinally {A} (m : MP A) (cleanup : MP unit) : MP A :=
  fun s =>
    match m s with
    | (o, s') =>
        match cleanup s' with
        | (Ret _, s'') => (o, s'')
        | (Throw e, s'') => (Throw e, s'')
        end
    end.

(** A computation on the network alone, and a write to the panel. *)
Definition on_net {A} (m : M A) : MP A :=
  fun s => let (o, n) := m (net s) in (o, {| net := n; els := els s |}).

Definition on_els (f : Panel -> Panel) : MP unit :=
  fun s => (Ret tt, {| net := net s; els := f (els s) |}).

Definition get_els : MP Panel := fun s => (Ret (els s), s).

(** [await fetch(url, {method: "POST", ..., body: JSON.stringify(body)})];
    the request is recorded with its method. *)
Definition post_request (url : string) (body : Value) : M Response :=
  fun s =>
    let (reply, w) := send url body (world s) in
    let recorded := "POST " ++ url in
    let s' := {| world := w;
                 requests := (requests s ++ [recorded])%list;
                 page := page s |} in
    match reply with
    | Rejected => (Throw NetworkError, s')
    | Responded r => (Ret r, s')
    end.

(** [await response.text()]. *)
Definition text (r : Response) : M string :=
  match response_text r with
  | Some t => ret t
  | None => throw NetworkError
  end.

(** [error instanceof Error ? error.message : String(error)]. *)
Definition message (e : Exn) : string :=
  match e with
  | ErrorMsg msg => msg
  | _ => host_message e
  end.

Definition refreshRuntimePanel (llmBaseUrl : string) : MP unit :=
  if (llmBaseUrl =? EmptyString)%string then
    pbind (fun s => let (o, p) := updateRuntimePanel VNull (els s) in
                    (o, {| net := net s; els := p |})) (fun _ =>
    on_els (setRuntimeStatusText "Missing LLM base URL."))
  else
    pbind (on_els (setRuntimeBusy true)) (fun _ =>
    pbind (on_els (setRuntimeStatusText "Refreshing...")) (fun _ =>
    pbind (on_net (fetchModelRuntimeStatus llmBaseUrl)) (fun status =>
    pbind (fun s => let (o, p) := updateRuntimePanel status (els s) in
                    (o, {| net := net s; els := p |})) (fun _ =>
    on_els (setRuntimeBusy false))))).

(** In the two functions below the [try] block returns early on a reply
    that is not ok; the [finally] block runs on every way out. *)
Definition unloadRuntimeModel (llmBaseUrl : string) : MP unit :=
  if (llmBaseUrl =? EmptyString)%string then
    on_els (setRuntimeStatusText "Missing LLM base URL.")
  else
    pbind (on_els (setRuntimeBusy true)) (fun _ =>
    pbind (on_els (setRuntimeStatusText "Unloading model...")) (fun _ =>
    pfinally
      (ptry
         (pbind get_els (fun panel =>
          pbind (on_net (post_request (llmBaseUrl ++ "/internal/models/unload")
                           (VObj [("force", VBool (forceChecked panel))])))
            (fun response =>
          if negb (res_ok response) then
            pbind (on_net (text response)) (fun detail =>
            on_els (setRuntimeStatusText
                      ("Unload failed (" ++ number_to_string (res_status response)
                       ++ "): " ++ detail)))
          else refreshRuntimePanel llmBaseUrl)))
         (fun error =>
            on_els (setRuntimeStatusText
                      ("Unload failed (network): " ++ message error))))
      (on_els (setRuntimeBusy false)))).

Definition loadRuntimeModel (llmBaseUrl : string) : MP unit :=
  if (llmBaseUrl =? EmptyString)%string then
    on_els (setRuntimeStatusText "Missing LLM base URL.")
  else
    pbind get_els (fun panel =>
    let modelId := selectValue panel in
    if (modelId =? EmptyString)%string then
      on_els (setRuntimeStatusText "Select a model to load.")
    else
      pbind (on_els (setRuntimeBusy true)) (fun _ =>
      pbind (on_els (setRuntimeStatusText ("Loading " ++ modelId ++ "..."))) (fun _ =>
      pfinally
        (ptry
           (pbind get_els (fun panel =>
            pbind (on_net (post_request (llmBaseUrl ++ "/internal/models/load")
                             (VObj [("model_id", str modelId);
                                    ("force", VBool (forceChecked panel))])))
              (fun response =>
            if negb (res_ok response) then
              pbind (on_net (text response)) (fun detail =>
              on_els (setRuntimeStatusText
                        ("Load failed (" ++ number_to_string (res_status response)
                         ++ "): " ++ detail)))
            else refreshRuntimePanel llmBaseUrl)))
           (fun error =>
              on_els (setRuntimeStatusText
                        ("Load failed (network): " ++ message error))))
        (on_els (setRuntimeBusy false))))).

End PanelActions.

(** ** The older copy of the page: [loadSystemRows]

    The older page has no combined endpoint: it probes the three services
    and the three collections, with its own [fetchJson], and reads the
    statistics by itself.  Its arrays [services] and [collections], its
    [config] and its [formatDate] are those of [app.ts], word for word. *)

Module LegacyPage.

Section Rows.

Context `{Host}.

(** The body of [for (const service of services)]. *)
Definition healthRow (service : Service) (rows : list SystemRow)
  : M (list SystemRow) :=
  bind (Legacy.fetchJson (sv_base service ++ sv_health service)) (fun health =>
  ret (rows ++ [ {| row_resource := sv_resource service;
                    row_type := sv_type service;
                    row_status := if ok health then Ok else Down;
                    row_docs := str "-";
                    row_updated := str "-";
                    row_endpoint := str (sv_base service) |} ])%list).

(** The body of [for (const collection of collections)]. *)
Definition collectionRow (collection : string) (rows : list SystemRow)
  : M (list SystemRow) :=
  bind (Legacy.fetchJson (ragBaseUrl config ++ "/rag_stats?collection="
                          ++ encodeURIComponent collection)) (fun stats =>
  bind (lift (if ok stats
              then ToString (coalesce (coalesce (opt_prop (data stats) "count")
                                                (opt_prop (data stats) "documents"))
                                      (str "-"))
              else Ret "-")) (fun count =>
  bind (lift (if ok stats
              then formatDate (or_else (opt_prop (data stats) "updated_at")
                                       (opt_prop (data stats) "generated_at"))
              else Ret (str "-"))) (fun updated =>
  ret (rows ++ [ {| row_resource := "rag:" ++ collection;
                    row_type := "collection";
                    row_status := if ok stats then Ok else Down;
                    row_docs := str count;
                    row_updated := updated;
                    row_endpoint := str (ragBaseUrl config ++ "/rag_stats") |} ])%list))).

Definition loadSystemRows : M (list SystemRow) :=
  let rows : list SystemRow := [] in
  bind (for_of services healthRow rows) (fun rows =>
  bind (for_of collections collectionRow rows) (fun rows =>
  ret rows)).

End Rows.

End LegacyPage.

(** The status the older page shows for a probe with this reply: "ok" for
    a status in 200..299 with a JSON body. *)
Definition legacy_status (reply : Reply) : Status :=
  match reply with
  | Rejected => Down
  | Responded r =>
      match res_ok r, res_body r with
      | true, Some _ => Ok
      | _, _ => Down
      end
  end.

(** ** Vocabulary of the specification *)

(** The text for a time value in milliseconds: the date and the time of day
    to the minute, and the placeholder for a time value outside the range
    of [Date]. *)
Definition millis_text (ms : Z) : Value :=
  match TimeClip ms with
  | None => str "-"
  | Some date => str (replace_first "T" " " (slice (toISOString date) 0 (Some 16)))
  end.

(** The value of the first of [keys] that is present in [record], a field
    being present when its value is neither [null] nor [undefined];
    [undefined] when none is. *)
Fixpoint first_present (record : Value) (keys : list string) : Value :=
  match keys with
  | [] => VUndefined
  | k :: rest =>
      if nullish (member record k) then first_present record rest
      else member record k
  end.

(** Two objects with the same properties: reading any key gives the same
    value, an absent property and one set to [undefined] being alike. *)
Definition same_properties (a b : Value) : Prop :=
  forall k : string, member a k = member b k.

(** A request that failed: no response at all, a status outside 200..299,
    or a body that is not JSON. *)
Inductive failed : Reply -> Prop :=
| failed_transport : failed Rejected
| failed_status (r : Response) : res_ok r = false -> failed (Responded r)
| failed_body (r : Response) : res_body r = None -> failed (Responded r).

(** [typeof v === "number"]. *)
Definition is_number (v : Value) : bool :=
  match v with
  | VNum _ | VFrac _ _ => true
  | _ => false
  end.

(** A payload field that has its declared type [string | null | undefined]. *)
Definition optional_string (v : Value) : bool :=
  match v with
  | VUndefined | VNull | VStr _ => true
  | _ => false
  end.

(** The reply to a request made in state [s], and the state after it. *)
Definition reply_to `{Host} (url : string) (s : State) : Reply :=
  fst (fetch url (world s)).

Definition after `{Host} (url : string) (s : State) : State :=
  {| world := snd (fetch url (world s));
     requests := requests s ++ [url];
     page := page s |}.

(** What a probe makes of a reply. *)
Definition probe_of (reply : Reply) : Probe :=
  match reply with
  | Rejected => {| ok := false; data := VUndefined |}
  | Responded r =>
      if res_ok r
      then {| ok := true;
              data := match res_body r with Some body => body | None => VNull end |}
      else {| ok := false; data := VUndefined |}
  end.

(** The state after a sequence of requests, and the replies to them. *)
Fixpoint after_all `{Host} (urls : list string) (s : State) : State :=
  match urls with
  | [] => s
  | url :: rest => after_all rest (after url s)
  end.

Fixpoint answers `{Host} (urls : list string) (s : State) : list Reply :=
  match urls with
  | [] => []
  | url :: rest => reply_to url s :: answers rest (after url s)
  end.

(** The status shown for a service whose [/health] got this reply. *)
Definition health_status (reply : Reply) : Status :=
  match reply with
  | Rejected => Down
  | Responded r => if res_ok r then Ok else Down
  end.

(** A request for the snapshot that does not give a list of posts: the
    request failed, or the body has no [posts] that is an array. *)
Inductive no_posts : Reply -> Prop :=
| no_posts_failed (reply : Reply) : failed reply -> no_posts reply
| no_posts_shape (r : Response) (body : Value) :
    res_body r = Some body ->
    isArray (opt_prop body "posts") = false ->
    no_posts (Responded r).

(** The cards of the four embedded posts, in the order of [fallbackPosts]. *)
Definition fallbackCards : list PostCard := [
  {| pc_project := "Anthology"; pc_date := "2025-12-28";
     pc_tags := "anthology summary";
     pc_title := "Anthology brief: what changed this week";
     pc_summary := "Snapshot of new documents, system shifts, and active experiments.";
     pc_voice := "kokoro_default" |};
  {| pc_project := "mlx-services"; pc_date := "2025-12-27";
     pc_tags := "rag maintenance";
     pc_title := "Voice notes: RAG maintenance signals";
     pc_summary := "Covers collection health, sync gaps, and query thresholds.";
     pc_voice := "kokoro_default" |};
  {| pc_project := "le-belle-epoch"; pc_date := "2025-12-26";
     pc_tags := "blog pipeline";
     pc_title := "Generator pipeline: markdown to posts.json";
     pc_summary := "Outline of the static build flow and runtime overlays.";
     pc_voice := "kokoro_default" |};
  {| pc_project := "mlx-services"; pc_date := "2025-12-25";
     pc_tags := "mlx status";
     pc_title := "System table: mlx-services alignment";
     pc_summary := "Status boards for llm, rag, audio, and mcp endpoints.";
     pc_voice := "kokoro_default" |} ].

(** The rows a computation returned, none if it raised. *)
Definition returned {A : Type} (o : Outcome (list A)) : list A :=
  match o with
  | Ret rows => rows
  | Throw _ => []
  end.

(** The status [addServiceRow] shows for an entry of [services]. *)
Definition service_status (service : Value) : Status :=
  if truthy service
  then (if truthy (member service "ok") then Ok else Down)
  else Unknown.

(** The state in which the list of posts of the page, or the grid of
    headlines, or the body of the table, holds [cards]. *)
Definition set_postList `{Host} (cards : option (list PostCard)) (s : State) : State :=
  {| world := world s;
     requests := requests s;
     page := {| heroTerminal := heroTerminal (page s);
                headlineGrid := headlineGrid (page s);
                postList := cards;
                systemTableBody := systemTableBody (page s);
                chatTerminal := chatTerminal (page s) |} |}.

Definition set_headlineGrid `{Host} (cards : option (list HeadlineCard)) (s : State)
  : State :=
  {| world := world s;
     requests := requests s;
     page := {| heroTerminal := heroTerminal (page s);
                headlineGrid := cards;
                postList := postList (page s);
                systemTableBody := systemTableBody (page s);
                chatTerminal := chatTerminal (page s) |} |}.

Definition set_systemTableBody `{Host} (rows : option (list TableRow)) (s : State)
  : State :=
  {| world := world s;
     requests := requests s;
     page := {| heroTerminal := heroTerminal (page s);
                headlineGrid := headlineGrid (page s);
                postList := postList (page s);
                systemTableBody := rows;
                chatTerminal := chatTerminal (page s) |} |}.

(** [p] holds of the [n] integers from [lo] on. *)
Fixpoint all_from (n : nat) (lo : Z) (p : Z -> bool) : bool :=
  match n with
  | O => true
  | S k => p lo && all_from k (lo + 1) p
  end.

(** The calendar date [y]-[m]-[d] written as [YYYY-MM-DD]. *)
Definition iso_date (y m d : Z) : string :=
  pad 4 y ++ "-" ++ pad 2 m ++ "-" ++ pad 2 d.

(** The strict order of [sort]: the order of the code units. *)
Definition str_lt (a b : string) : Prop := String.ltb a b = true.

(** A panel as the page has it before anything is shown. *)
Definition blank_panel : Panel := {|
  llmRuntimeLoaded := {| textContent := "-"; title := None |};
  llmRuntimeModel := {| textContent := "-"; title := None |};
  llmRuntimeType := {| textContent := "-"; title := None |};
  llmRuntimeQueue := {| textContent := "-"; title := None |};
  llmRuntimeActive := {| textContent := "-"; title := None |};
  llmRuntimeConfig := {| textContent := "-"; title := None |};
  llmRuntimeStatus := EmptyString;
  selectOptions := [];
  selectValue := EmptyString;
  refreshDisabled := false;
  unloadDisabled := false;
  loadDisabled := false;
  forceChecked := false
|}.

(** A server that answers every [POST] with [reply]; a body is read as
    [detail], and the built-in errors have no message. *)
Definition posting (h : Host) (reply : Reply) (detail : string) : @PanelHost h := {|
  send := fun _ _ w => (reply, w);
  response_text := fun _ => Some detail;
  host_message := fun _ => EmptyString
|}.

(** Two panels that differ at most in the model selector. *)
Definition same_but_select (a b : Panel) : Prop :=
  llmRuntimeLoaded a = llmRuntimeLoaded b
  /\ llmRuntimeModel a = llmRuntimeModel b
  /\ llmRuntimeType a = llmRuntimeType b
  /\ llmRuntimeQueue a = llmRuntimeQueue b
  /\ llmRuntimeActive a = llmRuntimeActive b
  /\ llmRuntimeConfig a = llmRuntimeConfig b
  /\ llmRuntimeStatus a = llmRuntimeStatus b
  /\ refreshDisabled a = refreshDisabled b
  /\ unloadDisabled a = unloadDisabled b
  /\ loadDisabled a = loadDisabled b
  /\ forceChecked a = forceChecked b.

(** The selector and the checkbox of two panels are the same. *)
Definition same_controls (a b : Panel) : Prop :=
  selectOptions a = selectOptions b
  /\ selectValue a = selectValue b
  /\ forceChecked a = forceChecked b.

(** The three buttons of a panel can be used. *)
Definition buttons_enabled (p : Panel) : Prop :=
  refreshDisabled p = false /\ unloadDisabled p = false /\ loadDisabled p = false.

(** A writer that leaves the selector, the checkbox and the buttons of the
    panel as they are. *)
Definition keeps_controls (w : Writer) : Prop :=
  forall els,
    same_controls els (snd (w els))
    /\ refreshDisabled (snd (w els)) = refreshDisabled els
    /\ unloadDisabled (snd (w els)) = unloadDisabled els
    /\ loadDisabled (snd (w els)) = loadDisabled els.

(** The text an element has after [el.textContent = value] returned. *)
Definition text_of (value : Value) : string :=
  match value with
  | VNull | VUndefined => EmptyString
  | _ => printed value
  end.

(** A status that [updateRuntimePanel] can show: the values it prints can
    be converted to a string, and the model id can be abbreviated, shown
    and used as a title. *)
Definition displayable `{Host} (status : Value) : bool :=
  let modelId :=
    or_else (or_else (member status "model_id") (member status "model_path"))
            (str EmptyString) in
  let queueStats := opt_prop (member status "queue") "queue_stats" in
  let config_ := member status "config" in
  printable (opt_prop config_ "max_concurrency")
  && printable (opt_prop config_ "queue_size")
  && printable (opt_prop config_ "queue_timeout")
  && printable (member status "model_type")
  && match trimModelId_of modelId with
     | Ret shown => printable shown && printable modelId
     | Throw _ => false
     end
  && printable (opt_prop queueStats "active_requests")
  && printable (opt_prop queueStats "queue_size")
  && printable (opt_prop (member status "queue") "active_streams").

(** How a [POST] to [url] is recorded among the requests. *)
Definition posted (url : string) : string := "POST " ++ url.

(** The text for the time value a double stands for. *)
Definition double_millis_text (ms : Double) : Value :=
  match Date_of_double ms with
  | None => str "-"
  | Some date => str (replace_first "T" " " (slice (toISOString date) 0 (Some 16)))
  end.

(** A computation that returns. *)
Definition returns {A : Type} (o : Outcome A) : Prop := exists a, o = Ret a.

(** The record [extractRagStats] reads the statistics from: the [data] of
    a wrapper [{ok, data}] with a boolean [ok], [null] when that [ok] is
    false, and the payload itself when it has no boolean [ok]. *)
Definition stats_record (payload : Value) : Value :=
  match member payload "ok" with
  | VBool ok => if ok then member payload "data" else VNull
  | _ => payload
  end.

(** The count and the timestamp of a record of statistics can both be
    converted to a string. *)
Definition stats_printable (data : Value) : bool :=
  printable (first_present data ["num_documents"; "documents"; "count"])
  && printable (first_present data ["updated_at"; "generated_at"; "created_at"]).

(** A payload that [extractRagStats] can handle: one without a record of
    statistics, or with statistics that can be printed. *)
Definition payload_printable (payload : Value) : bool :=
  negb (truthy payload) || negb (truthy (stats_record payload))
  || stats_printable (stats_record payload).

(** A reply to a request for the statistics of a collection from which
    [loadSystemRows] can make a row: any reply but one with a status in
    200..299 and a body whose statistics cannot be printed. *)
Definition reply_printable (reply : Reply) : bool :=
  match reply with
  | Rejected => true
  | Responded r =>
      match res_ok r, res_body r with
      | true, Some body => negb (truthy body) || stats_printable body
      | _, _ => true
      end
  end.

(** The position of the first reply that does not pass [good]. *)
Fixpoint first_failing (good : Reply -> bool) (replies : list Reply) : option nat :=
  match replies with
  | [] => None
  | reply :: rest =>
      if good reply then option_map S (first_failing good rest) else Some O
  end.

(** The address of the statistics of a collection. *)
Definition statsUrl `{Host} (collection : string) : string :=
  ragBaseUrl config ++ "/rag_stats?collection=" ++ encodeURIComponent collection.

(** The statistics of [collection] came with the reply of the combined
    endpoint, and are not requested again. *)
Definition reused (ecosystem : Value) (collection : string) : bool :=
  truthy (member (member (member ecosystem "services") "rag") "stats")
  && strict_eq_str (member ecosystem "collection") collection.

(** The payload [loadSystemRows] hands to [extractRagStats] for a
    collection when it gets to it in state [s], and the state after. *)
Definition stats_payload `{Host} (ecosystem : Value) (collection : string) (s : State)
  : Value :=
  if reused ecosystem collection
  then member (member (member ecosystem "services") "rag") "stats"
  else
    let probe := probe_of (reply_to (statsUrl collection) s) in
    if ok probe then VObj [("ok", VBool true); ("data", data probe)] else VNull.

Definition after_stats `{Host} (ecosystem : Value) (collection : string) (s : State)
  : State :=
  if reused ecosystem collection then s else after (statsUrl collection) s.

(** The statistics of every collection of [cs], read one after the other
    from state [s] on, can be printed. *)
Fixpoint collections_printable `{Host} (ecosystem : Value) (cs : list string)
    (s : State) : bool :=
  match cs with
  | [] => true
  | c :: rest =>
      payload_printable (stats_payload ecosystem c s)
      && collections_printable ecosystem rest (after_stats ecosystem c s)
  end.

(** The row of a collection, for what [extractRagStats] found. *)
Definition collection_row `{Host} (collection : string) (parsedStats : option RagStats)
  : SystemRow :=
  {| row_resource := "rag:" ++ collection;
     row_type := "collection";
     row_status := match parsedStats with Some _ => Ok | None => Down end;
     row_docs :=
       match parsedStats with Some p => str (stats_count p) | None => str "-" end;
     row_updated :=
       match parsedStats with
       | Some p => coalesce (stats_updated p) (str "-")
       | None => str "-"
       end;
     row_endpoint := str (ragBaseUrl config ++ "/rag_stats") |}.

(** The three values of a row that are converted when the row is shown
    can be converted. *)
Definition row_printable (row : SystemRow) : bool :=
  printable (row_docs row) && printable (row_updated row)
  && printable (row_endpoint row).

(** The row of the table for a system row whose values can be printed. *)
Definition shown_row (row : SystemRow) : TableRow :=
  {| tr_resource := row_resource row;
     tr_type := row_type row;
     tr_statusClass :=
       match row_status row with
       | Ok => "ok" | Down => "down" | Unknown => EmptyString
       end;
     tr_statusLabel :=
       match row_status row with
       | Ok => "ok" | Down => "down" | Unknown => "unknown"
       end;
     tr_docs := printed (row_docs row);
     tr_updated := printed (row_updated row);
     tr_endpoint := printed (row_endpoint row) |}.

(** The rows of the services, as [ecosystemRows] appends them for texts
    [llmDocs] and [ragDocs]. *)
Definition service_rows `{Host} (ecosystem updated llmDocs ragDocs : Value)
    (rows : list SystemRow) : list SystemRow :=
  let services := member ecosystem "services" in
  let rows :=
    addServiceRow updated "mlx-llm" (or_else (member services "llm") VNull)
                  (llmBaseUrl config) llmDocs rows in
  let rows :=
    addServiceRow updated "mlx-rag" (or_else (member services "rag") VNull)
                  (ragBaseUrl config) ragDocs rows in
  let rows :=
    addServiceRow updated "mlx-audio" (or_else (member services "audio") VNull)
                  (audioBaseUrl config) (str "-") rows in
  let rows :=
    if truthy (member services "vlm")
    then addServiceRow updated "mlx-vlm" (member services "vlm") "-" (str "-") rows
    else rows in
  if truthy (member services "mcp")
  then addServiceRow updated "mlx-mcp" (member services "mcp") "-" (str "-") rows
  else rows.

(** A reply to a request for statistics from which the older page can
    make a row: any reply but one with a status in 200..299 and a JSON
    body whose count or date cannot be printed. *)
Definition legacy_printable (reply : Reply) : bool :=
  match reply with
  | Rejected => true
  | Responded r =>
      match res_ok r, res_body r with
      | true, Some body =>
          printable (coalesce (coalesce (opt_prop body "count")
                                        (opt_prop body "documents")) (str "-"))
          && printable (or_else (opt_prop body "updated_at")
                                (opt_prop body "generated_at"))
      | _, _ => true
      end
  end.

(** ** Sample hosts *)

(** A network that answers by the URL alone; no [meta] tags, no date
    format beyond the ISO calendar dates, and no number in a string beyond
    the rows of digits. *)
Definition static_host (table : string -> Reply) : Host := {|
  World := unit;
  fetch := fun url w => (table url, w);
  meta := fun _ => None;
  hostDateParse := fun _ => None;
  hostStringToNumber := fun _ => None
|}.

Definition offline : Host := static_host (fun _ => Rejected).

(** The network on which only [url] answers, with status 200 and [body]. *)
Definition serving (url : string) (body : option Value) : Host :=
  static_host (fun u =>
    if (u =? url)%string
    then Responded {| res_status := 200; res_body := body |}
    else Rejected).

Definition blank_page : DOM := {|
  heroTerminal := Some EmptyString;
  headlineGrid := Some [];
  postList := Some [];
  systemTableBody := Some [];
  chatTerminal := Some EmptyString
|}.

Definition start (h : Host) (w : @World h) : @State h :=
  {| world := w; requests := []; page := blank_page |}.

(** A session on a blank page and a blank panel. *)
Definition start_session (h : Host) (w : @World h) : @Session h :=
  {| net := start h w; els := blank_panel |}.

(** * Properties *)

(** ** The calendar *)

(** From 1970-01-01 to 2040-01-01 the two conversions between day numbers
    and dates undo each other, and every date has a month and a day that
    exist. *)
Lemma civil_round_trip_1970_2040 :
  snd (Pos.iter
         (fun '(day, good) =>
            (day + 1,
             good &&
             let '(y, m, d) := civil_from_days day in
             (days_from_civil y m d =? day)
             && (1 <=? m) && (m <=? 12) && (1 <=? d) && (d <=? days_in_month y m)))
         (days_from_civil 1970 1 1, true)
         (Z.to_pos (days_from_civil 2040 1 1 - days_from_civil 1970 1 1)))
  = true.
Proof. vm_compute. reflexivity. Qed.

(** ** Strings and [slice] *)

Lemma length_append (a b : string) :
  String.length (a ++ b) = (String.length a + String.length b)%nat.
Proof.
  induction a as [|c a IH]; simpl; [reflexivity | now rewrite IH].
Qed.

Lemma length_substring (s : string) :
  forall n m, (n + m <= String.length s)%nat ->
  String.length (substring n m s) = m.
Proof.
  induction s as [|c s IH]; intros n m Hle; simpl in Hle.
  - assert (n = 0%nat) by lia. assert (m = 0%nat) by lia. subst. reflexivity.
  - destruct n as [|n]; simpl.
    + destruct m as [|m]; simpl; [reflexivity|].
      rewrite IH; [reflexivity | simpl; lia].
    + apply IH. lia.
Qed.

(** A string is its first [n] characters followed by the rest. *)
Lemma substring_split (s : string) :
  forall n, (n <= String.length s)%nat ->
  s = substring 0 n s ++ substring n (String.length s - n) s.
Proof.
  induction s as [|c s IH]; intros n Hle; simpl in Hle.
  - assert (n = 0%nat) by lia. subst. reflexivity.
  - destruct n as [|n].
    + simpl. f_equal.
      specialize (IH 0%nat ltac:(lia)).
      replace (String.length s - 0)%nat with (String.length s) in IH by lia.
      destruct s; simpl in *; [reflexivity | exact IH].
    + simpl. f_equal. apply IH. lia.
Qed.

(** A part of a part of a string. *)
Lemma substring_substring (t : string) :
  forall a b c : nat,
  substring a c (substring b (a + c) t) = substring (b + a) c t.
Proof.
  induction t as [|ch t IH]; intros a b c.
  - destruct b, a, c; reflexivity.
  - destruct b as [|b]; simpl.
    + destruct a as [|a]; simpl.
      * destruct c as [|c]; simpl; [reflexivity|].
        f_equal. exact (IH 0%nat 0%nat c).
      * exact (IH a 0%nat c).
    + apply IH.
Qed.

(** [s.slice(0, k)] is the first [k] characters of a string that has them. *)
Lemma slice_prefix (s : string) (k : Z) :
  0 <= k <= Z.of_nat (String.length s) ->
  slice s 0 (Some k) = substring 0 (Z.to_nat k) s.
Proof.
  intros Hk. unfold slice, clamp_index.
  replace (0 <? 0) with false by reflexivity.
  destruct (k <? 0) eqn:Hneg; [apply Z.ltb_lt in Hneg; lia|].
  rewrite (Z.min_l 0) by lia. rewrite (Z.min_l k) by lia.
  replace (Z.max (k - 0) 0) with k by lia. reflexivity.
Qed.

(** [s.slice(-k)] is the last [k] characters of a string that has them. *)
Lemma slice_suffix (s : string) (k : Z) :
  0 < k <= Z.of_nat (String.length s) ->
  slice s (- k) None
  = substring (String.length s - Z.to_nat k) (Z.to_nat k) s.
Proof.
  intros Hk. unfold slice, clamp_index.
  destruct (- k <? 0) eqn:Hneg; [|apply Z.ltb_ge in Hneg; lia].
  rewrite Z.max_l by lia.
  f_equal; lia.
Qed.

(** ** [trimModelId] *)

(** The three parts of a long identifier: what is kept at the front, what
    is dropped, and what is kept at the back. *)
Lemma trimModelId_long_parts (s : string) :
  (52 < String.length s)%nat ->
  exists first24 dropped last18,
    s = first24 ++ dropped ++ last18
    /\ String.length first24 = 24%nat
    /\ String.length last18 = 18%nat
    /\ trimModelId (Present s) = first24 ++ "..." ++ last18.
Proof.
  intros Hlen.
  remember (String.length s) as len eqn:Elen.
  exists (substring 0 24 s),
         (substring 0 (len - 42) (substring 24 (len - 24) s)),
         (substring (len - 18) 18 s).
  assert (Hrest : String.length (substring 24 (len - 24) s) = (len - 24)%nat)
    by (apply length_substring; lia).
  repeat split.
  - rewrite (substring_split s 24) at 1 by lia. rewrite <- Elen. f_equal.
    rewrite (substring_split (substring 24 (len - 24) s) (len - 42)) at 1
      by (rewrite Hrest; lia).
    f_equal. rewrite Hrest.
    replace (len - 24 - (len - 42))%nat with 18%nat by lia.
    replace (len - 42)%nat with ((len - 18) - 24)%nat by lia.
    replace (len - 24)%nat with ((len - 18 - 24) + 18)%nat at 1 by lia.
    rewrite substring_substring. f_equal. lia.
  - apply length_substring. lia.
  - apply length_substring. lia.
  - unfold trimModelId.
    destruct (s =? EmptyString)%string eqn:He.
    { apply String.eqb_eq in He. subst s. simpl in Elen. lia. }
    destruct (Z.of_nat (String.length s) <=? 52) eqn:Hle.
    { apply Z.leb_le in Hle. lia. }
    rewrite (slice_prefix s 24) by lia.
    change (Z.neg 18) with (Z.opp 18).
    rewrite (slice_suffix s 18) by lia.
    rewrite <- Elen. reflexivity.
Qed.

Lemma trimModelId_short (s : string) :
  s <> EmptyString -> (String.length s <= 52)%nat -> trimModelId (Present s) = s.
Proof.
  intros Hne Hlen. unfold trimModelId.
  destruct (String.eqb_spec s EmptyString) as [He|_]; [contradiction|].
  destruct (Z.of_nat (String.length s) <=? 52) eqn:Hle; [reflexivity|].
  apply Z.leb_gt in Hle. lia.
Qed.

(** C6, as the specification has it, fails at the empty identifier: its
    length is at most 52, and it is not returned unchanged. *)
Lemma trimModelId_empty_not_identity :
  (String.length EmptyString <= 52)%nat
  /\ trimModelId (Present EmptyString) <> EmptyString.
Proof.
  split; [simpl; lia | discriminate].
Qed.

(** C6 (amended): an identifier of 1 to 52 characters is returned
    unchanged; a longer one is abbreviated to its first 24 characters, three
    dots, and its last 18 characters, 45 characters in all. *)
Theorem trimModelId_abbreviation (s : string) :
  s <> EmptyString ->
  ((String.length s <= 52)%nat -> trimModelId (Present s) = s)
  /\ ((52 < String.length s)%nat ->
      exists first24 dropped last18,
        s = first24 ++ dropped ++ last18
        /\ String.length first24 = 24%nat
        /\ String.length last18 = 18%nat
        /\ trimModelId (Present s) = first24 ++ "..." ++ last18
        /\ String.length (trimModelId (Present s)) = 45%nat).
Proof.
  intros Hne. split.
  - intros Hlen. now apply trimModelId_short.
  - intros Hlen.
    destruct (trimModelId_long_parts s Hlen) as (a & b & c & Hs & Ha & Hc & Ht).
    exists a, b, c. repeat split; try assumption.
    rewrite Ht, !length_append, Ha, Hc. reflexivity.
Qed.

Lemma trimModelId_abbreviation_witness :
  let s := "mlx-community/Qwen2.5-Coder-32B-Instruct-4bit-with-long-suffix" in
  s <> EmptyString
  /\ ((String.length s <= 52)%nat -> trimModelId (Present s) = s)
  /\ ((52 < String.length s)%nat ->
      exists first24 dropped last18,
        s = first24 ++ dropped ++ last18
        /\ String.length first24 = 24%nat
        /\ String.length last18 = 18%nat
        /\ trimModelId (Present s) = first24 ++ "..." ++ last18
        /\ String.length (trimModelId (Present s)) = 45%nat).
Proof.
  intros s. split; [discriminate|].
  apply (trimModelId_abbreviation s). discriminate.
Defined.

(** C10: the result of [trimModelId] is never empty and never longer than
    52 characters, and it is the placeholder for [undefined], [null] and
    the empty string. *)
Theorem trimModelId_placeholder_and_bound :
  trimModelId Undefined = "-"
  /\ trimModelId Null = "-"
  /\ trimModelId (Present EmptyString) = "-"
  /\ forall value : Nullable string,
       (1 <= String.length (trimModelId value) <= 52)%nat.
Proof.
  split; [reflexivity|]. split; [reflexivity|]. split; [reflexivity|].
  intros [| |s]; [simpl; lia | simpl; lia |].
  unfold trimModelId.
  destruct (String.eqb_spec s EmptyString) as [He|Hne]; [simpl; lia|].
  destruct (Z.of_nat (String.length s) <=? 52) eqn:Hle.
  - apply Z.leb_le in Hle. destruct s; [contradiction | simpl in *; lia].
  - apply Z.leb_gt in Hle.
    destruct (trimModelId_long_parts s ltac:(lia)) as (a & b & c & _ & Ha & Hc & Ht).
    unfold trimModelId in Ht.
    destruct (String.eqb_spec s EmptyString) as [He|_]; [contradiction|].
    destruct (Z.of_nat (String.length s) <=? 52) eqn:Hle'.
    { apply Z.leb_le in Hle'. lia. }
    rewrite Ht, !length_append, Ha, Hc. simpl. lia.
Qed.

(** ** Conversions to a string *)

Lemma ToString_printable (v : Value) :
  printable v = true -> ToString v = Ret (printed v).
Proof. intros Hp. unfold ToString. now rewrite Hp. Qed.

Lemma ToString_unprintable (v : Value) :
  printable v = false -> ToString v = Throw TypeError.
Proof. intros Hp. unfold ToString. now rewrite Hp. Qed.

(** Only an array or an object can fail to be printable. *)
Lemma unprintable_object (v : Value) :
  printable v = false ->
  truthy v = true /\ nullish v = false
  /\ ((exists items, v = VArr items) \/ (exists props, v = VObj props)).
Proof.
  destruct v; try discriminate; intros _; repeat split; eauto.
Qed.

Lemma printable_str (t : string) : printable (str t) = true.
Proof. reflexivity. Qed.

(** ** Timestamps and statistics *)

Section Normalizer.

Context `{Host}.

Lemma Date_of_printable (v : Value) :
  printable v = true -> returns (Date_of v).
Proof.
  intros Hp. destruct v; try (eexists; reflexivity);
    unfold Date_of; rewrite (ToString_printable _ Hp); eexists; reflexivity.
Qed.

Lemma Date_of_unprintable (v : Value) :
  printable v = false -> Date_of v = Throw TypeError.
Proof.
  intros Hp. destruct v; try discriminate;
    unfold Date_of; now rewrite (ToString_unprintable _ Hp).
Qed.

(** [formatDate] returns the date, or the value itself, for a value that
    can be printed, and raises for one that cannot. *)
Lemma formatDate_printable (v : Value) :
  printable v = true ->
  exists shown, formatDate v = Ret shown /\ printable shown = true.
Proof.
  intros Hp. unfold formatDate.
  destruct (truthy v); cbn [negb]; [|eexists; split; reflexivity].
  destruct (Date_of_printable v Hp) as ([date|] & ->); cbn [and_then];
    eexists; (split; [reflexivity|]); [reflexivity | exact Hp].
Qed.

Lemma formatDate_unprintable (v : Value) :
  printable v = false -> formatDate v = Throw TypeError.
Proof.
  intros Hp. unfold formatDate.
  destruct (unprintable_object v Hp) as (-> & _). cbn [negb].
  now rewrite (Date_of_unprintable v Hp).
Qed.

Lemma formatTimestamp_printable (v : Value) :
  printable v = true ->
  exists shown, formatTimestamp v = Ret shown /\ printable shown = true.
Proof.
  intros Hp. unfold formatTimestamp.
  destruct (nullish v) eqn:Hn; [eexists; split; reflexivity|].
  destruct v; try (apply formatDate_printable; exact Hp);
    try discriminate; cbv zeta.
  - eexists. split; [reflexivity|]. now destruct (TimeClip _).
  - eexists. split; [reflexivity|]. now destruct (Date_of_double _).
Qed.

Lemma formatTimestamp_unprintable (v : Value) :
  printable v = false -> formatTimestamp v = Throw TypeError.
Proof.
  intros Hp. unfold formatTimestamp.
  destruct (unprintable_object v Hp) as (_ & -> & [(l & ->) | (l & ->)]);
    now apply formatDate_unprintable.
Qed.

(** C5: a number below 100000000000 is formatted as that many seconds,
    that is as the time value of a thousand times as many milliseconds, and
    any other number as a time value in milliseconds.  For a number with a
    fraction the product is the double the engine computes, and the
    fraction of a millisecond is dropped.  A count of seconds and the same
    instant counted in milliseconds are printed alike, as are 1700000000,
    1700000000000 and 1700000000.5. *)
Theorem formatTimestamp_seconds_or_millis :
  (forall t : Z,
     formatTimestamp (VNum t)
     = Ret (millis_text (if t <? 100000000000 then t * 1000 else t)))
  /\ (forall (num : Z) (den : positive),
        let t := nearest_double num den in
        formatTimestamp (VFrac num den)
        = Ret (double_millis_text
                 (if double_ltb t 100000000000 then double_times t 1000 else t)))
  /\ (forall t : Z,
        100000000 <= t < 100000000000 ->
        formatTimestamp (VNum t) = formatTimestamp (VNum (t * 1000)))
  /\ formatTimestamp (VNum 1700000000) = Ret (str "2023-11-14 22:13")
  /\ formatTimestamp (VNum 1700000000000) = Ret (str "2023-11-14 22:13")
  /\ formatTimestamp (VFrac 17000000005 10) = Ret (str "2023-11-14 22:13")
  /\ formatTimestamp (VFrac 17000000005 10000) = Ret (str "1970-01-20 16:13")
  /\ formatTimestamp (VFrac 1700000000 1) = formatTimestamp (VNum 1700000000).
Proof.
  split; [|split; [|split; [|repeat split; vm_compute; reflexivity]]].
  - intros t. reflexivity.
  - intros num den t. reflexivity.
  - intros t [Hlo Hhi]. unfold formatTimestamp. cbn [nullish]. cbv zeta.
    destruct (t <? 100000000000) eqn:Hs; [|apply Z.ltb_ge in Hs; lia].
    destruct (t * 1000 <? 100000000000) eqn:Hm; [apply Z.ltb_lt in Hm; lia|].
    reflexivity.
Qed.

Lemma first_present_3 (record : Value) (k1 k2 k3 : string) :
  let v := coalesce (coalesce (member record k1) (member record k2)) (member record k3) in
  let w := first_present record [k1; k2; k3] in
  nullish v = nullish w /\ (nullish w = false -> v = w).
Proof.
  unfold coalesce. simpl.
  destruct (nullish (member record k1)) eqn:H1;
    [destruct (nullish (member record k2)) eqn:H2;
       [destruct (nullish (member record k3)) eqn:H3|]|];
    simpl; rewrite ?H1, ?H2, ?H3; split; try reflexivity; try discriminate;
    intros _; reflexivity.
Qed.

Lemma formatTimestamp_nullish (v : Value) :
  nullish v = true -> formatTimestamp v = Ret (str "-").
Proof.
  intros Hv. unfold formatTimestamp. now rewrite Hv.
Qed.

(** What [extractRagStats] makes of the record [data] of a collection. *)
Lemma extractRagStats_data (payload data : Value) :
  truthy payload = true ->
  stats_record payload = data ->
  truthy data = true ->
  let count := first_present data ["num_documents"; "documents"; "count"] in
  let updated := first_present data ["updated_at"; "generated_at"; "created_at"] in
  extractRagStats payload
  = (let* count := if nullish count then Ret "-" else ToString count in
     let* updated := formatTimestamp updated in
     Ret (Some {| stats_count := count; stats_updated := updated |})).
Proof.
  intros Hp Hd Ht. unfold extractRagStats. rewrite Hp. cbn [negb].
  unfold stats_record in Hd. rewrite Hd, Ht. cbn [negb]. cbv zeta.
  destruct (first_present_3 data "num_documents" "documents" "count") as [Hc Hc'].
  destruct (first_present_3 data "updated_at" "generated_at" "created_at") as [Hu Hu'].
  cbv zeta in Hc, Hc', Hu, Hu'.
  rewrite Hc.
  assert (Hupd :
    formatTimestamp
      (coalesce (coalesce (member data "updated_at") (member data "generated_at"))
                (member data "created_at"))
    = formatTimestamp (first_present data ["updated_at"; "generated_at"; "created_at"])).
  { destruct (nullish (first_present data ["updated_at"; "generated_at"; "created_at"]))
      eqn:E.
    - rewrite (formatTimestamp_nullish _ E). apply formatTimestamp_nullish.
      now rewrite Hu.
    - now rewrite Hu'. }
  rewrite Hupd.
  destruct (nullish (first_present data ["num_documents"; "documents"; "count"])) eqn:E;
    [reflexivity | now rewrite Hc'].
Qed.

Lemma extractRagStats_falsy (payload : Value) :
  truthy payload = false \/ truthy (stats_record payload) = false ->
  extractRagStats payload = Ret None.
Proof.
  intros Hf. unfold extractRagStats.
  destruct (truthy payload) eqn:Hp; cbn [negb]; [|reflexivity].
  destruct Hf as [Hf|Hf]; [discriminate|].
  unfold stats_record in Hf. now rewrite Hf.
Qed.

(** [extractRagStats] returns for a payload whose statistics can be
    printed, and raises a [TypeError] for any other. *)
Lemma extractRagStats_printable (payload : Value) :
  payload_printable payload = true ->
  exists stats,
    extractRagStats payload = Ret stats
    /\ (truthy payload && truthy (stats_record payload) = false -> stats = None)
    /\ (truthy payload && truthy (stats_record payload) = true ->
        exists p, stats = Some p /\ printable (stats_updated p) = true).
Proof.
  intros Hp. unfold payload_printable in Hp.
  destruct (truthy payload) eqn:Ht.
  2:{ exists None. split; [apply extractRagStats_falsy; now left|].
      split; [reflexivity | discriminate]. }
  destruct (truthy (stats_record payload)) eqn:Hd.
  2:{ exists None. split; [apply extractRagStats_falsy; now right|].
      split; [reflexivity | discriminate]. }
  cbn [negb orb] in Hp. unfold stats_printable in Hp.
  apply andb_true_iff in Hp. destruct Hp as [Hc Hu].
  rewrite (extractRagStats_data payload _ Ht eq_refl Hd). cbv zeta.
  destruct (formatTimestamp_printable _ Hu) as (shown & -> & Hshown).
  rewrite (ToString_printable _ Hc).
  destruct (nullish (first_present (stats_record payload) _)); cbn [and_then];
    eexists; (split; [reflexivity|]); (split; [discriminate|]);
    intros _; eexists; (split; [reflexivity | exact Hshown]).
Qed.

Lemma extractRagStats_unprintable (payload : Value) :
  payload_printable payload = false ->
  extractRagStats payload = Throw TypeError.
Proof.
  intros Hp. unfold payload_printable in Hp.
  apply orb_false_iff in Hp. destruct Hp as [Hp Hs].
  apply orb_false_iff in Hp. destruct Hp as [Ht Hd].
  apply negb_false_iff in Ht. apply negb_false_iff in Hd.
  rewrite (extractRagStats_data payload _ Ht eq_refl Hd). cbv zeta.
  unfold stats_printable in Hs. apply andb_false_iff in Hs.
  destruct (printable (first_present (stats_record payload)
                         ["num_documents"; "documents"; "count"])) eqn:Hc.
  - destruct Hs as [Hs|Hs]; [discriminate|].
    rewrite (formatTimestamp_unprintable _ Hs).
    destruct (nullish _); cbn [and_then]; [reflexivity|].
    now rewrite (ToString_printable _ Hc).
  - destruct (unprintable_object _ Hc) as (_ & -> & _).
    now rewrite (ToString_unprintable _ Hc).
Qed.

(** C4 (amended): of a record of statistics that comes wrapped as
    [{ok: true, data: record}], or bare and without a boolean [ok] of its
    own, the count is taken from the first present field among
    [num_documents], [documents], [count] and converted with [String], and
    the timestamp is taken from the first present field among
    [updated_at], [generated_at], [created_at] and given to
    [formatTimestamp]; a group with no field present gives the
    placeholder.  The result is the two texts when both values can be
    converted to a string, and a [TypeError] when one cannot.  A bare
    record with a boolean [ok] is read as a wrapper.
    [{documents: 42, created_at: "2025-01-01"}] gives ["42"] and
    ["2025-01-01"]. *)
Theorem extractRagStats_priority :
  (forall record : Value,
     truthy record = true ->
     let count := first_present record ["num_documents"; "documents"; "count"] in
     let updated := first_present record ["updated_at"; "generated_at"; "created_at"] in
     let result :=
       let* count := if nullish count then Ret "-" else ToString count in
       let* updated := formatTimestamp updated in
       Ret (Some {| stats_count := count; stats_updated := updated |}) in
     extractRagStats (VObj [("ok", VBool true); ("data", record)]) = result
     /\ ((forall b, member record "ok" <> VBool b) -> extractRagStats record = result)
     /\ (printable count = true -> printable updated = true ->
         exists shown,
           formatTimestamp updated = Ret shown
           /\ (nullish updated = true -> shown = str "-")
           /\ result = Ret (Some {| stats_count :=
                                      if nullish count then "-" else printed count;
                                    stats_updated := shown |}))
     /\ (printable count = false \/ printable updated = false ->
         result = Throw TypeError)
     /\ (member record "ok" = VBool false -> extractRagStats record = Ret None)
     /\ (member record "ok" = VBool true ->
         extractRagStats record
         = extractRagStats (VObj [("ok", VBool true); ("data", member record "data")])))
  /\ extractRagStats (VObj [("documents", VNum 42); ("created_at", str "2025-01-01")])
     = Ret (Some {| stats_count := "42"; stats_updated := str "2025-01-01" |}).
Proof.
  split; [|reflexivity].
  intros record Ht count updated result.
  split; [apply extractRagStats_data; [reflexivity | reflexivity | exact Ht]|].
  split.
  { intros Hok. apply extractRagStats_data; [exact Ht | | exact Ht].
    unfold stats_record. destruct (member record "ok") eqn:E; try reflexivity.
    now destruct (Hok b). }
  split.
  { intros Hc Hu. destruct (formatTimestamp_printable _ Hu) as (shown & Hs & _).
    exists shown. split; [exact Hs|]. split.
    - intros Hn. rewrite (formatTimestamp_nullish _ Hn) in Hs. now injection Hs.
    - subst result. fold updated in Hs. rewrite Hs, (ToString_printable _ Hc).
      now destruct (nullish count). }
  split.
  { intros Hbad. subst result.
    destruct (printable count) eqn:Hc.
    - destruct Hbad as [Hbad|Hbad]; [discriminate|].
      rewrite (formatTimestamp_unprintable _ Hbad), (ToString_printable _ Hc).
      now destruct (nullish count).
    - destruct (unprintable_object _ Hc) as (_ & -> & _).
      now rewrite (ToString_unprintable _ Hc). }
  split.
  { intros Hok. apply extractRagStats_falsy. right.
    unfold stats_record. now rewrite Hok. }
  intros Hok. unfold extractRagStats. rewrite Ht. cbn [negb truthy member lookup].
  rewrite Hok. reflexivity.
Qed.

End Normalizer.

(** C4, as the specification has it, fails at a record that has a boolean
    [ok] of its own and is handed over bare, as the record of the example
    is: its count is not read.  It fails too at a count that cannot be
    converted to a string: no count is produced, and no placeholder. *)
Lemma extractRagStats_not_every_record :
  let flagged := VObj [("ok", VBool true); ("num_documents", VNum 5)] in
  let odd := VObj [("count", VObj [("toString", VNum 1)])] in
  (first_present flagged ["num_documents"; "documents"; "count"] = VNum 5
   /\ @extractRagStats offline flagged = Ret None)
  /\ (first_present odd ["num_documents"; "documents"; "count"]
      = VObj [("toString", VNum 1)]
      /\ @extractRagStats offline (VObj [("ok", VBool true); ("data", odd)])
         = Throw TypeError
      /\ @extractRagStats offline odd = Throw TypeError).
Proof.
  cbv zeta. repeat split.
Qed.

(** ** The diagnostics shape *)

Ltac by_key k :=
  repeat match goal with
         | |- context [(k =? ?x)%string] =>
             destruct (String.eqb_spec k x); [subst k; reflexivity|]
         end.

(** C3: the object built from a diagnostics reply has [handler_initialized]
    under the name [loaded], the three fields of [loaded_model] at the top
    level, and [queue] and [config] as they are, or [null] when they are
    missing; no [handler_initialized] and no [loaded_model] are left.  The
    reply of the example becomes the object of the example (with
    [model_path] left [undefined]), also when it is fetched after a failure
    of the status endpoint. *)
Theorem reshapeDiagnostics_shape :
  (forall diagnostics : Value,
     nullish diagnostics = false ->
     exists shaped,
       reshapeDiagnostics diagnostics = Ret shaped
       /\ member shaped "status" = member diagnostics "status"
       /\ member shaped "loaded" = member diagnostics "handler_initialized"
       /\ member shaped "model_id"
          = opt_prop (member diagnostics "loaded_model") "model_id"
       /\ member shaped "model_path"
          = opt_prop (member diagnostics "loaded_model") "model_path"
       /\ member shaped "model_type"
          = opt_prop (member diagnostics "loaded_model") "model_type"
       /\ member shaped "queue"
          = (if truthy (member diagnostics "queue")
             then member diagnostics "queue" else VNull)
       /\ member shaped "config"
          = (if truthy (member diagnostics "config")
             then member diagnostics "config" else VNull)
       /\ member shaped "handler_initialized" = VUndefined
       /\ member shaped "loaded_model" = VUndefined)
  /\ (let diagnostics :=
        VObj [("status", str "ok"); ("handler_initialized", VBool true);
              ("loaded_model", VObj [("model_id", str "m1"); ("model_type", str "chat")]);
              ("queue", VNull); ("config", VNull)] in
      let expected :=
        VObj [("status", str "ok"); ("loaded", VBool true); ("model_id", str "m1");
              ("model_type", str "chat"); ("queue", VNull); ("config", VNull)] in
      let host :=
        serving "http://127.0.0.1:8080/internal/diagnostics" (Some diagnostics) in
      exists shaped,
        reshapeDiagnostics diagnostics = Ret shaped
        /\ same_properties shaped expected
        /\ fst (@fetchModelRuntimeStatus host "http://127.0.0.1:8080" (start host tt))
           = Ret shaped).
Proof.
  split.
  - intros d Hd. unfold reshapeDiagnostics. rewrite Hd.
    eexists. split; [reflexivity|].
    repeat split; reflexivity.
  - cbv zeta. eexists. split; [reflexivity|]. split; [|reflexivity].
    intros k. unfold member, lookup. by_key k. reflexivity.
Qed.

(** ** Probes *)

Section Prober.

Context `{Host}.

Lemma request_run (url : string) (s : State) :
  request url s
  = (match reply_to url s with
     | Rejected => Throw NetworkError
     | Responded r => Ret r
     end, after url s).
Proof.
  unfold request, reply_to, after.
  destruct (fetch url (world s)) as [[|r] w]; reflexivity.
Qed.

Lemma fetchJson_run (url : string) (s : State) :
  fetchJson url s = (Ret (probe_of (reply_to url s)), after url s).
Proof.
  unfold fetchJson, try_catch, bind. rewrite request_run.
  destruct (reply_to url s) as [|r]; [reflexivity|].
  unfold probe_of. destruct (res_ok r); [|reflexivity].
  cbn [negb]. unfold json. destruct (res_body r); reflexivity.
Qed.

(** The older copy of the page does answer [{ok: false}] to a body that is
    not JSON. *)
Lemma legacy_fetchJson_run (url : string) (s : State) :
  Legacy.fetchJson url s
  = (Ret (match reply_to url s with
          | Rejected => {| ok := false; data := VUndefined |}
          | Responded r =>
              match res_ok r, res_body r with
              | true, Some body => {| ok := true; data := body |}
              | _, _ => {| ok := false; data := VUndefined |}
              end
          end), after url s).
Proof.
  unfold Legacy.fetchJson, try_catch, bind. rewrite request_run.
  destruct (reply_to url s) as [|r]; [reflexivity|].
  destruct (res_ok r); [|reflexivity].
  cbn [negb]. unfold json. destruct (res_body r); reflexivity.
Qed.

(** C1 (amended): a probe never raises, whatever the reply.  A request
    that gets no response and a response with a status outside 200..299
    give [{ok: false}]; a response with a status in 200..299 gives
    [{ok: true}], with the body as [data] when the body is JSON and with
    [null] as [data] when it is not. *)
Theorem fetchJson_never_raises (url : string) (s : State) :
  exists probe : Probe,
    fetchJson url s = (Ret probe, after url s)
    /\ (reply_to url s = Rejected ->
        probe = {| ok := false; data := VUndefined |})
    /\ (forall r, reply_to url s = Responded r -> res_ok r = false ->
        probe = {| ok := false; data := VUndefined |})
    /\ (forall r body, reply_to url s = Responded r -> res_ok r = true ->
        res_body r = Some body ->
        probe = {| ok := true; data := body |})
    /\ (forall r, reply_to url s = Responded r -> res_ok r = true ->
        res_body r = None ->
        probe = {| ok := true; data := VNull |}).
Proof.
  exists (probe_of (reply_to url s)). split; [apply fetchJson_run|].
  repeat split.
  - intros ->. reflexivity.
  - intros r -> Hok. simpl. now rewrite Hok.
  - intros r body -> Hok Hbody. simpl. now rewrite Hok, Hbody.
  - intros r -> Hok Hbody. simpl. now rewrite Hok, Hbody.
Qed.

End Prober.

(** C1, as the specification has it, fails at a response with status 200
    and a body that is not JSON: the probe answers [{ok: true, data: null}],
    not [{ok: false}]. *)
Lemma fetchJson_malformed_body_is_ok :
  let url := "http://127.0.0.1:8011/health" in
  let host := serving url None in
  @reply_to host url (start host tt)
  = Responded {| res_status := 200; res_body := None |}
  /\ fst (@fetchJson host url (start host tt)) = Ret {| ok := true; data := VNull |}
  /\ fst (@fetchJson host url (start host tt))
     <> Ret {| ok := false; data := VUndefined |}.
Proof.
  cbv zeta. repeat split. discriminate.
Qed.

(** ** The runtime status and its fallback *)

Section RuntimeStatus.

Context `{Host}.

Lemma fetchModelRuntimeStatus_no_base (s : State) :
  fetchModelRuntimeStatus EmptyString s = (Ret VNull, s).
Proof. reflexivity. Qed.

(** The second attempt, as a function of the reply of the diagnostics
    endpoint. *)
Lemma diagnostics_attempt (url : string) (s : State) :
  try_catch
    (bind (request url) (fun response =>
       if negb (res_ok response) then
         throw (ErrorMsg ("Diagnostics endpoint error ("
                          ++ number_to_string (res_status response) ++ ")"))
       else bind (json response) (fun diagnostics =>
              lift (reshapeDiagnostics diagnostics))))
    (fun _ => ret VNull) s
  = (Ret (match reply_to url s with
          | Rejected => VNull
          | Responded r =>
              match res_ok r, res_body r with
              | true, Some diagnostics =>
                  match reshapeDiagnostics diagnostics with
                  | Ret shaped => shaped
                  | Throw _ => VNull
                  end
              | _, _ => VNull
              end
          end), after url s).
Proof.
  unfold try_catch, bind. rewrite request_run.
  destruct (reply_to url s) as [|r]; [reflexivity|].
  destruct (res_ok r); [|reflexivity]. cbn [negb].
  unfold json. destruct (res_body r) as [d|]; [|reflexivity].
  unfold ret, lift. destruct (reshapeDiagnostics d); reflexivity.
Qed.

Lemma fetchModelRuntimeStatus_run (llm : string) (s : State) :
  llm <> EmptyString ->
  let statusUrl := llm ++ "/internal/models/status" in
  let diagnosticsUrl := llm ++ "/internal/diagnostics" in
  let second :=
    (Ret (match reply_to diagnosticsUrl (after statusUrl s) with
          | Rejected => VNull
          | Responded r =>
              match res_ok r, res_body r with
              | true, Some diagnostics =>
                  match reshapeDiagnostics diagnostics with
                  | Ret shaped => shaped
                  | Throw _ => VNull
                  end
              | _, _ => VNull
              end
          end), after diagnosticsUrl (after statusUrl s)) in
  fetchModelRuntimeStatus llm s
  = match reply_to statusUrl s with
    | Rejected => second
    | Responded r =>
        match res_ok r, res_body r with
        | true, Some payload => (Ret payload, after statusUrl s)
        | _, _ => second
        end
    end.
Proof.
  intros Hne. cbv zeta. unfold fetchModelRuntimeStatus.
  destruct (String.eqb_spec llm EmptyString) as [He|_]; [contradiction|].
  cbv zeta. unfold bind at 1. unfold try_catch at 1. unfold bind at 1.
  rewrite request_run.
  destruct (reply_to (llm ++ "/internal/models/status") s) as [|r].
  - cbv beta iota. unfold ret at 1. cbv beta iota. apply diagnostics_attempt.
  - cbv beta iota. destruct (res_ok r).
    + unfold bind at 1. unfold json.
      destruct (res_body r) as [payload|]; [reflexivity|].
      unfold throw at 1. cbv beta iota. unfold ret at 1. cbv beta iota.
      apply diagnostics_attempt.
    + destruct (negb (res_status r =? 404)).
      * unfold throw at 1. cbv beta iota. unfold ret at 1. cbv beta iota.
        destruct (res_body r); apply diagnostics_attempt.
      * unfold ret at 1. cbv beta iota.
        destruct (res_body r); apply diagnostics_attempt.
Qed.

(** C2: with a base URL, the status endpoint is asked first and a JSON
    reply with a status in 200..299 is returned as it is; after any failure
    of that request (404 is one) the diagnostics endpoint is asked and its
    reply is returned reshaped, that is as the object with the seven
    fields [status], [loaded], [model_id], [model_path], [model_type],
    [queue] and [config] filled from the reply; when that request fails
    too, or its reply is [null] and cannot be reshaped, the answer is
    [null]; nothing is ever raised. *)
Theorem fetchModelRuntimeStatus_fallback (llm : string) (s : State) :
  llm <> EmptyString ->
  let statusUrl := llm ++ "/internal/models/status" in
  let diagnosticsUrl := llm ++ "/internal/diagnostics" in
  let s1 := after statusUrl s in
  let s2 := after diagnosticsUrl s1 in
  (exists v s', fetchModelRuntimeStatus llm s = (Ret v, s'))
  /\ (forall r payload,
        reply_to statusUrl s = Responded r ->
        res_ok r = true -> res_body r = Some payload ->
        fetchModelRuntimeStatus llm s = (Ret payload, s1))
  /\ (forall r, res_status r = 404 -> failed (Responded r))
  /\ (failed (reply_to statusUrl s) ->
      (forall r diagnostics,
         reply_to diagnosticsUrl s1 = Responded r ->
         res_ok r = true -> res_body r = Some diagnostics ->
         nullish diagnostics = false ->
         fetchModelRuntimeStatus llm s
         = (Ret (VObj [
              ("status", member diagnostics "status");
              ("loaded", member diagnostics "handler_initialized");
              ("model_id", opt_prop (member diagnostics "loaded_model") "model_id");
              ("model_path", opt_prop (member diagnostics "loaded_model") "model_path");
              ("model_type", opt_prop (member diagnostics "loaded_model") "model_type");
              ("queue", if truthy (member diagnostics "queue")
                        then member diagnostics "queue" else VNull);
              ("config", if truthy (member diagnostics "config")
                         then member diagnostics "config" else VNull) ]), s2))
      /\ (failed (reply_to diagnosticsUrl s1) ->
          fetchModelRuntimeStatus llm s = (Ret VNull, s2))
      /\ (forall r,
            reply_to diagnosticsUrl s1 = Responded r ->
            res_body r = Some VNull ->
            fetchModelRuntimeStatus llm s = (Ret VNull, s2))).
Proof.
  intros Hne statusUrl diagnosticsUrl s1 s2.
  pose proof (fetchModelRuntimeStatus_run llm s Hne) as Hrun. cbv zeta in Hrun.
  fold statusUrl diagnosticsUrl in Hrun. fold s1 in Hrun. fold s2 in Hrun.
  split; [|split; [|split]].
  - rewrite Hrun.
    destruct (reply_to statusUrl s) as [|r]; [eauto|].
    destruct (res_ok r); [|eauto]. destruct (res_body r); eauto.
  - intros r payload Hr Hok Hbody. rewrite Hrun, Hr, Hok, Hbody. reflexivity.
  - intros r H404. apply failed_status. unfold res_ok. rewrite H404. reflexivity.
  - intros Hfail.
    assert (Hsecond :
      fetchModelRuntimeStatus llm s
      = (Ret (match reply_to diagnosticsUrl s1 with
              | Rejected => VNull
              | Responded r =>
                  match res_ok r, res_body r with
                  | true, Some diagnostics =>
                      match reshapeDiagnostics diagnostics with
                      | Ret shaped => shaped
                      | Throw _ => VNull
                      end
                  | _, _ => VNull
                  end
              end), s2)).
    { rewrite Hrun. inversion Hfail as [Hr | r Hok Hr | r Hbody Hr].
      - reflexivity.
      - rewrite Hok. reflexivity.
      - rewrite Hbody. destruct (res_ok r); reflexivity. }
    rewrite Hsecond. split; [|split].
    + intros r d Hr Hok Hbody Hnn.
      rewrite Hr, Hok, Hbody. unfold reshapeDiagnostics. now rewrite Hnn.
    + intros Hfail2. inversion Hfail2 as [Hr | r Hok Hr | r Hbody Hr].
      * reflexivity.
      * rewrite Hok. reflexivity.
      * rewrite Hbody. destruct (res_ok r); reflexivity.
    + intros r Hr Hbody. rewrite Hr, Hbody. destruct (res_ok r); reflexivity.
Qed.

End RuntimeStatus.

Lemma fetchModelRuntimeStatus_fallback_witness :
  let llm := "http://127.0.0.1:8080" in
  let diagnostics := VObj [("status", str "ok"); ("handler_initialized", VBool false)] in
  let host := serving (llm ++ "/internal/diagnostics") (Some diagnostics) in
  llm <> EmptyString
  /\ fst (@fetchModelRuntimeStatus host llm (start host tt))
     = Ret (VObj [("status", str "ok"); ("loaded", VBool false);
                  ("model_id", VUndefined); ("model_path", VUndefined);
                  ("model_type", VUndefined); ("queue", VNull); ("config", VNull)]).
Proof.
  intros llm diagnostics host.
  assert (Hne : llm <> EmptyString) by discriminate.
  split; [exact Hne|].
  destruct (@fetchModelRuntimeStatus_fallback host llm (start host tt) Hne)
    as (_ & _ & _ & Hchain).
  destruct (Hchain (failed_transport)) as (Hshape & _ & _).
  rewrite (Hshape {| res_status := 200; res_body := Some diagnostics |} diagnostics
             eq_refl eq_refl eq_refl eq_refl).
  reflexivity.
Defined.

(** ** The system rows *)

Section SystemRows.

Context `{Host}.

(** Every base URL of [config] is a non-empty string: a [meta] tag without
    content falls back to the default. *)
Lemma getMeta_nonempty (name fallback : string) :
  fallback <> EmptyString ->
  match getMeta name with Some u => u | None => fallback end <> EmptyString.
Proof.
  intros Hf. unfold getMeta. destruct (meta name) as [c|]; [|exact Hf].
  destruct (String.eqb_spec c EmptyString); assumption.
Qed.

Lemma llmBaseUrl_nonempty : (llmBaseUrl config =? EmptyString)%string = false.
Proof.
  apply String.eqb_neq. apply getMeta_nonempty. discriminate.
Qed.

Lemma after_all_requests (urls : list string) :
  forall s, requests (after_all urls s) = (requests s ++ urls)%list
            /\ page (after_all urls s) = page s.
Proof.
  induction urls as [|u urls IH]; intros s; simpl.
  - now rewrite app_nil_r.
  - destruct (IH (after u s)) as [Hr Hp]. rewrite Hr, Hp. simpl.
    now rewrite <- app_assoc.
Qed.

Lemma after_all_app (a b : list string) (s : State) :
  after_all (a ++ b) s = after_all b (after_all a s).
Proof.
  revert s. induction a as [|u a IH]; intros s; [reflexivity|]. apply IH.
Qed.

Lemma probeEcosystem_run (s : State) :
  let url := llmBaseUrl config ++ "/internal/ecosystem/status?collection=anthology" in
  let probe := probe_of (reply_to url s) in
  probeEcosystem s
  = (Ret (if ok probe && truthy (data probe) then data probe else VNull),
     after url s).
Proof.
  cbv zeta. unfold probeEcosystem. rewrite llmBaseUrl_nonempty. cbn [negb].
  unfold bind. rewrite fetchJson_run. reflexivity.
Qed.

Lemma failed_no_ecosystem (reply : Reply) :
  failed reply ->
  (if ok (probe_of reply) && truthy (data (probe_of reply))
   then data (probe_of reply) else VNull) = VNull.
Proof.
  intros Hf. inversion Hf as [| r Hok | r Hbody]; subst; simpl.
  - reflexivity.
  - now rewrite Hok.
  - rewrite Hbody. destruct (res_ok r); reflexivity.
Qed.

Lemma healthRow_run (service : Service) (rows : list SystemRow) (s : State) :
  let url := sv_base service ++ sv_health service in
  healthRow service rows s
  = (Ret (rows ++ [ {| row_resource := sv_resource service;
                       row_type := sv_type service;
                       row_status := health_status (reply_to url s);
                       row_docs := str "-";
                       row_updated := str "-";
                       row_endpoint := str (sv_base service) |} ])%list,
     after url s).
Proof.
  cbv zeta. unfold healthRow, bind. rewrite fetchJson_run. unfold ret.
  do 4 f_equal. destruct (reply_to _ s) as [|r]; simpl; [reflexivity|].
  destruct (res_ok r); reflexivity.
Qed.

Lemma opt_prop_member (v : Value) (k : string) : opt_prop v k = member v k.
Proof. destruct v; reflexivity. Qed.

(** One turn of the loop over the collections: a request is made only for
    a collection whose statistics did not come with [ecosystem], and the
    row is appended when the statistics can be read. *)
Lemma collectionRow_run (ecosystem : Value) (collection : string)
    (rows : list SystemRow) (s : State) :
  collectionRow ecosystem collection rows s
  = (match extractRagStats (stats_payload ecosystem collection s) with
     | Ret parsedStats => Ret (rows ++ [collection_row collection parsedStats])%list
     | Throw e => Throw e
     end, after_stats ecosystem collection s).
Proof.
  unfold collectionRow, stats_payload, after_stats, reused, statsUrl.
  rewrite !opt_prop_member.
  destruct (truthy (member (member (member ecosystem "services") "rag") "stats")
            && strict_eq_str (member ecosystem "collection") collection).
  - unfold bind, ret, lift. destruct (extractRagStats _); reflexivity.
  - unfold bind. rewrite fetchJson_run. unfold ret, lift. cbv zeta.
    destruct (extractRagStats _); reflexivity.
Qed.

Lemma collection_row_printable (collection : string) (stats : option RagStats) :
  (forall p, stats = Some p -> printable (stats_updated p) = true) ->
  row_printable (collection_row collection stats) = true.
Proof.
  intros Hp. unfold row_printable, collection_row. cbn [row_docs row_updated row_endpoint].
  destruct stats as [p|]; [|reflexivity].
  cbn [printable str andb]. rewrite andb_true_r. unfold coalesce.
  destruct (nullish (stats_updated p)); [reflexivity | now apply Hp].
Qed.

(** The loop over the collections appends one row for each when all the
    statistics can be printed. *)
Lemma collections_loop (ecosystem : Value) (cs : list string) :
  forall (rows : list SystemRow) (s : State),
  collections_printable ecosystem cs s = true ->
  exists more,
    for_of cs (collectionRow ecosystem) rows s
    = (Ret (rows ++ more)%list,
       after_all (map statsUrl (filter (fun c => negb (reused ecosystem c)) cs)) s)
    /\ map row_resource more = map (fun c => "rag:" ++ c) cs
    /\ map row_type more = map (fun _ => "collection") cs
    /\ forallb row_printable more = true.
Proof.
  induction cs as [|c cs IH]; intros rows s Hall.
  - exists []. cbn. unfold ret. now rewrite app_nil_r.
  - cbn [collections_printable] in Hall. apply andb_true_iff in Hall.
    destruct Hall as [Hc Hrest].
    cbn [for_of]. unfold bind. rewrite collectionRow_run.
    destruct (extractRagStats_printable _ Hc) as (stats & -> & Hnone & Hsome).
    destruct (IH (rows ++ [collection_row c stats])%list
                 (after_stats ecosystem c s) Hrest)
      as (more & Emore & Nmore & Tmore & Pmore).
    rewrite Emore. exists (collection_row c stats :: more).
    split; [|split; [|split]].
    + f_equal; [now rewrite <- app_assoc|].
      cbn [filter]. unfold after_stats.
      destruct (reused ecosystem c); reflexivity.
    + cbn [map]. now rewrite Nmore.
    + cbn [map]. now rewrite Tmore.
    + cbn [forallb]. rewrite Pmore, andb_true_r.
      apply collection_row_printable. intros p ->.
      destruct (truthy (stats_payload ecosystem c s)
                && truthy (stats_record (stats_payload ecosystem c s))) eqn:E.
      * destruct (Hsome eq_refl) as (p' & [= ->] & Hp'). exact Hp'.
      * discriminate (Hnone eq_refl).
Qed.

(** Whatever the statistics are, the loop returns the rows it was given
    with more of them, or raises a [TypeError]; it does not touch the
    page. *)
Lemma collections_loop_outcome (ecosystem : Value) (cs : list string) :
  forall (rows : list SystemRow) (s : State),
  exists outcome s',
    for_of cs (collectionRow ecosystem) rows s = (outcome, s')
    /\ page s' = page s
    /\ (collections_printable ecosystem cs s = true ->
        exists more, outcome = Ret (rows ++ more)%list)
    /\ (collections_printable ecosystem cs s = false -> outcome = Throw TypeError).
Proof.
  induction cs as [|c cs IH]; intros rows s.
  - exists (Ret rows), s. repeat split; [|discriminate].
    intros _. exists []. now rewrite app_nil_r.
  - cbn [for_of collections_printable]. unfold bind. rewrite collectionRow_run.
    assert (Hpage : page (after_stats ecosystem c s) = page s).
    { unfold after_stats. destruct (reused ecosystem c); reflexivity. }
    destruct (payload_printable (stats_payload ecosystem c s)) eqn:Hc.
    + destruct (extractRagStats_printable _ Hc) as (stats & -> & _).
      destruct (IH (rows ++ [collection_row c stats])%list (after_stats ecosystem c s))
        as (outcome & s' & E & Hp & Hret & Hthrow).
      rewrite E. exists outcome, s'. split; [reflexivity|].
      split; [congruence|]. cbn [andb]. split; [|exact Hthrow].
      intros Hall. destruct (Hret Hall) as (more & ->).
      exists (collection_row c stats :: more). now rewrite <- app_assoc.
    + rewrite (extractRagStats_unprintable _ Hc).
      eexists. eexists. split; [reflexivity|]. split; [exact Hpage|].
      cbn [andb]. split; [discriminate | reflexivity].
Qed.

(** When no statistics came with [ecosystem], the loop stops at the first
    reply whose statistics cannot be printed. *)
Lemma stats_payload_reply (ecosystem : Value) (collection : string) (s : State) :
  reused ecosystem collection = false ->
  payload_printable (stats_payload ecosystem collection s)
  = reply_printable (reply_to (statsUrl collection) s).
Proof.
  intros Hr. unfold stats_payload. rewrite Hr. cbv zeta.
  destruct (reply_to (statsUrl collection) s) as [|r]; [reflexivity|].
  cbn [probe_of reply_printable]. destruct (res_ok r); [|reflexivity].
  cbn [ok data]. destruct (res_body r) as [body|]; reflexivity.
Qed.

Lemma collections_all_printable (ecosystem : Value) (cs : list string) :
  (forall c, reused ecosystem c = false) ->
  forall s,
  first_failing reply_printable (answers (map statsUrl cs) s) = None ->
  collections_printable ecosystem cs s = true.
Proof.
  intros Hr. induction cs as [|c cs IH]; intros s Hnone; [reflexivity|].
  cbn [map answers first_failing collections_printable] in *.
  rewrite (stats_payload_reply _ _ _ (Hr c)).
  destruct (reply_printable (reply_to (statsUrl c) s)); [|discriminate].
  cbn [andb]. unfold after_stats. rewrite (Hr c). apply IH.
  destruct (first_failing _ _); [discriminate | reflexivity].
Qed.

Lemma collections_stop (ecosystem : Value) (cs : list string) :
  (forall c, reused ecosystem c = false) ->
  forall (rows : list SystemRow) (s : State) (k : nat),
  first_failing reply_printable (answers (map statsUrl cs) s) = Some k ->
  for_of cs (collectionRow ecosystem) rows s
  = (Throw TypeError, after_all (firstn (S k) (map statsUrl cs)) s).
Proof.
  intros Hr. induction cs as [|c cs IH]; intros rows s k Hk; [discriminate|].
  cbn [map answers first_failing] in Hk.
  cbn [for_of]. unfold bind. rewrite collectionRow_run.
  unfold after_stats. rewrite (Hr c).
  destruct (reply_printable (reply_to (statsUrl c) s)) eqn:Hc.
  - rewrite <- (stats_payload_reply ecosystem _ _ (Hr c)) in Hc.
    destruct (extractRagStats_printable _ Hc) as (stats & -> & _).
    destruct (first_failing _ _) as [k'|] eqn:Hk'; [|discriminate].
    injection Hk as <-. rewrite (IH _ _ k' Hk'). reflexivity.
  - injection Hk as <-.
    rewrite <- (stats_payload_reply ecosystem _ _ (Hr c)) in Hc.
    now rewrite (extractRagStats_unprintable _ Hc).
Qed.

Lemma no_services_not_reused (ecosystem : Value) :
  truthy (opt_prop ecosystem "services") = false ->
  forall c, reused ecosystem c = false.
Proof.
  intros Hno c. unfold reused. rewrite opt_prop_member in Hno.
  destruct (member ecosystem "services") as [| | [|] | n | n d | t | |];
    try reflexivity; discriminate.
Qed.

(** The degraded path of [loadSystemRows], from any state: the three
    health probes, then the statistics of the three collections up to the
    first that cannot be printed. *)
Lemma loadSystemRows_degraded_run (s : State) :
  let ecosystemUrl :=
    llmBaseUrl config ++ "/internal/ecosystem/status?collection=anthology" in
  let health :=
    [llmBaseUrl config ++ "/health";
     ragBaseUrl config ++ "/health";
     audioBaseUrl config ++ "/health"] in
  let stats :=
    [ragBaseUrl config ++ "/rag_stats?collection=anthology";
     ragBaseUrl config ++ "/rag_stats?collection=blog";
     ragBaseUrl config ++ "/rag_stats?collection=projects"] in
  failed (reply_to ecosystemUrl s) ->
  match first_failing reply_printable
          (answers stats (after_all (ecosystemUrl :: health) s)) with
  | None =>
      exists rows,
        loadSystemRows s = (Ret rows, after_all (ecosystemUrl :: health ++ stats) s)
        /\ map row_resource rows
           = ["mlx-llm"; "mlx-rag"; "mlx-audio";
              "rag:anthology"; "rag:blog"; "rag:projects"]
        /\ map row_type rows
           = ["service"; "service"; "service"; "collection"; "collection"; "collection"]
        /\ map row_status (firstn 3 rows)
           = map health_status (answers health (after ecosystemUrl s))
        /\ forallb row_printable rows = true
  | Some k =>
      loadSystemRows s
      = (Throw TypeError, after_all (ecosystemUrl :: health ++ firstn (S k) stats) s)
  end.
Proof.
  intros ecosystemUrl health stats Hfail.
  pose (s3 := after_all (ecosystemUrl :: health) s).
  pose (rows3 := map (fun '(name, base, at_) =>
                        {| row_resource := name;
                           row_type := "service";
                           row_status := health_status (reply_to (base ++ "/health") at_);
                           row_docs := str "-";
                           row_updated := str "-";
                           row_endpoint := str base |})
                     [("mlx-llm", llmBaseUrl config, after ecosystemUrl s);
                      ("mlx-rag", ragBaseUrl config,
                       after (llmBaseUrl config ++ "/health") (after ecosystemUrl s));
                      ("mlx-audio", audioBaseUrl config,
                       after (ragBaseUrl config ++ "/health")
                         (after (llmBaseUrl config ++ "/health")
                            (after ecosystemUrl s)))]).
  assert (Hstart :
    loadSystemRows s
    = bind (for_of collections (collectionRow VNull) rows3) (fun rows => ret rows) s3).
  { unfold loadSystemRows. cbv zeta. unfold bind at 1.
    rewrite probeEcosystem_run. cbv zeta. fold ecosystemUrl.
    rewrite (failed_no_ecosystem _ Hfail).
    change (truthy (opt_prop VNull "services")) with false. cbv iota.
    unfold services. cbn [for_of].
    unfold bind at 1. unfold bind at 1. rewrite healthRow_run.
    unfold bind at 1. rewrite healthRow_run.
    unfold bind at 1. rewrite healthRow_run.
    reflexivity. }
  rewrite Hstart.
  assert (Hr : forall c, reused VNull c = false) by reflexivity.
  change stats with (map statsUrl collections).
  fold s3.
  destruct (first_failing reply_printable (answers (map statsUrl collections) s3))
    as [k|] eqn:Hk.
  - unfold bind at 1. rewrite (collections_stop VNull collections Hr rows3 s3 k Hk).
    reflexivity.
  - destruct (collections_loop VNull collections rows3 s3
                (collections_all_printable VNull collections Hr s3 Hk))
      as (more & Eloop & Nmore & Tmore & Pmore).
    unfold bind at 1. rewrite Eloop. unfold ret.
    exists (rows3 ++ more)%list. split; [|split; [|split; [|split]]].
    + reflexivity.
    + rewrite map_app, Nmore. reflexivity.
    + rewrite map_app, Tmore. reflexivity.
    + reflexivity.
    + rewrite forallb_app, Pmore. reflexivity.
Qed.

(** C9 (amended): when the request to the combined endpoint fails, a
    cycle asks the [/health] of the three services and then the
    [rag_stats] of the three collections, in this order.  When every
    reply with statistics can be printed, these seven requests are all
    that is made and the rows come back as mlx-llm, mlx-rag, mlx-audio,
    rag:anthology, rag:blog, rag:projects whatever the six probes answer,
    each service row showing what its own probe found.  At the first reply
    whose statistics cannot be printed the function raises a [TypeError]:
    no row is returned, and the collections after that one are not
    asked for. *)
Theorem loadSystemRows_degraded (s : State) :
  let ecosystemUrl :=
    llmBaseUrl config ++ "/internal/ecosystem/status?collection=anthology" in
  let health :=
    [llmBaseUrl config ++ "/health";
     ragBaseUrl config ++ "/health";
     audioBaseUrl config ++ "/health"] in
  let stats :=
    [ragBaseUrl config ++ "/rag_stats?collection=anthology";
     ragBaseUrl config ++ "/rag_stats?collection=blog";
     ragBaseUrl config ++ "/rag_stats?collection=projects"] in
  failed (reply_to ecosystemUrl s) ->
  match first_failing reply_printable
          (answers stats (after_all (ecosystemUrl :: health) s)) with
  | None =>
      exists rows,
        loadSystemRows s = (Ret rows, after_all (ecosystemUrl :: health ++ stats) s)
        /\ requests (after_all (ecosystemUrl :: health ++ stats) s)
           = (requests s ++ ecosystemUrl :: health ++ stats)%list
        /\ map row_resource rows
           = ["mlx-llm"; "mlx-rag"; "mlx-audio";
              "rag:anthology"; "rag:blog"; "rag:projects"]
        /\ map row_type rows
           = ["service"; "service"; "service"; "collection"; "collection"; "collection"]
        /\ map row_status (firstn 3 rows)
           = map health_status (answers health (after ecosystemUrl s))
  | Some k =>
      loadSystemRows s
      = (Throw TypeError, after_all (ecosystemUrl :: health ++ firstn (S k) stats) s)
      /\ requests (after_all (ecosystemUrl :: health ++ firstn (S k) stats) s)
         = (requests s ++ ecosystemUrl :: health ++ firstn (S k) stats)%list
  end.
Proof.
  intros ecosystemUrl health stats Hfail.
  pose proof (loadSystemRows_degraded_run s Hfail) as Hrun. cbv zeta in Hrun.
  fold ecosystemUrl health stats in Hrun.
  destruct (first_failing reply_printable
              (answers stats (after_all (ecosystemUrl :: health) s))) as [k|].
  - split; [exact Hrun|]. apply after_all_requests.
  - destruct Hrun as (rows & Hrows & Hn & Ht & Hs & _).
    exists rows. split; [exact Hrows|]. split; [apply after_all_requests|]. auto.
Qed.

End SystemRows.

(** ** The row of the inference service *)

Section EcosystemRows.

Context `{Host}.

Lemma trimModelId_of_typed (v : Value) :
  optional_string v = true ->
  trimModelId_of v
  = Ret (str (match v with VStr m => trimModelId (Present m) | _ => "-" end)).
Proof.
  destruct v as [| | b | n | n d | m | items | props]; try discriminate;
    intros _; try reflexivity.
  unfold trimModelId_of, trimModelId. cbn [truthy].
  destruct (m =? EmptyString)%string; reflexivity.
Qed.

Lemma trimModelId_dash (m : string) :
  m <> EmptyString -> trimModelId (Present m) = "-" -> m = "-".
Proof.
  intros Hne Hd.
  destruct (Nat.le_gt_cases (String.length m) 52) as [Hle|Hgt].
  - rewrite (trimModelId_short m Hne Hle) in Hd. exact Hd.
  - destruct (trimModelId_long_parts m Hgt) as (a & b & c & _ & Ha & Hc & Ht).
    rewrite Ht in Hd. apply (f_equal String.length) in Hd.
    rewrite !length_append, Ha, Hc in Hd. simpl in Hd. lia.
Qed.

(** The text shown for the inference service, by the precedence of
    [loadSystemRows]: the model id, else whether a model is loaded. *)
Lemma llm_docs_run (llm : Value) :
  truthy llm = true ->
  optional_string (member llm "model_id") = true ->
  exists docs,
    (if truthy llm then
       if truthy (member llm "model_id")
       then trimModelId_of (member llm "model_id")
       else Ret (str (if truthy (member llm "loaded") then "loaded" else "unloaded"))
     else Ret (str "-")) = Ret (str docs)
    /\ (forall m, member llm "model_id" = VStr m -> m <> EmptyString ->
        docs = trimModelId (Present m))
    /\ (truthy (member llm "model_id") = false ->
        docs = if truthy (member llm "loaded") then "loaded" else "unloaded")
    /\ (docs = "-" -> member llm "model_id" = str "-").
Proof.
  intros Hllm Htyped. rewrite Hllm.
  destruct (truthy (member llm "model_id")) eqn:Hid.
  - rewrite (trimModelId_of_typed _ Htyped).
    destruct (member llm "model_id") as [| | b | n | n d | m | |]; try discriminate.
    assert (Hne : m <> EmptyString).
    { intros ->. discriminate. }
    eexists. split; [reflexivity|]. repeat split.
    + intros m' [= <-] _. reflexivity.
    + discriminate.
    + intros Hd. unfold str. f_equal. now apply trimModelId_dash.
  - eexists. split; [reflexivity|]. repeat split.
    + intros m Hm Hne. rewrite Hm in Hid. simpl in Hid.
      destruct (String.eqb_spec m EmptyString); [contradiction | discriminate].
    + destruct (truthy (member llm "loaded")); discriminate.
Qed.

Lemma rag_docs_run (rag : Value) :
  optional_string (member rag "embedding_model") = true ->
  exists docs,
    (if truthy (opt_prop (or_else rag VNull) "embedding_model")
     then trimModelId_of (member (or_else rag VNull) "embedding_model")
     else Ret (str "-")) = Ret (str docs).
Proof.
  intros Htyped. unfold or_else.
  destruct (truthy rag) eqn:Hrag.
  - assert (Hnn : nullish rag = false) by (destruct rag; try reflexivity; discriminate).
    unfold opt_prop. rewrite Hnn.
    destruct (truthy (member rag "embedding_model")); [|eauto].
    rewrite (trimModelId_of_typed _ Htyped). eauto.
  - simpl. eauto.
Qed.

(** The text for the inference service and for the retrieval service, for
    fields of the declared types. *)
Lemma service_docs_run (services : Value) :
  optional_string (member (member services "llm") "model_id") = true ->
  optional_string (member (member services "rag") "embedding_model") = true ->
  exists llmDocs ragDocs,
    (if truthy (or_else (member services "llm") VNull) then
       if truthy (member (or_else (member services "llm") VNull) "model_id")
       then trimModelId_of (member (or_else (member services "llm") VNull) "model_id")
       else Ret (str (if truthy (member (or_else (member services "llm") VNull) "loaded")
                      then "loaded" else "unloaded"))
     else Ret (str "-")) = Ret (str llmDocs)
    /\ (if truthy (opt_prop (or_else (member services "rag") VNull) "embedding_model")
        then trimModelId_of (member (or_else (member services "rag") VNull) "embedding_model")
        else Ret (str "-")) = Ret (str ragDocs)
    /\ (forall llm, member services "llm" = llm -> truthy llm = true ->
        (forall m, member llm "model_id" = VStr m -> m <> EmptyString ->
           llmDocs = trimModelId (Present m))
        /\ (truthy (member llm "model_id") = false ->
            llmDocs = if truthy (member llm "loaded") then "loaded" else "unloaded")
        /\ (llmDocs = "-" -> member llm "model_id" = str "-")).
Proof.
  intros Hllm Hrag.
  destruct (rag_docs_run _ Hrag) as (ragDocs & Hr).
  destruct (truthy (member services "llm")) eqn:Hl.
  - destruct (llm_docs_run _ Hl Hllm) as (docs & Hd & D).
    assert (Hor : or_else (member services "llm") VNull = member services "llm")
      by (unfold or_else; now rewrite Hl).
    rewrite !Hor. exists docs, ragDocs. split; [exact Hd|]. split; [exact Hr|].
    intros llm <- _. exact D.
  - assert (Hor : or_else (member services "llm") VNull = VNull)
      by (unfold or_else; now rewrite Hl).
    rewrite !Hor. cbn. exists "-", ragDocs. split; [reflexivity|].
    split; [exact Hr|]. intros llm <- Ht. congruence.
Qed.

(** [ecosystemRows] for model ids of the declared types: it raises exactly
    when the timestamp of the reply cannot be printed. *)
Lemma ecosystemRows_typed (ecosystem : Value) (rows : list SystemRow) (s : State) :
  let services := member ecosystem "services" in
  optional_string (member (member services "llm") "model_id") = true ->
  optional_string (member (member services "rag") "embedding_model") = true ->
  exists llmDocs ragDocs,
    ecosystemRows ecosystem rows s
    = (match formatTimestamp (member ecosystem "generated_at") with
       | Ret updated =>
           Ret (service_rows ecosystem updated (str llmDocs) (str ragDocs) rows)
       | Throw e => Throw e
       end, s)
    /\ (forall llm, member services "llm" = llm -> truthy llm = true ->
        (forall m, member llm "model_id" = VStr m -> m <> EmptyString ->
           llmDocs = trimModelId (Present m))
        /\ (truthy (member llm "model_id") = false ->
            llmDocs = if truthy (member llm "loaded") then "loaded" else "unloaded")
        /\ (llmDocs = "-" -> member llm "model_id" = str "-")).
Proof.
  intros services Hllm Hrag.
  destruct (service_docs_run services Hllm Hrag) as (llmDocs & ragDocs & Hl & Hr & D).
  exists llmDocs, ragDocs. split; [|exact D].
  unfold ecosystemRows. cbv zeta. fold services.
  unfold bind at 1. unfold lift at 1.
  destruct (formatTimestamp (member ecosystem "generated_at")) as [updated|e];
    [|reflexivity].
  unfold bind at 1. unfold lift at 1. rewrite Hl.
  unfold bind at 1. unfold lift at 1. rewrite Hr.
  reflexivity.
Qed.

Lemma service_rows_first (ecosystem updated llmDocs ragDocs : Value) :
  exists rest,
    service_rows ecosystem updated llmDocs ragDocs []
    = {| row_resource := "mlx-llm";
         row_type := "service";
         row_status := service_status (member (member ecosystem "services") "llm");
         row_docs := llmDocs;
         row_updated := updated;
         row_endpoint :=
           or_else (or_else (opt_prop (or_else (member (member ecosystem "services") "llm")
                                               VNull) "base_url")
                            (str (llmBaseUrl config)))
                   (str "-") |} :: rest.
Proof.
  unfold service_rows, addServiceRow. cbv zeta.
  assert (Hs : forall service,
    (if truthy (or_else service VNull)
     then (if truthy (member (or_else service VNull) "ok") then Ok else Down)
     else Unknown) = service_status service).
  { intros service. unfold or_else, service_status.
    destruct (truthy service) eqn:E; cbn; rewrite ?E; reflexivity. }
  rewrite Hs.
  destruct (truthy (member (member ecosystem "services") "vlm"));
    destruct (truthy (member (member ecosystem "services") "mcp"));
    cbn [app]; eexists; reflexivity.
Qed.

(** C7 (amended): when the combined endpoint answers and its entry for the
    inference service has a falsy [ok] (the model ids being of their
    declared types), the rows that [loadSystemRows] returns begin with that
    of mlx-llm, its status is "down", and its text is the abbreviated
    model id when there is one, else "loaded" or "unloaded" by the
    [loaded] flag; the text is the placeholder only for a model id that is
    itself ["-"].  The rows are returned when the timestamp of the reply
    and the statistics of the three collections can be printed; when one
    of them cannot, a [TypeError] is raised and no row is returned. *)
Theorem loadSystemRows_llm_down (s : State) (r : Response) (ecosystem llm : Value) :
  let ecosystemUrl :=
    llmBaseUrl config ++ "/internal/ecosystem/status?collection=anthology" in
  reply_to ecosystemUrl s = Responded r ->
  res_ok r = true ->
  res_body r = Some ecosystem ->
  member (member ecosystem "services") "llm" = llm ->
  truthy llm = true ->
  truthy (member llm "ok") = false ->
  optional_string (member llm "model_id") = true ->
  optional_string
    (member (member (member ecosystem "services") "rag") "embedding_model") = true ->
  exists row outcome s',
    loadSystemRows s = (outcome, s')
    /\ (printable (member ecosystem "generated_at")
        && collections_printable ecosystem collections (after ecosystemUrl s) = true ->
        exists rest, outcome = Ret (row :: rest))
    /\ (printable (member ecosystem "generated_at")
        && collections_printable ecosystem collections (after ecosystemUrl s) = false ->
        outcome = Throw TypeError)
    /\ row_resource row = "mlx-llm"
    /\ row_type row = "service"
    /\ row_status row = Down
    /\ (forall m, member llm "model_id" = VStr m -> m <> EmptyString ->
        row_docs row = str (trimModelId (Present m)))
    /\ (truthy (member llm "model_id") = false ->
        row_docs row
        = str (if truthy (member llm "loaded") then "loaded" else "unloaded"))
    /\ (row_docs row = str "-" -> member llm "model_id" = str "-").
Proof.
  intros ecosystemUrl Hreply Hok Hbody Hllm Htruthy Hdown Hid Hrag.
  assert (Hservices : truthy (member ecosystem "services") = true).
  { destruct (member ecosystem "services"); subst llm; try discriminate. reflexivity. }
  assert (Heco : truthy ecosystem = true).
  { destruct ecosystem; try discriminate. reflexivity. }
  rewrite <- Hllm in Hid.
  destruct (ecosystemRows_typed ecosystem [] (after ecosystemUrl s) Hid Hrag)
    as (llmDocs & ragDocs & Hrows & D).
  destruct (D llm Hllm Htruthy) as (D1 & D2 & D3).
  set (updated := match formatTimestamp (member ecosystem "generated_at") with
                  | Ret updated => updated
                  | Throw _ => str "-"
                  end).
  destruct (service_rows_first ecosystem updated (str llmDocs) (str ragDocs))
    as (rest0 & Hfirst).
  rewrite Hllm in Hfirst. unfold service_status in Hfirst.
  rewrite Htruthy, Hdown in Hfirst.
  unfold loadSystemRows. cbv zeta. unfold bind at 1.
  rewrite probeEcosystem_run. cbv zeta. fold ecosystemUrl. rewrite Hreply.
  unfold probe_of. rewrite Hok, Hbody. cbn [ok data andb]. rewrite Heco.
  rewrite opt_prop_member, Hservices.
  unfold bind at 1. rewrite Hrows.
  destruct (printable (member ecosystem "generated_at")) eqn:Hgen.
  - destruct (formatTimestamp_printable _ Hgen) as (shown & Hshown & _).
    subst updated. rewrite Hshown in *. rewrite Hfirst.
    match goal with
    | |- context [for_of collections _ ?rows0] =>
        destruct (collections_loop_outcome ecosystem collections rows0
                    (after ecosystemUrl s))
          as (outcome & s' & Eloop & _ & Hret & Hthrow)
    end.
    unfold bind at 1. rewrite Eloop.
    eexists. exists outcome, s'.
    split; [destruct outcome; reflexivity|].
    cbn [andb row_resource row_type row_status row_docs].
    split; [|split; [exact Hthrow|]].
    + intros Hall. destruct (Hret Hall) as (more & ->). cbn [app]. eauto.
    + repeat split; try reflexivity.
      * intros m Hm Hne. cbn [row_docs]. f_equal. now apply D1.
      * intros Hno. cbn [row_docs]. f_equal. now apply D2.
      * cbn [row_docs]. intros [= Hd]. now apply D3.
  - rewrite (formatTimestamp_unprintable _ Hgen).
    exists {| row_resource := "mlx-llm"; row_type := "service"; row_status := Down;
              row_docs := str llmDocs; row_updated := str "-";
              row_endpoint := str "-" |}.
    eexists. eexists. split; [reflexivity|].
    cbn [andb row_resource row_type row_status row_docs].
    split; [discriminate|]. split; [reflexivity|].
    repeat split; try reflexivity.
    + intros m Hm Hne. cbn [row_docs]. f_equal. now apply D1.
    + intros Hno. cbn [row_docs]. f_equal. now apply D2.
    + cbn [row_docs]. intros [= Hd]. now apply D3.
Qed.

End EcosystemRows.

Lemma loadSystemRows_degraded_witness :
  let s := start offline tt in
  failed (@reply_to offline
            (llmBaseUrl (@config offline)
             ++ "/internal/ecosystem/status?collection=anthology") s)
  /\ map row_resource (returned (fst (@loadSystemRows offline s)))
     = ["mlx-llm"; "mlx-rag"; "mlx-audio"; "rag:anthology"; "rag:blog"; "rag:projects"].
Proof.
  intros s.
  assert (Hfail : failed (@reply_to offline
            (llmBaseUrl (@config offline)
             ++ "/internal/ecosystem/status?collection=anthology") s))
    by apply failed_transport.
  split; [exact Hfail|].
  destruct (@loadSystemRows_degraded offline s Hfail) as (rows & Hrun & _ & Hnames & _).
  rewrite Hrun. exact Hnames.
Defined.

(** C9, as the specification has it, fails at a reply with statistics
    whose count cannot be converted to a string: [String(count)] raises,
    no list of rows is returned, and the two collections after that one
    are never asked for. *)
Lemma loadSystemRows_unprintable_count :
  let url := "http://127.0.0.1:8011/rag_stats?collection=anthology" in
  let host := serving url (Some (VObj [("count", VObj [("toString", VNum 1)])])) in
  let s := start host tt in
  failed (@reply_to host
            "http://127.0.0.1:8080/internal/ecosystem/status?collection=anthology" s)
  /\ fst (@loadSystemRows host s) = Throw TypeError
  /\ requests (snd (@loadSystemRows host s))
     = ["http://127.0.0.1:8080/internal/ecosystem/status?collection=anthology";
        "http://127.0.0.1:8080/health";
        "http://127.0.0.1:8011/health";
        "http://127.0.0.1:7001/health";
        "http://127.0.0.1:8011/rag_stats?collection=anthology"].
Proof.
  cbv zeta. split; [apply failed_transport|]. split; reflexivity.
Qed.

Lemma loadSystemRows_llm_down_witness :
  let llm := VObj [("ok", VBool false); ("model_id", str "m1")] in
  let ecosystem := VObj [("services", VObj [("llm", llm)])] in
  let url := "http://127.0.0.1:8080/internal/ecosystem/status?collection=anthology" in
  let host := serving url (Some ecosystem) in
  let s := start host tt in
  @reply_to host url s = Responded {| res_status := 200; res_body := Some ecosystem |}
  /\ truthy llm = true
  /\ truthy (member llm "ok") = false
  /\ exists row rest s',
       @loadSystemRows host s = (Ret (row :: rest), s')
       /\ row_resource row = "mlx-llm"
       /\ row_status row = Down
       /\ row_docs row = str "m1".
Proof.
  intros llm ecosystem url host s.
  split; [reflexivity|]. split; [reflexivity|]. split; [reflexivity|].
  destruct (@loadSystemRows_llm_down host s
              {| res_status := 200; res_body := Some ecosystem |} ecosystem llm
              eq_refl eq_refl eq_refl eq_refl eq_refl eq_refl eq_refl eq_refl)
    as (row & outcome & s' & Hrun & Hret & _ & Hname & _ & Hstatus & Hid & _).
  destruct (Hret eq_refl) as (rest & ->).
  exists row, rest, s'. repeat split; try assumption.
  apply (Hid "m1"); [reflexivity | discriminate].
Defined.

(** C7, as the specification has it, fails twice.  An entry with neither
    [model_id] nor [loaded] is shown as "unloaded", not as the placeholder;
    and the placeholder is shown for an entry whose [model_id] is present,
    namely ["-"]. *)
Lemma llm_down_docs_not_placeholder :
  let url := "http://127.0.0.1:8080/internal/ecosystem/status?collection=anthology" in
  let bare := VObj [("ok", VBool false)] in
  let dash := VObj [("ok", VBool false); ("model_id", str "-")] in
  let host llm := serving url (Some (VObj [("services", VObj [("llm", llm)])])) in
  let shown llm :=
    map (fun row => (row_resource row, row_status row, row_docs row))
        (firstn 1 (returned (fst (@loadSystemRows (host llm) (start (host llm) tt))))) in
  (nullish (member bare "model_id") = true
   /\ truthy (member bare "loaded") = false
   /\ shown bare = [("mlx-llm", Down, str "unloaded")])
  /\ (member dash "model_id" = str "-"
      /\ shown dash = [("mlx-llm", Down, str "-")]).
Proof.
  cbv zeta. repeat split.
Qed.

(** ** The posts and their fallback *)

Section Posts.

Context `{Host}.

Lemma loadPosts_run (s : State) :
  loadPosts s
  = (Ret (match reply_to "/posts.json" s with
          | Rejected => fallbackPosts
          | Responded r =>
              match res_ok r, res_body r with
              | true, Some body =>
                  if isArray (opt_prop body "posts") then body else fallbackPosts
              | _, _ => fallbackPosts
              end
          end), after "/posts.json" s).
Proof.
  unfold loadPosts, try_catch, bind. rewrite request_run.
  destruct (reply_to "/posts.json" s) as [|r]; [reflexivity|].
  destruct (res_ok r); [|reflexivity]. cbn [negb].
  unfold json. destruct (res_body r) as [body|]; [|reflexivity].
  unfold ret at 1. cbv beta iota. unfold lift, prop, opt_prop.
  destruct (nullish body); [reflexivity|].
  destruct (member body "posts");
    cbn [isArray negb]; rewrite ?orb_true_r; reflexivity.
Qed.

Lemma loadPosts_fallback (s : State) :
  no_posts (reply_to "/posts.json" s) ->
  loadPosts s = (Ret fallbackPosts, after "/posts.json" s).
Proof.
  intros Hno. rewrite loadPosts_run. f_equal. f_equal.
  inversion Hno as [reply Hfail Hr | r body Hbody Harr Hr].
  - inversion Hfail as [Hq | r Hok Hq | r Hbody Hq].
    + reflexivity.
    + now rewrite Hok.
    + rewrite Hbody. destruct (res_ok r); reflexivity.
  - rewrite Hbody, Harr. destruct (res_ok r); reflexivity.
Qed.

(** The steps of [bootstrap] that come before and after the posts leave
    the network and the list of posts alone. *)
Lemma setHeroTerminal_run (s : State) :
  exists d, setHeroTerminal s
            = (Ret tt, {| world := world s; requests := requests s; page := d |})
            /\ postList d = postList (page s).
Proof.
  destruct s as [w rq [hero grid posts table chat]].
  unfold setHeroTerminal, bind, get_page, set_page. cbn.
  destruct hero; eexists; split; reflexivity.
Qed.

Lemma setChatTerminal_run (s : State) :
  exists d, setChatTerminal s
            = (Ret tt, {| world := world s; requests := requests s; page := d |})
            /\ postList d = postList (page s).
Proof.
  destruct s as [w rq [hero grid posts table chat]].
  unfold setChatTerminal, bind, get_page, set_page. cbn.
  destruct chat; eexists; split; reflexivity.
Qed.

Lemma renderHeadlines_fallback (s : State) :
  exists d, renderHeadlines (member fallbackPosts "posts") s
            = (Ret tt, {| world := world s; requests := requests s; page := d |})
            /\ postList d = postList (page s).
Proof.
  destruct s as [w rq [hero grid posts table chat]].
  destruct grid; eexists; split; vm_compute; reflexivity.
Qed.

Lemma renderPosts_fallback (s : State) :
  postList (page s) <> None ->
  exists d, renderPosts (member fallbackPosts "posts") s
            = (Ret tt, {| world := world s; requests := requests s; page := d |})
            /\ postList d = Some fallbackCards.
Proof.
  destruct s as [w rq [hero grid posts table chat]]. cbn. intros Hposts.
  destruct posts; [|contradiction]. eexists; split; vm_compute; reflexivity.
Qed.

Lemma tableRow_printable (row : SystemRow) :
  row_printable row = true -> tableRow row = Ret (shown_row row).
Proof.
  unfold row_printable. intros Hp.
  apply andb_true_iff in Hp. destruct Hp as [Hp He].
  apply andb_true_iff in Hp. destruct Hp as [Hd Hu].
  unfold tableRow.
  now rewrite (ToString_printable _ Hd), (ToString_printable _ Hu),
    (ToString_printable _ He).
Qed.

(** The loop of [renderTableRows]: rows are appended one by one, up to the
    first that cannot be shown. *)
Lemma renderTableRows_loop (rows : list SystemRow) :
  forall (shown : list TableRow) (s : State),
  exists outcome more,
    forEach rows
      (fun row =>
         bind (lift (tableRow row)) (fun el =>
         bind get_page (fun d =>
         set_page {| heroTerminal := heroTerminal d;
                     headlineGrid := headlineGrid d;
                     postList := postList d;
                     systemTableBody :=
                       Some (match systemTableBody d with Some els => els | None => [] end
                             ++ [el])%list;
                     chatTerminal := chatTerminal d |})))
      (set_systemTableBody (Some shown) s)
    = (outcome, set_systemTableBody (Some (shown ++ more)%list) s)
    /\ (forallb row_printable rows = true ->
        outcome = Ret tt /\ more = map shown_row rows).
Proof.
  induction rows as [|row rows IH]; intros shown s.
  - exists (Ret tt), []. rewrite app_nil_r. split; [reflexivity | auto].
  - cbn [forEach]. unfold bind at 1. unfold bind at 1. unfold lift at 1.
    destruct (tableRow row) as [el|e] eqn:Erow.
    + unfold bind at 1. unfold get_page at 1. unfold set_page at 1.
      cbn [page set_systemTableBody postList heroTerminal headlineGrid systemTableBody
           chatTerminal world requests].
      destruct (IH (shown ++ [el])%list s) as (outcome & more & Eloop & Hall).
      exists outcome, (el :: more). split.
      * transitivity (outcome, set_systemTableBody (Some ((shown ++ [el]) ++ more)%list) s);
          [exact Eloop | now rewrite <- app_assoc].
      * cbn [forallb map]. intros Hp. apply andb_true_iff in Hp.
        destruct Hp as [Hrow Hrest]. destruct (Hall Hrest) as [-> ->].
        rewrite (tableRow_printable _ Hrow) in Erow. now injection Erow as <-.
    + exists (Throw e), []. rewrite app_nil_r. split; [reflexivity|].
      cbn [forallb]. intros Hp. apply andb_true_iff in Hp. destruct Hp as [Hrow _].
      rewrite (tableRow_printable _ Hrow) in Erow. discriminate.
Qed.

(** [renderTableRows] writes to the body of the table and to nothing
    else; it shows every row when every row can be shown. *)
Lemma renderTableRows_outcome (rows : list SystemRow) (s : State) :
  exists outcome shown,
    renderTableRows rows s
    = (outcome,
       match systemTableBody (page s) with
       | Some _ => set_systemTableBody (Some shown) s
       | None => s
       end)
    /\ (forallb row_printable rows = true ->
        outcome = Ret tt /\ shown = map shown_row rows).
Proof.
  unfold renderTableRows. unfold bind at 1. unfold get_page at 1.
  destruct (systemTableBody (page s)) eqn:Et.
  - unfold bind at 1. unfold set_page at 1.
    destruct (renderTableRows_loop rows [] s) as (outcome & more & Eloop & Hall).
    exists outcome, more. split; [exact Eloop | exact Hall].
  - exists (Ret tt), (map shown_row rows). split; [|auto].
    unfold ret. now destruct s.
Qed.

Lemma ecosystemRows_state (ecosystem : Value) (rows : list SystemRow) (s : State) :
  snd (ecosystemRows ecosystem rows s) = s.
Proof.
  unfold ecosystemRows. cbv zeta. unfold bind, lift, ret.
  repeat match goal with
         | |- context [match ?o with Ret _ => _ | Throw _ => _ end] =>
             destruct o
         | |- context [if ?c then _ else _] => destruct c
         end; reflexivity.
Qed.

Lemma services_loop_page (rows : list SystemRow) (s : State) :
  exists rows' s', for_of services healthRow rows s = (Ret rows', s')
                   /\ page s' = page s.
Proof.
  unfold services. cbn [for_of]. unfold bind.
  rewrite !healthRow_run. unfold ret. eexists. eexists. split; reflexivity.
Qed.

(** [loadSystemRows] does not write to the page, whether it returns or
    raises. *)
Lemma loadSystemRows_page (s : State) :
  page (snd (loadSystemRows s)) = page s.
Proof.
  unfold loadSystemRows. cbv zeta. unfold bind at 1.
  rewrite probeEcosystem_run. cbv zeta.
  match goal with
  | |- context [opt_prop ?e "services"] => set (ecosystem := e)
  end.
  set (s1 := after _ s).
  change (page s) with (page s1).
  unfold bind at 1.
  destruct (truthy (opt_prop ecosystem "services")).
  - pose proof (ecosystemRows_state ecosystem [] s1) as Hst.
    destruct (ecosystemRows ecosystem [] s1) as [[rows|e] s2]; simpl in Hst; subst s2.
    + destruct (collections_loop_outcome ecosystem collections rows s1)
        as (outcome & s3 & E & Hp & _).
      unfold bind. rewrite E. unfold ret. destruct outcome; exact Hp.
    + reflexivity.
  - destruct (services_loop_page [] s1) as (rows & s2 & E2 & Hp2). rewrite E2.
    destruct (collections_loop_outcome ecosystem collections rows s2)
      as (outcome & s3 & E & Hp & _).
    unfold bind. rewrite E. unfold ret.
    destruct outcome; cbn [snd]; rewrite Hp; exact Hp2.
Qed.

(** C8: when the request for [/posts.json] fails, or its body has no
    array of posts, [loadPosts] answers the embedded payload, and after
    [bootstrap] the list of posts of the page holds the cards of its four
    posts in their order, the one of systems-004 last. *)
Theorem bootstrap_fallback_posts (s : State) :
  no_posts (reply_to "/posts.json" s) ->
  postList (page s) <> None ->
  loadPosts s = (Ret fallbackPosts, after "/posts.json" s)
  /\ map (fun post => member post "id")
         (returned (as_array (member fallbackPosts "posts")))
     = [str "anthology-brief-001"; str "voice-notes-002";
        str "generator-003"; str "systems-004"]
  /\ map postCard (returned (as_array (member fallbackPosts "posts")))
     = map Ret fallbackCards
  /\ postList (page (snd (bootstrap s))) = Some fallbackCards.
Proof.
  intros Hno Hlist.
  split; [now apply loadPosts_fallback|].
  split; [reflexivity|]. split; [vm_compute; reflexivity|].
  unfold bootstrap.
  destruct (setHeroTerminal_run s) as (d1 & E1 & P1).
  unfold bind at 1. rewrite E1.
  destruct (setChatTerminal_run {| world := world s; requests := requests s; page := d1 |})
    as (d2 & E2 & P2).
  unfold bind at 1. rewrite E2. cbn [world requests page] in *.
  set (s2 := {| world := world s; requests := requests s; page := d2 |}).
  assert (Hno2 : no_posts (reply_to "/posts.json" s2)) by exact Hno.
  unfold bind at 1. rewrite (loadPosts_fallback s2 Hno2).
  unfold bind at 1. unfold lift at 1.
  change (prop fallbackPosts "posts") with (Ret (member fallbackPosts "posts")).
  cbv beta iota.
  destruct (renderHeadlines_fallback (after "/posts.json" s2)) as (d3 & E3 & P3).
  unfold bind at 1. rewrite E3.
  match goal with
  | |- context [bind (renderPosts _) _ ?s0] =>
      destruct (renderPosts_fallback s0) as (d4 & E4 & P4)
  end.
  { cbn [page]. rewrite P3. cbn [page after]. subst s2. cbn [page]. congruence. }
  unfold bind at 1. rewrite E4. cbn [world requests page] in *.
  match goal with
  | |- context [bind loadSystemRows _ ?s0] => set (s4 := s0)
  end.
  pose proof (loadSystemRows_page s4) as Hpage.
  unfold bind at 1.
  destruct (loadSystemRows s4) as [[rows|e] s5]; cbn [snd] in *.
  - destruct (renderTableRows_outcome rows s5) as (outcome & shown & E6 & _).
    rewrite E6. cbn [snd].
    destruct (systemTableBody (page s5));
      cbn [page set_systemTableBody postList]; rewrite Hpage; subst s4;
      cbn [page]; exact P4.
  - rewrite Hpage. subst s4. cbn [page]. exact P4.
Qed.

End Posts.

Lemma bootstrap_fallback_posts_witness :
  let s := start offline tt in
  no_posts (@reply_to offline "/posts.json" s)
  /\ postList (page s) <> None
  /\ postList (page (snd (@bootstrap offline s))) = Some fallbackCards.
Proof.
  intros s.
  assert (Hno : no_posts (@reply_to offline "/posts.json" s))
    by (apply no_posts_failed, failed_transport).
  assert (Hlist : postList (page s) <> None) by discriminate.
  split; [exact Hno|]. split; [exact Hlist|].
  apply (@bootstrap_fallback_posts offline s Hno Hlist).
Defined.

(** * Further properties of the page *)

(** ** The snapshot of posts *)

Section PostsPayload.

Context `{Host}.

(** X1: [loadPosts] never raises and makes one request; what it returns
    always has an array under [posts], so that the two reads of
    [postsPayload.posts] in [bootstrap] cannot fail; and it is the body of
    the reply whenever that body has such an array, the embedded payload
    otherwise. *)
Theorem loadPosts_posts_array (s : State) :
  exists payload posts,
    loadPosts s = (Ret payload, after "/posts.json" s)
    /\ prop payload "posts" = Ret (VArr posts)
    /\ (forall r body,
          reply_to "/posts.json" s = Responded r ->
          res_ok r = true -> res_body r = Some body ->
          isArray (opt_prop body "posts") = true ->
          payload = body)
    /\ (payload = fallbackPosts
        \/ exists r, reply_to "/posts.json" s = Responded r
                     /\ res_ok r = true /\ res_body r = Some payload).
Proof.
  rewrite loadPosts_run.
  assert (Hfb : exists posts, prop fallbackPosts "posts" = Ret (VArr posts))
    by (eexists; reflexivity).
  destruct Hfb as (fb & Hfb).
  destruct (reply_to "/posts.json" s) as [|r].
  { exists fallbackPosts, fb. repeat split; auto. intros r body [=]. }
  destruct (res_ok r) eqn:Hok.
  2:{ exists fallbackPosts, fb. repeat split; auto.
      intros r' body [= <-] Hok'. congruence. }
  destruct (res_body r) as [body|] eqn:Hbody.
  2:{ exists fallbackPosts, fb. repeat split; auto.
      intros r' body [= <-] _ Hb. congruence. }
  destruct (isArray (opt_prop body "posts")) eqn:Harr.
  - unfold opt_prop in Harr. destruct (nullish body) eqn:Hn; [discriminate|].
    destruct (member body "posts") as [| | | | | | items |] eqn:Hm; try discriminate.
    exists body, items. repeat split.
    + unfold prop. now rewrite Hn, Hm.
    + intros r' body' [= <-] _ Hb _. congruence.
    + right. exists r. auto.
  - exists fallbackPosts, fb. repeat split; auto.
    intros r' body' [= <-] _ Hb Ha. congruence.
Qed.

End PostsPayload.

(** ** The text of a numeric timestamp *)

Lemma length_string_of_list_ascii (l : list ascii) :
  String.length (string_of_list_ascii l) = List.length l.
Proof.
  induction l as [|c l IH]; simpl; [reflexivity | now rewrite IH].
Qed.

(** A padded number has at least the width asked for. *)
Lemma length_pad (width : nat) (n : Z) :
  (width <= String.length (pad width n))%nat.
Proof.
  unfold pad. rewrite length_append, length_string_of_list_ascii, repeat_length. lia.
Qed.

Lemma length_toISOString (t : Z) : (24 <= String.length (toISOString t))%nat.
Proof.
  unfold toISOString. destruct (civil_from_days (t / msPerDay)) as [[y m] d].
  rewrite !length_append.
  pose proof (length_pad 2 m). pose proof (length_pad 2 d).
  pose proof (length_pad 2 (t mod msPerDay / 3600000)).
  pose proof (length_pad 2 (t mod msPerDay / 60000 mod 60)).
  pose proof (length_pad 2 (t mod msPerDay / 1000 mod 60)).
  pose proof (length_pad 3 (t mod msPerDay mod 1000)).
  remember (if (0 <=? y) && (y <=? 9999) then pad 4 y
            else (if y <? 0 then "-" else "+") ++ pad 6 (Z.abs y)) as year eqn:Ey.
  assert (Hy : (4 <= String.length year)%nat).
  { subst year. destruct ((0 <=? y) && (y <=? 9999)).
    - apply length_pad.
    - rewrite length_append. pose proof (length_pad 6 (Z.abs y)). lia. }
  simpl String.length. lia.
Qed.

Lemma length_replace_first (pat by_ : ascii) (s : string) :
  String.length (replace_first pat (String by_ EmptyString) s) = String.length s.
Proof.
  induction s as [|c s IH]; simpl; [reflexivity|].
  destruct (Ascii.eqb c pat); simpl; [reflexivity | now rewrite IH].
Qed.

Section NumericTimestamp.

Context `{Host}.

Lemma length_instant_text (date : Z) :
  String.length (replace_first "T" " " (slice (toISOString date) 0 (Some 16))) = 16%nat.
Proof.
  change " "%string with (String " "%char EmptyString).
  pose proof (length_toISOString date).
  rewrite length_replace_first, slice_prefix by lia.
  apply length_substring. simpl. lia.
Qed.

(** X2: for a number, [formatTimestamp] gives the placeholder exactly when
    the instant is outside what a [Date] can hold, and a text of 16
    characters otherwise.  For an integer that is when it is before
    -8640000000000 seconds or after 8640000000000000 milliseconds; for a
    number with a fraction the instant is the double the engine computes,
    in milliseconds, its fraction dropped. *)
Theorem formatTimestamp_number_text :
  (forall t : Z,
     if (-8640000000000 <=? t) && (t <=? 8640000000000000)
     then exists text, formatTimestamp (VNum t) = Ret (str text)
                       /\ String.length text = 16%nat
     else formatTimestamp (VNum t) = Ret (str "-"))
  /\ (forall (num : Z) (den : positive),
        let t := nearest_double num den in
        let ms := if double_ltb t 100000000000 then double_times t 1000 else t in
        match double_truncate ms with
        | Some instant =>
            if Z.abs instant <=? 8640000000000000
            then exists text, formatTimestamp (VFrac num den) = Ret (str text)
                              /\ String.length text = 16%nat
            else formatTimestamp (VFrac num den) = Ret (str "-")
        | None => formatTimestamp (VFrac num den) = Ret (str "-")
        end).
Proof.
  split.
  - intros t. unfold formatTimestamp. cbn [nullish]. cbv zeta.
    destruct ((-8640000000000 <=? t) && (t <=? 8640000000000000)) eqn:Hrange.
    + apply andb_true_iff in Hrange. destruct Hrange as [Hlo Hhi].
      apply Z.leb_le in Hlo. apply Z.leb_le in Hhi.
      assert (Hclip : TimeClip (if t <? 100000000000 then t * 1000 else t)
                      = Some (if t <? 100000000000 then t * 1000 else t)).
      { unfold TimeClip.
        destruct (t <? 100000000000) eqn:Hs;
          [apply Z.ltb_lt in Hs | apply Z.ltb_ge in Hs];
          match goal with
          | |- (if ?c then _ else _) = _ =>
              destruct c eqn:Hc; [reflexivity | apply Z.leb_gt in Hc; lia]
          end. }
      rewrite Hclip. eexists. split; [reflexivity|]. apply length_instant_text.
    + apply andb_false_iff in Hrange.
      assert (Hclip : TimeClip (if t <? 100000000000 then t * 1000 else t) = None).
      { unfold TimeClip.
        destruct (t <? 100000000000) eqn:Hs;
          [apply Z.ltb_lt in Hs | apply Z.ltb_ge in Hs];
          match goal with
          | |- (if ?c then _ else _) = _ =>
              destruct c eqn:Hc; [apply Z.leb_le in Hc | reflexivity]
          end;
          destruct Hrange as [Hr|Hr]; apply Z.leb_gt in Hr; lia. }
      now rewrite Hclip.
  - intros num den t ms. unfold formatTimestamp. cbn [nullish]. cbv zeta.
    fold t. fold ms. unfold Date_of_double.
    destruct (double_truncate ms) as [instant|]; [|reflexivity].
    unfold TimeClip. destruct (Z.abs instant <=? 8640000000000000); [|reflexivity].
    eexists. split; [reflexivity|]. apply length_instant_text.
Qed.

End NumericTimestamp.

(** ** Configuration *)

Section Configuration.

Context `{Host}.

(** X3: each base URL of [config] is the content of the [meta] tag of its
    own name when that tag has a content that is not empty, and its own
    local default otherwise; so no base URL is ever empty. *)
Theorem config_base_urls :
  let base name fallback :=
    match meta name with
    | Some content => if (content =? EmptyString)%string then fallback else content
    | None => fallback
    end in
  ragBaseUrl config = base "rag-base-url" "http://127.0.0.1:8011"
  /\ llmBaseUrl config = base "llm-base-url" "http://127.0.0.1:8080"
  /\ audioBaseUrl config = base "audio-base-url" "http://127.0.0.1:7001"
  /\ ragBaseUrl config <> EmptyString
  /\ llmBaseUrl config <> EmptyString
  /\ audioBaseUrl config <> EmptyString.
Proof.
  cbv zeta. unfold config, getMeta. cbn [ragBaseUrl llmBaseUrl audioBaseUrl].
  repeat split;
    match goal with
    | |- context [meta ?name] =>
        destruct (meta name) as [content|]; [|try reflexivity; discriminate];
        destruct (String.eqb_spec content EmptyString);
        try reflexivity; try discriminate; assumption
    end.
Qed.

End Configuration.

(** ** The rows of the collections *)

Section CollectionRows.

Context `{Host}.

(** X4: a collection whose statistics are not in the reply of the combined
    endpoint costs one request.  Unless the reply has statistics that
    cannot be printed, which is a [TypeError], a row is appended; it is
    "ok" exactly when the reply has a status in 200..299 and a JSON body
    that is not falsy, and otherwise it is "down" with both texts at the
    placeholder. *)
Theorem collectionRow_status (ecosystem : Value) (collection : string)
    (rows : list SystemRow) (s : State) :
  reused ecosystem collection = false ->
  let url := ragBaseUrl config ++ "/rag_stats?collection="
             ++ encodeURIComponent collection in
  exists outcome,
    collectionRow ecosystem collection rows s = (outcome, after url s)
    /\ (reply_printable (reply_to url s) = false -> outcome = Throw TypeError)
    /\ (reply_printable (reply_to url s) = true ->
        exists row,
          outcome = Ret (rows ++ [row])%list
          /\ (row_status row = Ok
              <-> exists r body, reply_to url s = Responded r /\ res_ok r = true
                                 /\ res_body r = Some body /\ truthy body = true)
          /\ (row_status row <> Ok ->
              row_status row = Down /\ row_docs row = str "-"
              /\ row_updated row = str "-")).
Proof.
  intros Hcond url. rewrite collectionRow_run.
  unfold after_stats. rewrite Hcond. fold (statsUrl collection). fold url.
  pose proof (stats_payload_reply ecosystem collection s Hcond) as Hsame.
  change (statsUrl collection) with url in Hsame.
  eexists. split; [reflexivity|]. split.
  - intros Hbad. rewrite <- Hsame in Hbad.
    now rewrite (extractRagStats_unprintable _ Hbad).
  - intros Hgood. rewrite <- Hsame in Hgood.
    destruct (extractRagStats_printable _ Hgood) as (stats & -> & Hnone & Hsome).
    exists (collection_row collection stats). split; [reflexivity|].
    cbn [collection_row row_status row_docs row_updated].
    unfold stats_payload in Hnone, Hsome. rewrite Hcond in Hnone, Hsome.
    cbv zeta in Hnone, Hsome. change (statsUrl collection) with url in Hnone, Hsome.
    destruct (reply_to url s) as [|r]; cbn [probe_of ok data] in Hnone, Hsome.
    { rewrite (Hnone eq_refl). split; [|auto].
      split; [discriminate|]. intros (r & body & [=] & _). }
    destruct (res_ok r) eqn:Hok; cbn [ok data] in Hnone, Hsome.
    2:{ rewrite (Hnone eq_refl). split; [|auto].
        split; [discriminate|]. intros (r' & body & [= <-] & Hok' & _). congruence. }
    unfold stats_record in Hnone, Hsome. cbn [member lookup String.eqb Ascii.eqb
      Bool.eqb truthy andb] in Hnone, Hsome.
    destruct (res_body r) as [body|] eqn:Hbody.
    + destruct (truthy body) eqn:Hb.
      * destruct (Hsome eq_refl) as (p & -> & _). split.
        -- split; [|reflexivity]. intros _. exists r, body. auto.
        -- intros Hne. contradiction.
      * rewrite (Hnone eq_refl). split; [|auto].
        split; [discriminate|].
        intros (r' & body' & [= <-] & _ & Hb' & Ht). congruence.
    + rewrite (Hnone eq_refl). split; [|auto].
      split; [discriminate|]. intros (r' & body' & [= <-] & _ & Hb' & _). congruence.
Qed.

End CollectionRows.

Lemma collectionRow_status_witness :
  let s := start offline tt in
  exists row,
    @collectionRow offline VNull "blog" [] s
    = (Ret [row], @after offline "http://127.0.0.1:8011/rag_stats?collection=blog" s)
    /\ row_status row = Down /\ row_docs row = str "-".
Proof.
  intros s.
  destruct (@collectionRow_status offline VNull "blog" [] s eq_refl)
    as (outcome & Hrun & _ & Hgood).
  destruct (Hgood eq_refl) as (row & -> & Hok & Hdown).
  exists row. split; [exact Hrun|].
  assert (Hne : row_status row <> Ok).
  { intros E. apply Hok in E. destruct E as (r & body & Hr & _). discriminate Hr. }
  destruct (Hdown Hne) as (Hs & Hd & _). auto.
Defined.

(** ** The rows from the combined endpoint *)

Section CombinedEndpoint.

Context `{Host}.

Lemma formatTimestamp_raises (v : Value) (e : Exn) :
  formatTimestamp v = Throw e -> e = TypeError.
Proof.
  destruct (printable v) eqn:Hp.
  - destruct (formatTimestamp_printable v Hp) as (shown & -> & _). discriminate.
  - rewrite (formatTimestamp_unprintable v Hp). now intros [= <-].
Qed.



(** X6: a model id in the reply of the combined endpoint that is a number
    other than zero, with or without a fraction, makes [loadSystemRows]
    raise a [TypeError] ([slice] is called on it), after the one request
    and without any row. *)
Theorem loadSystemRows_numeric_model_id (s : State) (r : Response)
    (ecosystem id : Value) :
  let ecosystemUrl :=
    llmBaseUrl config ++ "/internal/ecosystem/status?collection=anthology" in
  reply_to ecosystemUrl s = Responded r ->
  res_ok r = true ->
  res_body r = Some ecosystem ->
  member (member (member ecosystem "services") "llm") "model_id" = id ->
  is_number id = true ->
  truthy id = true ->
  loadSystemRows s = (Throw TypeError, after ecosystemUrl s).
Proof.
  intros ecosystemUrl Hreply Hok Hbody Hid Hnum Ht.
  assert (Hllm : truthy (member (member ecosystem "services") "llm") = true).
  { destruct (member (member ecosystem "services") "llm"); subst id;
      try discriminate. reflexivity. }
  assert (Hservices : truthy (member ecosystem "services") = true).
  { destruct (member ecosystem "services"); try discriminate. reflexivity. }
  assert (Heco : truthy ecosystem = true).
  { destruct ecosystem; try discriminate. reflexivity. }
  unfold loadSystemRows. cbv zeta. unfold bind at 1.
  rewrite probeEcosystem_run. cbv zeta. fold ecosystemUrl. rewrite Hreply.
  unfold probe_of. rewrite Hok, Hbody. cbn [ok data andb]. rewrite Heco.
  rewrite opt_prop_member, Hservices.
  unfold bind at 1. unfold ecosystemRows. cbv zeta.
  unfold bind at 1. unfold lift at 1.
  destruct (formatTimestamp (member ecosystem "generated_at")) as [updated|e] eqn:Et.
  2:{ now rewrite (formatTimestamp_raises _ _ Et). }
  assert (Hor : or_else (member (member ecosystem "services") "llm") VNull
                = member (member ecosystem "services") "llm")
    by (unfold or_else; now rewrite Hllm).
  rewrite !Hor. rewrite Hllm, Hid.
  rewrite Ht. unfold bind at 1. unfold lift at 1.
  unfold trimModelId_of. rewrite Ht.
  destruct id; try discriminate; reflexivity.
Qed.

End CombinedEndpoint.


Lemma loadSystemRows_numeric_model_id_witness :
  let url := "http://127.0.0.1:8080/internal/ecosystem/status?collection=anthology" in
  let ecosystem :=
    VObj [("services", VObj [("llm", VObj [("ok", VBool true); ("model_id", VNum 7)])])] in
  let host := serving url (Some ecosystem) in
  let s := start host tt in
  @reply_to host url s = Responded {| res_status := 200; res_body := Some ecosystem |}
  /\ is_number (VNum 7) = true
  /\ truthy (VNum 7) = true
  /\ @loadSystemRows host s = (Throw TypeError, @after host url s).
Proof.
  intros url ecosystem host s.
  split; [reflexivity|]. split; [reflexivity|]. split; [reflexivity|].
  exact (@loadSystemRows_numeric_model_id host s
           {| res_status := 200; res_body := Some ecosystem |} ecosystem (VNum 7)
           eq_refl eq_refl eq_refl eq_refl eq_refl eq_refl).
Defined.

(** ** Rendering the posts *)

Section Rendering.

Context `{Host}.

Lemma set_postList_twice (a b : option (list PostCard)) (s : State) :
  set_postList b (set_postList a s) = set_postList b s.
Proof. reflexivity. Qed.

(** The loop of [renderPosts]: cards are appended one by one, up to the
    first post that has no card. *)
Lemma renderPosts_loop (posts : list Value) :
  forall (shown : list PostCard) (s : State),
  forEach posts
    (fun post =>
       bind (lift (postCard post)) (fun card =>
       bind get_page (fun d =>
       set_page {| heroTerminal := heroTerminal d;
                   headlineGrid := headlineGrid d;
                   postList :=
                     Some (match postList d with Some cs => cs | None => [] end
                           ++ [card])%list;
                   systemTableBody := systemTableBody d;
                   chatTerminal := chatTerminal d |})))
    (set_postList (Some shown) s)
  = (fix go (ps : list Value) (acc : list PostCard) :=
       match ps with
       | [] => (Ret tt, set_postList (Some acc) s)
       | p :: rest =>
           match postCard p with
           | Ret card => go rest (acc ++ [card])%list
           | Throw e => (Throw e, set_postList (Some acc) s)
           end
       end) posts shown.
Proof.
  induction posts as [|p posts IH]; intros shown s; [reflexivity|].
  cbn [forEach]. unfold bind at 1. unfold bind at 1. unfold lift at 1.
  destruct (postCard p) as [card|e]; [|reflexivity].
  unfold bind at 1. unfold get_page at 1. unfold set_page at 1.
  cbn [page set_postList postList heroTerminal headlineGrid systemTableBody
       chatTerminal world requests].
  exact (IH (shown ++ [card])%list s).
Qed.

Lemma cards_loop_all (posts : list Value) (cards : list PostCard) (s : State) :
  map postCard posts = map Ret cards ->
  forall acc,
  (fix go (ps : list Value) (acc : list PostCard) :=
     match ps with
     | [] => (@Ret unit tt, set_postList (Some acc) s)
     | p :: rest =>
         match postCard p with
         | Ret card => go rest (acc ++ [card])%list
         | Throw e => (Throw e, set_postList (Some acc) s)
         end
     end) posts acc
  = (Ret tt, set_postList (Some (acc ++ cards)%list) s).
Proof.
  revert cards. induction posts as [|p posts IH]; intros cards Hmap acc.
  - destruct cards; [|discriminate]. now rewrite app_nil_r.
  - destruct cards as [|c cards]; [discriminate|].
    cbn [map] in Hmap. injection Hmap as Hp Hrest. rewrite Hp.
    rewrite (IH cards Hrest). now rewrite <- app_assoc.
Qed.

Lemma cards_loop_stop (good : list Value) (cards : list PostCard)
    (bad : Value) (e : Exn) (rest : list Value) (s : State) :
  map postCard good = map Ret cards ->
  postCard bad = Throw e ->
  forall acc,
  (fix go (ps : list Value) (acc : list PostCard) :=
     match ps with
     | [] => (@Ret unit tt, set_postList (Some acc) s)
     | p :: rest =>
         match postCard p with
         | Ret card => go rest (acc ++ [card])%list
         | Throw e => (Throw e, set_postList (Some acc) s)
         end
     end) (good ++ bad :: rest)%list acc
  = (Throw e, set_postList (Some (acc ++ cards)%list) s).
Proof.
  revert cards. induction good as [|p good IH]; intros cards Hmap Hbad acc.
  - destruct cards; [|discriminate]. cbn [app]. rewrite Hbad. now rewrite app_nil_r.
  - destruct cards as [|c cards]; [discriminate|].
    cbn [map] in Hmap. injection Hmap as Hp Hrest. cbn [app]. rewrite Hp.
    rewrite (IH cards Hrest Hbad). now rewrite <- app_assoc.
Qed.

Lemma renderPosts_start (posts : list Value) (s : State) :
  postList (page s) <> None ->
  renderPosts (VArr posts) s
  = forEach posts
      (fun post =>
         bind (lift (postCard post)) (fun card =>
         bind get_page (fun d =>
         set_page {| heroTerminal := heroTerminal d;
                     headlineGrid := headlineGrid d;
                     postList :=
                       Some (match postList d with Some cs => cs | None => [] end
                             ++ [card])%list;
                     systemTableBody := systemTableBody d;
                     chatTerminal := chatTerminal d |})))
      (set_postList (Some []) s).
Proof.
  intros Hlist. unfold renderPosts. unfold bind at 1. unfold get_page at 1.
  destruct (postList (page s)); [|contradiction].
  unfold bind at 1. unfold set_page at 1. unfold bind at 1. unfold lift at 1.
  reflexivity.
Qed.

(** X7: on a page that has the list of posts, [renderPosts] replaces what
    the list held by one card per post, in the order of the posts; at the
    first post that has no card (no [tags], say) it raises, and the list
    keeps the cards of the posts before that one.  On a page without the
    list it does nothing, whatever it is given. *)
Theorem renderPosts_cards (s : State) :
  (forall posts cards,
     postList (page s) <> None ->
     map postCard posts = map Ret cards ->
     renderPosts (VArr posts) s = (Ret tt, set_postList (Some cards) s))
  /\ (forall good bad rest cards e,
        postList (page s) <> None ->
        map postCard good = map Ret cards ->
        postCard bad = Throw e ->
        renderPosts (VArr (good ++ bad :: rest)%list) s
        = (Throw e, set_postList (Some cards) s))
  /\ (forall posts : Value,
        postList (page s) = None -> renderPosts posts s = (Ret tt, s)).
Proof.
  split; [|split].
  - intros posts cards Hlist Hmap.
    rewrite (renderPosts_start posts s Hlist), renderPosts_loop.
    exact (cards_loop_all posts cards s Hmap []).
  - intros good bad rest cards e Hlist Hmap Hbad.
    rewrite (renderPosts_start _ s Hlist), renderPosts_loop.
    exact (cards_loop_stop good cards bad e rest s Hmap Hbad []).
  - intros posts Hnone. unfold renderPosts, bind, get_page. now rewrite Hnone.
Qed.

End Rendering.

Section Headlines.

Context `{Host}.

Lemma renderHeadlines_loop (posts : list Value) (cards : list HeadlineCard) :
  map headlineCard posts = map Ret cards ->
  forall (shown : list HeadlineCard) (s : State),
  forEach posts
    (fun post =>
       bind (lift (headlineCard post)) (fun card =>
       bind get_page (fun d =>
       set_page {| heroTerminal := heroTerminal d;
                   headlineGrid :=
                     Some (match headlineGrid d with Some cs => cs | None => [] end
                           ++ [card])%list;
                   postList := postList d;
                   systemTableBody := systemTableBody d;
                   chatTerminal := chatTerminal d |})))
    (set_headlineGrid (Some shown) s)
  = (Ret tt, set_headlineGrid (Some (shown ++ cards)%list) s).
Proof.
  revert cards. induction posts as [|p posts IH]; intros cards Hmap shown s.
  - destruct cards; [|discriminate]. cbn. unfold ret. now rewrite app_nil_r.
  - destruct cards as [|c cards]; [discriminate|].
    cbn [map] in Hmap. injection Hmap as Hp Hrest.
    cbn [forEach]. unfold bind at 1. unfold bind at 1. unfold lift at 1.
    rewrite Hp. unfold bind at 1. unfold get_page at 1. unfold set_page at 1.
    cbn [page set_headlineGrid postList heroTerminal headlineGrid systemTableBody
         chatTerminal world requests].
    transitivity (@Ret unit tt, set_headlineGrid (Some ((shown ++ [c]) ++ cards)%list) s);
      [exact (IH cards Hrest (shown ++ [c])%list s) | now rewrite <- app_assoc].
Qed.

(** X8: on a page that has the grid of headlines, [renderHeadlines] puts
    there the cards of the first four posts, in order, and of no other: a
    post after the fourth is not looked at.  On a page without the grid it
    does nothing. *)
Theorem renderHeadlines_first_four (s : State) :
  (forall posts cards,
     headlineGrid (page s) <> None ->
     map headlineCard (firstn 4 posts) = map Ret cards ->
     renderHeadlines (VArr posts) s = (Ret tt, set_headlineGrid (Some cards) s)
     /\ List.length cards = Nat.min 4 (List.length posts))
  /\ (forall posts : Value,
        headlineGrid (page s) = None -> renderHeadlines posts s = (Ret tt, s)).
Proof.
  split.
  - intros posts cards Hgrid Hmap. split.
    + unfold renderHeadlines. unfold bind at 1. unfold get_page at 1.
      destruct (headlineGrid (page s)) eqn:Eg; [|contradiction].
      unfold bind at 1. unfold set_page at 1. unfold bind at 1. unfold lift at 1.
      cbn [as_array].
      exact (renderHeadlines_loop (firstn 4 posts) cards Hmap [] s).
    + apply (f_equal (@List.length _)) in Hmap.
      rewrite !length_map, length_firstn in Hmap. now symmetry.
  - intros posts Hnone. unfold renderHeadlines, bind, get_page. now rewrite Hnone.
Qed.

End Headlines.

(** ** A whole cycle without the snapshot and without the combined endpoint *)

Section DegradedCycle.

Context `{Host}.

Lemma setHeroTerminal_frame (s : State) :
  exists d, setHeroTerminal s
            = (Ret tt, {| world := world s; requests := requests s; page := d |})
            /\ headlineGrid d = headlineGrid (page s)
            /\ postList d = postList (page s)
            /\ systemTableBody d = systemTableBody (page s).
Proof.
  destruct s as [w rq [hero grid posts table chat]].
  unfold setHeroTerminal, bind, get_page, set_page. cbn.
  destruct hero; eexists; repeat split.
Qed.

Lemma setChatTerminal_frame (s : State) :
  exists d, setChatTerminal s
            = (Ret tt, {| world := world s; requests := requests s; page := d |})
            /\ headlineGrid d = headlineGrid (page s)
            /\ postList d = postList (page s)
            /\ systemTableBody d = systemTableBody (page s).
Proof.
  destruct s as [w rq [hero grid posts table chat]].
  unfold setChatTerminal, bind, get_page, set_page. cbn.
  destruct chat; eexists; repeat split.
Qed.

Lemma renderHeadlines_fallback_frame (s : State) :
  exists d cards,
    renderHeadlines (member fallbackPosts "posts") s
    = (Ret tt, {| world := world s; requests := requests s; page := d |})
    /\ map hc_title cards
       = ["Anthology brief: what changed this week";
          "Voice notes: RAG maintenance signals";
          "Generator pipeline: markdown to posts.json";
          "System table: mlx-services alignment"]
    /\ headlineGrid d
       = match headlineGrid (page s) with Some _ => Some cards | None => None end
    /\ postList d = postList (page s)
    /\ systemTableBody d = systemTableBody (page s).
Proof.
  destruct s as [w rq [hero grid posts table chat]].
  pose (cards :=
    map (fun p => match headlineCard p with
                  | Ret c => c
                  | Throw _ => {| hc_project := EmptyString;
                                  hc_title := EmptyString;
                                  hc_summary := EmptyString;
                                  hc_date := EmptyString;
                                  hc_tags := EmptyString |}
                  end)
        (returned (as_array (member fallbackPosts "posts")))).
  destruct grid; eexists; exists cards;
    (split; [vm_compute; reflexivity|]);
    (split; [vm_compute; reflexivity|]);
    (split; [vm_compute; reflexivity|]); split; reflexivity.
Qed.

Lemma renderPosts_fallback_frame (s : State) :
  exists d,
    renderPosts (member fallbackPosts "posts") s
    = (Ret tt, {| world := world s; requests := requests s; page := d |})
    /\ headlineGrid d = headlineGrid (page s)
    /\ postList d
       = match postList (page s) with Some _ => Some fallbackCards | None => None end
    /\ systemTableBody d = systemTableBody (page s).
Proof.
  destruct s as [w rq [hero grid posts table chat]].
  destruct posts; eexists; (split; [vm_compute; reflexivity|]); repeat split.
Qed.

Lemma renderTableRows_frame (rows : list SystemRow) (s : State) :
  forallb row_printable rows = true ->
  exists d, renderTableRows rows s
            = (Ret tt, {| world := world s; requests := requests s; page := d |})
            /\ headlineGrid d = headlineGrid (page s)
            /\ postList d = postList (page s)
            /\ systemTableBody d
               = match systemTableBody (page s) with
                 | Some _ => Some (map shown_row rows)
                 | None => None
                 end.
Proof.
  intros Hall.
  destruct (renderTableRows_outcome rows s) as (outcome & shown & Erun & Hgood).
  destruct (Hgood Hall) as [-> ->]. rewrite Erun.
  destruct s as [w rq [hero grid posts table chat]].
  cbn [page systemTableBody world requests].
  destruct table; eexists; (split; [reflexivity|]); repeat split.
Qed.

(** X9: when neither the snapshot of posts nor the combined endpoint can
    be had, and no reply with statistics holds a count or a timestamp that
    cannot be printed, a cycle of [bootstrap] returns: it makes eight
    requests (the snapshot, the combined endpoint, three [/health], three
    [rag_stats]) in this order, and leaves on the page the four embedded
    posts, as headlines and as cards, and a table of six rows in the fixed
    order, each in its element if the page has it. *)
Theorem bootstrap_degraded (s : State) :
  let ecosystemUrl :=
    llmBaseUrl config ++ "/internal/ecosystem/status?collection=anthology" in
  let health :=
    [llmBaseUrl config ++ "/health";
     ragBaseUrl config ++ "/health";
     audioBaseUrl config ++ "/health"] in
  let stats :=
    [ragBaseUrl config ++ "/rag_stats?collection=anthology";
     ragBaseUrl config ++ "/rag_stats?collection=blog";
     ragBaseUrl config ++ "/rag_stats?collection=projects"] in
  no_posts (reply_to "/posts.json" s) ->
  failed (reply_to ecosystemUrl (after "/posts.json" s)) ->
  first_failing reply_printable
    (answers stats (after_all ("/posts.json" :: ecosystemUrl :: health) s)) = None ->
  exists final headlines rows,
    bootstrap s = (Ret tt, final)
    /\ requests final
       = (requests s ++ "/posts.json" :: ecosystemUrl :: health ++ stats)%list
    /\ map hc_title headlines
       = ["Anthology brief: what changed this week";
          "Voice notes: RAG maintenance signals";
          "Generator pipeline: markdown to posts.json";
          "System table: mlx-services alignment"]
    /\ headlineGrid (page final)
       = match headlineGrid (page s) with Some _ => Some headlines | None => None end
    /\ postList (page final)
       = match postList (page s) with Some _ => Some fallbackCards | None => None end
    /\ map tr_resource rows
       = ["mlx-llm"; "mlx-rag"; "mlx-audio"; "rag:anthology"; "rag:blog"; "rag:projects"]
    /\ systemTableBody (page final)
       = match systemTableBody (page s) with Some _ => Some rows | None => None end.
Proof.
  intros ecosystemUrl health stats Hno Hfail Hstats.
  unfold bootstrap.
  destruct (setHeroTerminal_frame s) as (d1 & E1 & G1 & P1 & T1).
  unfold bind at 1. rewrite E1.
  destruct (setChatTerminal_frame {| world := world s; requests := requests s; page := d1 |})
    as (d2 & E2 & G2 & P2 & T2).
  unfold bind at 1. rewrite E2. cbn [world requests page] in *.
  set (s2 := {| world := world s; requests := requests s; page := d2 |}).
  assert (Hno2 : no_posts (reply_to "/posts.json" s2)) by exact Hno.
  unfold bind at 1. rewrite (loadPosts_fallback s2 Hno2).
  unfold bind at 1. unfold lift at 1.
  change (prop fallbackPosts "posts") with (Ret (member fallbackPosts "posts")).
  cbv beta iota.
  destruct (renderHeadlines_fallback_frame (after "/posts.json" s2))
    as (d3 & headlines & E3 & Hh & G3 & P3 & T3).
  unfold bind at 1. rewrite E3.
  match goal with
  | |- context [bind (renderPosts _) _ ?s0] =>
      destruct (renderPosts_fallback_frame s0) as (d4 & E4 & G4 & P4 & T4)
  end.
  unfold bind at 1. rewrite E4. cbn [world requests page after] in *.
  match goal with
  | |- context [bind loadSystemRows _ ?s0] => set (s4 := s0)
  end.
  assert (Hfail4 : failed (reply_to ecosystemUrl s4)) by exact Hfail.
  pose proof (loadSystemRows_degraded_run s4 Hfail4) as Hrun. cbv zeta in Hrun.
  fold ecosystemUrl health stats in Hrun.
  assert (Hstats4 :
    first_failing reply_printable
      (answers stats (after_all (ecosystemUrl :: health) s4)) = None) by exact Hstats.
  rewrite Hstats4 in Hrun.
  destruct Hrun as (rows & E5 & N5 & _ & _ & Pall).
  unfold bind at 1. rewrite E5.
  destruct (after_all_requests (ecosystemUrl :: health ++ stats) s4) as [Hreq Hpage].
  remember (after_all (ecosystemUrl :: health ++ stats) s4) as s5 eqn:Es5.
  destruct (renderTableRows_frame rows s5 Pall) as (d6 & E6 & G6 & P6 & T6).
  rewrite E6.
  rewrite Hpage in G6, P6, T6. subst s4 s2.
  cbn [page after requests] in G6, P6, T6, G3, P3, T3, Hreq.
  eexists. exists headlines, (map shown_row rows).
  split; [reflexivity|]. cbn [requests page].
  split; [rewrite Hreq; now rewrite <- app_assoc|].
  split; [exact Hh|].
  split; [rewrite G6, G4, G3; now rewrite G2, G1|].
  split; [rewrite P6, P4, P3; now rewrite P2, P1|].
  split; [rewrite map_map; exact N5|].
  rewrite T6, T4, T3. now rewrite T2, T1.
Qed.

End DegradedCycle.

Lemma bootstrap_degraded_witness :
  let s := start offline tt in
  no_posts (@reply_to offline "/posts.json" s)
  /\ failed (@reply_to offline
               "http://127.0.0.1:8080/internal/ecosystem/status?collection=anthology"
               (@after offline "/posts.json" s))
  /\ exists final, @bootstrap offline s = (Ret tt, final)
                   /\ List.length (requests final) = 8%nat.
Proof.
  intros s.
  assert (Hno : no_posts (@reply_to offline "/posts.json" s))
    by (apply no_posts_failed, failed_transport).
  assert (Hfail : failed (@reply_to offline
               (llmBaseUrl (@config offline)
                ++ "/internal/ecosystem/status?collection=anthology")
               (@after offline "/posts.json" s))) by apply failed_transport.
  split; [exact Hno|]. split; [exact Hfail|].
  destruct (@bootstrap_degraded offline s Hno Hfail eq_refl)
    as (final & headlines & rows & Hrun & Hreq & _).
  exists final. split; [exact Hrun|]. rewrite Hreq. reflexivity.
Defined.

(** ** The older page *)

Section OlderPage.

Context `{Host}.

Lemma legacy_probe_ok (reply : Reply) :
  (if ok (match reply with
          | Rejected => {| ok := false; data := VUndefined |}
          | Responded r =>
              match res_ok r, res_body r with
              | true, Some body => {| ok := true; data := body |}
              | _, _ => {| ok := false; data := VUndefined |}
              end
          end) then Ok else Down) = legacy_status reply.
Proof.
  destruct reply as [|r]; [reflexivity|]. cbn.
  destruct (res_ok r); [|reflexivity]. destruct (res_body r); reflexivity.
Qed.

Lemma legacy_healthRow_run (service : Service) (rows : list SystemRow) (s : State) :
  exists row,
    LegacyPage.healthRow service rows s
    = (Ret (rows ++ [row])%list, after (sv_base service ++ sv_health service) s)
    /\ row_resource row = sv_resource service
    /\ row_status row
       = legacy_status (reply_to (sv_base service ++ sv_health service) s).
Proof.
  unfold LegacyPage.healthRow, bind. rewrite legacy_fetchJson_run. unfold ret.
  eexists. split; [reflexivity|]. split; [reflexivity|].
  cbn [row_status]. apply legacy_probe_ok.
Qed.

(** One turn of the loop over the collections of the older page: the row
    is appended unless the count or the date of the reply cannot be
    printed. *)
Lemma legacy_collectionRow_run (collection : string) (rows : list SystemRow)
    (s : State) :
  let url := ragBaseUrl config ++ "/rag_stats?collection="
             ++ encodeURIComponent collection in
  (legacy_printable (reply_to url s) = true ->
   exists row,
     LegacyPage.collectionRow collection rows s = (Ret (rows ++ [row])%list, after url s)
     /\ row_resource row = "rag:" ++ collection
     /\ row_status row = legacy_status (reply_to url s))
  /\ (legacy_printable (reply_to url s) = false ->
      LegacyPage.collectionRow collection rows s = (Throw TypeError, after url s)).
Proof.
  cbv zeta. unfold LegacyPage.collectionRow, bind, lift, ret.
  rewrite legacy_fetchJson_run.
  set (url := ragBaseUrl config ++ "/rag_stats?collection="
              ++ encodeURIComponent collection).
  destruct (reply_to url s) as [|r]; cbn [legacy_printable legacy_status ok data].
  { split; [|discriminate]. intros _. eexists. split; [reflexivity|].
    split; reflexivity. }
  destruct (res_ok r); cbn [ok data].
  2:{ split; [|discriminate]. intros _. eexists. split; [reflexivity|].
      split; reflexivity. }
  destruct (res_body r) as [body|]; cbn [ok data].
  2:{ split; [|discriminate]. intros _. eexists. split; [reflexivity|].
      split; reflexivity. }
  destruct (printable (coalesce (coalesce (opt_prop body "count")
                                          (opt_prop body "documents")) (str "-")))
    eqn:Hc.
  2:{ split; [discriminate|]. intros _.
      now rewrite (ToString_unprintable _ Hc). }
  rewrite (ToString_printable _ Hc).
  destruct (printable (or_else (opt_prop body "updated_at")
                               (opt_prop body "generated_at"))) eqn:Hu.
  - split; [|discriminate]. intros _.
    destruct (formatDate_printable _ Hu) as (shown & -> & _).
    eexists. split; [reflexivity|]. split; reflexivity.
  - split; [discriminate|]. intros _.
    now rewrite (formatDate_unprintable _ Hu).
Qed.

Lemma legacy_collections_loop (cs : list string) :
  forall (rows : list SystemRow) (s : State),
  let urls :=
    map (fun c => ragBaseUrl config ++ "/rag_stats?collection="
                  ++ encodeURIComponent c) cs in
  match first_failing legacy_printable (answers urls s) with
  | None =>
      exists more,
        for_of cs LegacyPage.collectionRow rows s
        = (Ret (rows ++ more)%list, after_all urls s)
        /\ map row_resource more = map (fun c => "rag:" ++ c) cs
        /\ map row_status more = map legacy_status (answers urls s)
  | Some k =>
      for_of cs LegacyPage.collectionRow rows s
      = (Throw TypeError, after_all (firstn (S k) urls) s)
  end.
Proof.
  induction cs as [|c cs IH]; intros rows s; cbv zeta.
  - exists []. cbn. unfold ret. now rewrite app_nil_r.
  - cbn [map answers first_failing for_of]. unfold bind.
    destruct (legacy_collectionRow_run c rows s) as [Hgood Hbad]. cbv zeta in Hgood, Hbad.
    destruct (legacy_printable (reply_to _ s)) eqn:Hp.
    + destruct (Hgood eq_refl) as (row & -> & Nrow & Srow).
      specialize (IH (rows ++ [row])%list
                     (after (ragBaseUrl config ++ "/rag_stats?collection="
                             ++ encodeURIComponent c) s)).
      cbv zeta in IH.
      destruct (first_failing legacy_printable _) as [k|]; cbn [option_map].
      * rewrite IH. reflexivity.
      * destruct IH as (more & -> & Nmore & Smore).
        exists (row :: more). split; [|split].
        -- now rewrite <- app_assoc.
        -- cbn [map]. now rewrite Nrow, Nmore.
        -- cbn [map]. now rewrite Srow, Smore.
    + now rewrite (Hbad eq_refl).
Qed.

(** X10: [loadSystemRows] of the older page makes the six probes in order
    and no other request.  When no reply with statistics holds a count or
    a date that cannot be printed, it returns the six rows in the fixed
    order, each "ok" exactly when its own probe got a status in 200..299
    and a JSON body; at the first reply that holds one it raises a
    [TypeError], and the collections after that one are not asked for. *)
Theorem legacy_loadSystemRows_rows (s : State) :
  let health :=
    [llmBaseUrl config ++ "/health";
     ragBaseUrl config ++ "/health";
     audioBaseUrl config ++ "/health"] in
  let stats :=
    [ragBaseUrl config ++ "/rag_stats?collection=anthology";
     ragBaseUrl config ++ "/rag_stats?collection=blog";
     ragBaseUrl config ++ "/rag_stats?collection=projects"] in
  match first_failing legacy_printable (answers stats (after_all health s)) with
  | None =>
      exists rows,
        LegacyPage.loadSystemRows s = (Ret rows, after_all (health ++ stats) s)
        /\ requests (after_all (health ++ stats) s)
           = (requests s ++ health ++ stats)%list
        /\ map row_resource rows
           = ["mlx-llm"; "mlx-rag"; "mlx-audio";
              "rag:anthology"; "rag:blog"; "rag:projects"]
        /\ map row_status rows = map legacy_status (answers (health ++ stats) s)
  | Some k =>
      LegacyPage.loadSystemRows s
      = (Throw TypeError, after_all (health ++ firstn (S k) stats) s)
      /\ requests (after_all (health ++ firstn (S k) stats) s)
         = (requests s ++ health ++ firstn (S k) stats)%list
  end.
Proof.
  intros health stats.
  assert (Hstart : exists rows3,
    LegacyPage.loadSystemRows s
    = bind (for_of collections LegacyPage.collectionRow rows3) (fun rows => ret rows)
        (after_all health s)
    /\ map row_resource rows3 = ["mlx-llm"; "mlx-rag"; "mlx-audio"]
    /\ map row_status rows3 = map legacy_status (answers health s)).
  { unfold LegacyPage.loadSystemRows, services. cbv zeta. cbn [for_of].
    unfold bind at 1. unfold bind at 1.
    match goal with
    | |- context [LegacyPage.healthRow ?sv ?rows s] =>
        destruct (legacy_healthRow_run sv rows s) as (r1 & E1 & N1 & S1)
    end.
    rewrite E1. cbn [sv_base sv_health sv_resource] in *.
    unfold bind at 1.
    match goal with
    | |- context [LegacyPage.healthRow ?sv ?rows ?st] =>
        destruct (legacy_healthRow_run sv rows st) as (r2 & E2 & N2 & S2)
    end.
    rewrite E2. cbn [sv_base sv_health sv_resource] in *.
    unfold bind at 1.
    match goal with
    | |- context [LegacyPage.healthRow ?sv ?rows ?st] =>
        destruct (legacy_healthRow_run sv rows st) as (r3 & E3 & N3 & S3)
    end.
    rewrite E3. cbn [sv_base sv_health sv_resource] in *.
    unfold ret at 1. exists [r1; r2; r3]. split; [reflexivity|]. split.
    - cbn [map]. now rewrite N1, N2, N3.
    - cbn [map answers]. now rewrite S1, S2, S3. }
  destruct Hstart as (rows3 & -> & N3 & S3).
  pose proof (legacy_collections_loop collections rows3 (after_all health s)) as Hloop.
  cbv zeta in Hloop.
  change (map (fun c => ragBaseUrl config ++ "/rag_stats?collection="
                        ++ encodeURIComponent c) collections) with stats in Hloop.
  destruct (first_failing legacy_printable (answers stats (after_all health s)))
    as [k|].
  - unfold bind at 1. rewrite Hloop. rewrite after_all_app.
    split; [reflexivity|]. rewrite <- after_all_app. apply after_all_requests.
  - destruct Hloop as (more & Eloop & Nmore & Smore).
    unfold bind at 1. rewrite Eloop. unfold ret.
    exists (rows3 ++ more)%list. rewrite after_all_app.
    split; [reflexivity|]. split; [|split].
    + rewrite <- after_all_app. apply after_all_requests.
    + rewrite map_app, N3, Nmore. reflexivity.
    + rewrite map_app, S3, Smore. reflexivity.
Qed.

End OlderPage.

(** ** Calendar dates are shown as they are written *)

Lemma all_from_sound (p : Z -> bool) (n : nat) :
  forall lo, all_from n lo p = true ->
  forall z, lo <= z < lo + Z.of_nat n -> p z = true.
Proof.
  induction n as [|n IH]; intros lo Hall z Hz.
  - lia.
  - cbn [all_from] in Hall. apply andb_true_iff in Hall. destruct Hall as [Hlo Hrest].
    destruct (Z.eq_dec z lo) as [->|Hne]; [exact Hlo|].
    apply (IH (lo + 1) Hrest). lia.
Qed.

(** In the years 0 to 399 every date is found again from its day number. *)
Lemma civil_of_days_cycle :
  all_from 400 0 (fun y =>
    all_from 12 1 (fun m =>
      all_from 31 1 (fun d =>
        if d <=? days_in_month y m
        then let '(y', m', d') := civil_from_days (days_from_civil y m d) in
             (y' =? y) && (m' =? m) && (d' =? d)
        else true))) = true.
Proof. vm_cast_no_check (eq_refl true). Qed.

Lemma days_from_civil_shift (y m d k : Z) :
  days_from_civil (y + 400 * k) m d = days_from_civil y m d + 146097 * k.
Proof.
  unfold days_from_civil. cbv zeta.
  replace (if m <=? 2 then y + 400 * k - 1 else y + 400 * k)
    with ((if m <=? 2 then y - 1 else y) + k * 400)
    by (destruct (m <=? 2); ring).
  generalize (if m <=? 2 then y - 1 else y). intros y'.
  rewrite Z.div_add by lia.
  replace (y' + k * 400 - (y' / 400 + k) * 400) with (y' - y' / 400 * 400) by ring.
  ring.
Qed.

Lemma civil_from_days_shift (z k : Z) :
  civil_from_days (z + 146097 * k)
  = let '(y, m, d) := civil_from_days z in (y + 400 * k, m, d).
Proof.
  unfold civil_from_days. cbv zeta.
  assert (E1 : (z + 146097 * k + 719468) / 146097 = (z + 719468) / 146097 + k).
  { replace (z + 146097 * k + 719468) with (z + 719468 + k * 146097) by ring.
    apply Z.div_add. lia. }
  rewrite !E1.
  replace (z + 146097 * k + 719468 - ((z + 719468) / 146097 + k) * 146097)
    with (z + 719468 - (z + 719468) / 146097 * 146097) by ring.
  match goal with
  | |- context [if ?c then _ + 3 else _] => destruct c
  end;
  match goal with
  | |- context [if ?c then _ + 1 else _] => destruct c
  end; f_equal; f_equal; ring.
Qed.

Lemma days_in_month_shift (y m k : Z) :
  days_in_month (y + 400 * k) m = days_in_month y m.
Proof.
  unfold days_in_month, is_leap.
  replace (y + 400 * k) with (y + (100 * k) * 4) at 1 by ring.
  replace (y + 400 * k) with (y + (4 * k) * 100) at 1 by ring.
  replace (y + 400 * k) with (y + k * 400) by ring.
  now rewrite !Z.mod_add by lia.
Qed.

(** Every date of the years 0 to 9999 is found again from its day number. *)
Lemma civil_of_days (y m d : Z) :
  0 <= y <= 9999 -> 1 <= m <= 12 -> 1 <= d <= days_in_month y m ->
  civil_from_days (days_from_civil y m d) = (y, m, d).
Proof.
  intros Hy Hm Hd.
  assert (Hsplit : exists y0 k, y = y0 + 400 * k /\ 0 <= y0 < 400).
  { exists (y mod 400), (y / 400).
    pose proof (Z.div_mod y 400 ltac:(lia)).
    pose proof (Z.mod_pos_bound y 400 ltac:(lia)). lia. }
  destruct Hsplit as (y0 & k & -> & Hy0).
  rewrite days_in_month_shift in Hd.
  rewrite days_from_civil_shift, civil_from_days_shift.
  assert (Hd31 : d <= 31).
  { unfold days_in_month in Hd.
    destruct (m =? 2); [destruct (is_leap y0)|destruct (existsb _ _)]; lia. }
  pose proof (all_from_sound _ _ _ civil_of_days_cycle y0 ltac:(lia)) as Hc.
  cbv beta in Hc.
  pose proof (all_from_sound _ _ _ Hc m ltac:(lia)) as Hc2. cbv beta in Hc2.
  pose proof (all_from_sound _ _ _ Hc2 d ltac:(lia)) as Hc3. cbv beta in Hc3.
  destruct (d <=? days_in_month y0 m) eqn:Hle; [|apply Z.leb_gt in Hle; lia].
  destruct (civil_from_days (days_from_civil y0 m d)) as [[y' m'] d'].
  apply andb_true_iff in Hc3. destruct Hc3 as [Hc3 Hd'].
  apply andb_true_iff in Hc3. destruct Hc3 as [Hy' Hm'].
  apply Z.eqb_eq in Hy', Hm', Hd'. now subst.
Qed.

(** Numbers of at most four and of at most two digits are read back from
    their padded form. *)
Lemma pad4_digits :
  all_from (Z.to_nat 10000) 0 (fun y =>
    match digits (pad 4 y) with Some v => v =? y | None => false end
    && (String.length (pad 4 y) =? 4)%nat) = true.
Proof. vm_compute. reflexivity. Qed.

Lemma pad2_digits :
  all_from 99 0 (fun n =>
    match digits (pad 2 n) with Some v => v =? n | None => false end
    && (String.length (pad 2 n) =? 2)%nat) = true.
Proof. vm_compute. reflexivity. Qed.

Lemma pad4_spec (y : Z) :
  0 <= y <= 9999 -> digits (pad 4 y) = Some y /\ String.length (pad 4 y) = 4%nat.
Proof.
  intros Hy. pose proof (all_from_sound _ _ _ pad4_digits y ltac:(lia)) as Hc.
  cbv beta in Hc. apply andb_true_iff in Hc. destruct Hc as [Hv Hl].
  apply Nat.eqb_eq in Hl. split; [|exact Hl].
  destruct (digits (pad 4 y)) as [v|]; [|discriminate].
  apply Z.eqb_eq in Hv. now subst.
Qed.

Lemma pad2_spec (n : Z) :
  0 <= n <= 98 -> digits (pad 2 n) = Some n /\ String.length (pad 2 n) = 2%nat.
Proof.
  intros Hn. pose proof (all_from_sound _ _ _ pad2_digits n ltac:(lia)) as Hc.
  cbv beta in Hc. apply andb_true_iff in Hc. destruct Hc as [Hv Hl].
  apply Nat.eqb_eq in Hl. split; [|exact Hl].
  destruct (digits (pad 2 n)) as [v|]; [|discriminate].
  apply Z.eqb_eq in Hv. now subst.
Qed.

Lemma append_assoc (a b c : string) : (a ++ b) ++ c = a ++ b ++ c.
Proof.
  induction a as [|x a IH]; simpl; [reflexivity | now rewrite IH].
Qed.

Lemma substring_append_head (a b : string) :
  substring 0 (String.length a) (a ++ b) = a.
Proof.
  induction a as [|x a IH]; simpl.
  - destruct b; reflexivity.
  - now rewrite IH.
Qed.

Lemma substring_append_tail (a b : string) (n m : nat) :
  substring (String.length a + n) m (a ++ b) = substring n m b.
Proof.
  induction a as [|x a IH]; simpl; [reflexivity | exact IH].
Qed.

Lemma substring_0_0 (s : string) : substring 0 0 s = EmptyString.
Proof. destruct s; reflexivity. Qed.

Lemma substring_head_of (a b : string) (k : nat) :
  String.length a = k -> substring 0 k (a ++ b) = a.
Proof. intros <-. apply substring_append_head. Qed.

Lemma substring_tail_of (a b : string) (k n m : nat) :
  String.length a = k -> substring (k + n) m (a ++ b) = substring n m b.
Proof. intros <-. apply substring_append_tail. Qed.

Lemma substring_whole (a : string) (k : nat) :
  String.length a = k -> substring 0 k a = a.
Proof.
  intros <-. induction a as [|x a IH]; simpl; [reflexivity | now rewrite IH].
Qed.

Lemma parse_iso_date_of (y m d : Z) :
  0 <= y <= 9999 -> 1 <= m <= 12 -> 1 <= d <= days_in_month y m ->
  String.length (iso_date y m d) = 10%nat
  /\ parse_iso_date (iso_date y m d) = Some (days_from_civil y m d * msPerDay).
Proof.
  intros Hy Hm Hd.
  assert (Hd31 : d <= 31).
  { unfold days_in_month in Hd.
    destruct (m =? 2); [destruct (is_leap y)|destruct (existsb _ _)]; lia. }
  destruct (pad4_spec y Hy) as [Dy Ly].
  destruct (pad2_spec m ltac:(lia)) as [Dm Lm].
  destruct (pad2_spec d ltac:(lia)) as [Dd Ld].
  assert (Hlen : String.length (iso_date y m d) = 10%nat).
  { unfold iso_date. rewrite !length_append, Ly, Lm, Ld. reflexivity. }
  split; [exact Hlen|].
  unfold parse_iso_date. rewrite Hlen. cbv zeta.
  assert (F1 : substring 0 4 (iso_date y m d) = pad 4 y).
  { exact (substring_head_of (pad 4 y) _ 4 Ly). }
  assert (F2 : substring 4 1 (iso_date y m d) = "-").
  { transitivity (substring 0 1 ("-" ++ pad 2 m ++ "-" ++ pad 2 d));
      [exact (substring_tail_of (pad 4 y) _ 4 0 1 Ly)|].
    cbn [append substring]. now rewrite substring_0_0. }
  assert (F3 : substring 5 2 (iso_date y m d) = pad 2 m).
  { transitivity (substring 1 2 ("-" ++ pad 2 m ++ "-" ++ pad 2 d));
      [exact (substring_tail_of (pad 4 y) _ 4 1 2 Ly)|].
    cbn [append substring]. exact (substring_head_of (pad 2 m) _ 2 Lm). }
  assert (F4 : substring 7 1 (iso_date y m d) = "-").
  { transitivity (substring 3 1 ("-" ++ pad 2 m ++ "-" ++ pad 2 d));
      [exact (substring_tail_of (pad 4 y) _ 4 3 1 Ly)|].
    cbn [append substring].
    transitivity (substring 0 1 ("-" ++ pad 2 d));
      [exact (substring_tail_of (pad 2 m) _ 2 0 1 Lm)|].
    cbn [append substring]. now rewrite substring_0_0. }
  assert (F5 : substring 8 2 (iso_date y m d) = pad 2 d).
  { transitivity (substring 4 2 ("-" ++ pad 2 m ++ "-" ++ pad 2 d));
      [exact (substring_tail_of (pad 4 y) _ 4 4 2 Ly)|].
    cbn [append substring].
    transitivity (substring 1 2 ("-" ++ pad 2 d));
      [exact (substring_tail_of (pad 2 m) _ 2 1 2 Lm)|].
    cbn [append substring]. exact (substring_whole (pad 2 d) 2 Ld). }
  rewrite F1, F2, F3, F4, F5, Dy, Dm, Dd. cbn [String.eqb Ascii.eqb andb].
  change (("-" =? "-")%string) with true. cbn [andb].
  destruct ((1 <=? m) && (m <=? 12) && (1 <=? d) && (d <=? days_in_month y m)) eqn:Hv;
    [reflexivity|].
  repeat (apply andb_false_iff in Hv; destruct Hv as [Hv|Hv]);
    try apply Z.leb_gt in Hv; lia.
Qed.

Lemma toISOString_midnight (y m d : Z) :
  0 <= y <= 9999 -> 1 <= m <= 12 -> 1 <= d <= days_in_month y m ->
  exists time, toISOString (days_from_civil y m d * msPerDay) = iso_date y m d ++ time.
Proof.
  intros Hy Hm Hd. unfold toISOString.
  rewrite Z.div_mul by discriminate.
  rewrite (civil_of_days y m d Hy Hm Hd).
  destruct ((0 <=? y) && (y <=? 9999)) eqn:Hr.
  - eexists. unfold iso_date. rewrite !append_assoc. reflexivity.
  - apply andb_false_iff in Hr. destruct Hr as [Hr|Hr]; apply Z.leb_gt in Hr; lia.
Qed.

Section CalendarDates.

Context `{Host}.

(** X11: a calendar date written [YYYY-MM-DD], for a day that exists in
    the years 0 to 9999, is shown by [formatDate] and by [formatTimestamp]
    exactly as it is written, whatever the browser does with other date
    formats. *)
Theorem formatDate_calendar_date (y m d : Z) :
  0 <= y <= 9999 -> 1 <= m <= 12 -> 1 <= d <= days_in_month y m ->
  formatDate (str (iso_date y m d)) = Ret (str (iso_date y m d))
  /\ formatTimestamp (str (iso_date y m d)) = Ret (str (iso_date y m d)).
Proof.
  intros Hy Hm Hd.
  destruct (parse_iso_date_of y m d Hy Hm Hd) as [Hlen Hparse].
  destruct (toISOString_midnight y m d Hy Hm Hd) as (time & Hiso).
  assert (Hfd : formatDate (str (iso_date y m d)) = Ret (str (iso_date y m d))).
  { unfold formatDate, str. cbn [truthy].
    destruct (String.eqb_spec (iso_date y m d) EmptyString) as [He|_].
    { rewrite He in Hlen. discriminate. }
    cbn [negb Date_of and_then]. unfold Date_parse. rewrite Hparse, Hiso.
    f_equal. f_equal. rewrite slice_prefix.
    - change (Z.to_nat 10) with 10%nat. rewrite <- Hlen.
      apply substring_append_head.
    - rewrite length_append, Hlen. lia. }
  split; [exact Hfd|].
  unfold formatTimestamp. cbn [nullish str]. exact Hfd.
Qed.

End CalendarDates.

Lemma formatDate_calendar_date_witness :
  0 <= 2024 <= 9999 /\ 1 <= 2 <= 12 /\ 1 <= 29 <= days_in_month 2024 2
  /\ @formatDate offline (str "2024-02-29") = Ret (str "2024-02-29").
Proof.
  assert (Hy : 0 <= 2024 <= 9999) by lia.
  assert (Hm : 1 <= 2 <= 12) by lia.
  assert (Hd : 1 <= 29 <= days_in_month 2024 2) by (vm_compute; split; discriminate).
  split; [exact Hy|]. split; [exact Hm|]. split; [exact Hd|].
  exact (proj1 (@formatDate_calendar_date offline 2024 2 29 Hy Hm Hd)).
Defined.

(** ** The model selector *)

Lemma set_add_In (x y : string) (set : list string) :
  In y (set_add x set) <-> In y set \/ y = x.
Proof.
  unfold set_add. destruct (existsb (String.eqb x) set) eqn:E.
  - apply existsb_exists in E. destruct E as (z & Hz & Ez).
    apply String.eqb_eq in Ez. subst z. split; [auto|].
    intros [Hy| ->]; assumption.
  - rewrite in_app_iff. cbn. intuition.
Qed.

Lemma NoDup_snoc (x : string) (l : list string) :
  ~ In x l -> NoDup l -> NoDup (l ++ [x])%list.
Proof.
  induction l as [|z l IH]; intros Hx Hnd; cbn.
  - repeat constructor. intros [].
  - inversion Hnd as [|? ? Hz Hl]; subst. constructor.
    + rewrite in_app_iff. cbn. intros [Hin|[->|[]]]; [contradiction|].
      apply Hx. now left.
    + apply IH; [intros Hin; apply Hx; now right | assumption].
Qed.

Lemma set_add_NoDup (x : string) (set : list string) :
  NoDup set -> NoDup (set_add x set).
Proof.
  intros Hnd. unfold set_add. destruct (existsb (String.eqb x) set) eqn:E.
  - exact Hnd.
  - apply NoDup_snoc; [|exact Hnd]. intros Hin.
    assert (Hex : existsb (String.eqb x) set = true).
    { apply existsb_exists. exists x. split; [exact Hin | apply String.eqb_refl]. }
    congruence.
Qed.

Lemma fold_set_add (xs : list string) :
  forall set, NoDup set ->
  NoDup (fold_left (fun set x => set_add x set) xs set)
  /\ forall y, In y (fold_left (fun set x => set_add x set) xs set)
               <-> In y set \/ In y xs.
Proof.
  induction xs as [|x xs IH]; intros set Hnd; cbn [fold_left].
  - split; [exact Hnd|]. intros y. cbn. intuition.
  - destruct (IH (set_add x set) (set_add_NoDup x set Hnd)) as [Hn Hin].
    split; [exact Hn|]. intros y. rewrite Hin, set_add_In. cbn. intuition.
Qed.

Lemma sort_insert_In (x y : string) (l : list string) :
  In y (sort_insert x l) <-> y = x \/ In y l.
Proof.
  induction l as [|z l IH]; cbn.
  - intuition.
  - destruct (String.leb x z); cbn; [intuition|]. rewrite IH. intuition.
Qed.

Lemma sort_In (y : string) (l : list string) : In y (sort l) <-> In y l.
Proof.
  induction l as [|x l IH]; cbn; [reflexivity|].
  rewrite sort_insert_In, IH. intuition.
Qed.

Lemma sort_insert_NoDup (x : string) (l : list string) :
  ~ In x l -> NoDup l -> NoDup (sort_insert x l).
Proof.
  induction l as [|z l IH]; intros Hx Hnd; cbn.
  - repeat constructor. intros [].
  - destruct (String.leb x z).
    + constructor; assumption.
    + inversion Hnd as [|? ? Hz Hl]; subst. constructor.
      * rewrite sort_insert_In. intros [->|Hin]; [apply Hx; now left | contradiction].
      * apply IH; [intros Hin; apply Hx; now right | assumption].
Qed.

Lemma sort_NoDup (l : list string) : NoDup l -> NoDup (sort l).
Proof.
  induction l as [|x l IH]; intros Hnd; cbn; [constructor|].
  inversion Hnd; subst. apply sort_insert_NoDup; [now rewrite sort_In | auto].
Qed.

Lemma sort_insert_Sorted (x : string) (l : list string) :
  Sorted (fun a b => String.leb a b = true) l ->
  Sorted (fun a b => String.leb a b = true) (sort_insert x l).
Proof.
  induction l as [|z l IH]; intros Hs; cbn.
  - repeat constructor.
  - destruct (String.leb x z) eqn:E.
    + constructor; [exact Hs | constructor; exact E].
    + inversion Hs as [|? ? Hl Hhd]; subst.
      assert (Hzx : String.leb z x = true).
      { destruct (String.leb_total x z) as [Hxz|Hzx]; [congruence | exact Hzx]. }
      constructor; [apply IH; exact Hl|].
      destruct l as [|w l]; cbn.
      * constructor. exact Hzx.
      * destruct (String.leb x w); constructor; [exact Hzx|].
        inversion Hhd; subst. assumption.
Qed.

Lemma sort_Sorted (l : list string) :
  Sorted (fun a b => String.leb a b = true) (sort l).
Proof.
  induction l as [|x l IH]; cbn; [constructor | now apply sort_insert_Sorted].
Qed.

Lemma leb_neq_ltb (a b : string) :
  String.leb a b = true -> a <> b -> str_lt a b.
Proof.
  unfold str_lt, String.leb, String.ltb. intros Hle Hne.
  destruct (String.compare a b) eqn:E; try reflexivity; try discriminate.
  apply String.compare_eq_iff in E. contradiction.
Qed.

Lemma Sorted_strict (l : list string) :
  Sorted (fun a b => String.leb a b = true) l -> NoDup l -> Sorted str_lt l.
Proof.
  induction l as [|x l IH]; intros Hs Hnd; [constructor|].
  inversion Hs as [|? ? Hl Hhd]; subst. inversion Hnd as [|? ? Hx Hn]; subst.
  constructor; [apply IH; assumption|].
  destruct l as [|y l]; constructor.
  inversion Hhd; subst. apply leb_neq_ltb; [assumption|].
  intros ->. apply Hx. now left.
Qed.

(** X12: after [populateRuntimeModelSelect] the selector holds the entry
    "Select model" with an empty value, and then one option for each model
    id that is not empty among [models] and the active model, no id twice,
    in strictly increasing order; an option shows the abbreviated id and
    carries the whole id as value and title; the active model is the
    selected value.  The rest of the panel is as before. *)
Theorem populateRuntimeModelSelect_options (models : list string)
    (activeModel : string) (els : Panel) :
  exists ids,
    selectOptions (populateRuntimeModelSelect models activeModel els)
    = {| so_value := EmptyString; so_text := "Select model"; so_title := None |}
      :: map (fun id => {| so_value := id;
                           so_text := trimModelId (Present id);
                           so_title := Some id |}) ids
    /\ Sorted str_lt ids
    /\ NoDup ids
    /\ (forall id, In id ids
                   <-> id <> EmptyString /\ (In id models \/ id = activeModel))
    /\ selectValue (populateRuntimeModelSelect models activeModel els) = activeModel
    /\ same_but_select els (populateRuntimeModelSelect models activeModel els).
Proof.
  set (kept := filter (fun m => negb (m =? EmptyString)%string) models).
  destruct (fold_set_add kept [] (NoDup_nil _)) as [Hnd Hin].
  fold (set_from kept) in Hnd, Hin.
  set (modelSet := if negb (activeModel =? EmptyString)%string
                   then set_add activeModel (set_from kept) else set_from kept).
  assert (Hnd' : NoDup modelSet).
  { subst modelSet. destruct (negb _); [now apply set_add_NoDup | exact Hnd]. }
  assert (Hin' : forall id, In id modelSet
                 <-> id <> EmptyString /\ (In id models \/ id = activeModel)).
  { intros id. subst modelSet kept.
    destruct (String.eqb_spec activeModel EmptyString) as [He|Hne]; cbn [negb].
    - rewrite Hin, filter_In. cbn.
      destruct (String.eqb_spec id EmptyString); cbn; subst; intuition congruence.
    - rewrite set_add_In, Hin, filter_In. cbn.
      destruct (String.eqb_spec id EmptyString); cbn; subst; intuition congruence. }
  exists (sort modelSet). split; [reflexivity|].
  split; [apply Sorted_strict; [apply sort_Sorted | now apply sort_NoDup]|].
  split; [now apply sort_NoDup|].
  split; [intros id; now rewrite sort_In|].
  split; [|repeat split].
  unfold populateRuntimeModelSelect. cbn [selectValue]. fold kept. fold modelSet.
  destruct (String.eqb_spec activeModel EmptyString) as [He|Hne]; cbn [negb andb].
  - now subst.
  - assert (Hex : existsb (String.eqb activeModel) modelSet = true).
    { apply existsb_exists. exists activeModel. split; [|apply String.eqb_refl].
      apply Hin'. auto. }
    now rewrite Hex.
Qed.

(** ** What the panel shows *)

Lemma join_length (sep b : string) (rest : list string) :
  (String.length b <= String.length (join sep (b :: rest)))%nat.
Proof.
  destruct rest as [|c rest]; cbn [join]; [lia|].
  rewrite length_append. lia.
Qed.

Lemma configBits_long (status : Value) (bits : list string) :
  configBits status = Ret bits ->
  Forall (fun b => (2 <= String.length b)%nat) bits.
Proof.
  unfold configBits. cbv zeta.
  destruct (negb (nullish (opt_prop (member status "config") "max_concurrency")));
    [destruct (ToString (member (member status "config") "max_concurrency"))|];
    cbn [and_then]; try discriminate;
    (destruct (negb (nullish (opt_prop (member status "config") "queue_size")));
     [destruct (ToString (member (member status "config") "queue_size"))|]);
    cbn [and_then]; try discriminate;
    (destruct (negb (nullish (opt_prop (member status "config") "queue_timeout")));
     [destruct (ToString (member (member status "config") "queue_timeout"))|]);
    cbn [and_then]; try discriminate;
    destruct (opt_prop (member status "config") "mlx_warmup") as [| | [|] | | | | |];
    cbn [app]; intros [= <-];
    repeat (apply Forall_cons; [rewrite ?length_append; cbn; lia|]);
    apply Forall_nil.
Qed.

Lemma configBits_nil (status : Value) :
  let config_ := member status "config" in
  configBits status = Ret []
  <-> nullish (opt_prop config_ "max_concurrency") = true
      /\ nullish (opt_prop config_ "queue_size") = true
      /\ nullish (opt_prop config_ "queue_timeout") = true
      /\ (forall b, opt_prop config_ "mlx_warmup" <> VBool b).
Proof.
  cbv zeta. unfold configBits. cbv zeta.
  destruct (nullish (opt_prop (member status "config") "max_concurrency"));
    cbn [negb];
    [|destruct (ToString (member (member status "config") "max_concurrency"))];
    cbn [and_then];
    (destruct (nullish (opt_prop (member status "config") "queue_size"));
     cbn [negb];
     [|destruct (ToString (member (member status "config") "queue_size"))]);
    cbn [and_then];
    (destruct (nullish (opt_prop (member status "config") "queue_timeout"));
     cbn [negb];
     [|destruct (ToString (member (member status "config") "queue_timeout"))]);
    cbn [and_then];
    destruct (opt_prop (member status "config") "mlx_warmup");
    cbn [app]; split;
    try discriminate;
    try (intros (A & B & C & D); try discriminate; exfalso; eapply D; reflexivity);
    intros _; repeat split; discriminate.
Qed.

(** A step that writes a text and no title always returns. *)
Lemma write_text (get : Panel -> Element) (put : Element -> Panel -> Panel)
    (text : string) (els : Panel) :
  write get put (str text) VUndefined els
  = (Ret tt, put {| textContent := text; title := None |} els).
Proof. reflexivity. Qed.

Lemma keeps_and_write (a b : Writer) :
  keeps_controls a -> keeps_controls b -> keeps_controls (and_write a b).
Proof.
  intros Ha Hb els. unfold and_write.
  destruct (Ha els) as ((A1 & A2 & A3) & A4 & A5 & A6).
  destruct (a els) as [[u|e] els']; cbn [snd] in *.
  - destruct (Hb els') as ((B1 & B2 & B3) & B4 & B5 & B6).
    repeat split; congruence.
  - repeat split; assumption.
Qed.

Lemma keeps_computing {A : Type} (o : Outcome A) (k : A -> Writer) :
  (forall a, keeps_controls (k a)) -> keeps_controls (computing o k).
Proof.
  intros Hk els. unfold computing. destruct o as [a|e]; [apply Hk|].
  repeat split.
Qed.

Lemma keeps_write (get : Panel -> Element) (put : Element -> Panel -> Panel)
    (value title_ : Value) :
  (forall el, keeps_controls (fun els => (Ret tt, put el els))) ->
  keeps_controls (write get put value title_).
Proof.
  intros Hput els. unfold write.
  destruct (setRuntimeValue value title_ (get els)) as [o el].
  exact (Hput el els).
Qed.

Section PanelShown.

Context `{Host}.

(** [updateRuntimePanel] writes to the six values and to the status text
    only. *)
Lemma updateRuntimePanel_controls (status : Value) :
  keeps_controls (updateRuntimePanel status).
Proof.
  unfold updateRuntimePanel.
  destruct (negb (truthy status)); cbv zeta;
    repeat first [ apply keeps_computing; intros
                 | apply keeps_and_write
                 | apply keeps_write; intros el els; repeat split
                 | intros els; repeat split ].
Qed.

Lemma falsy_printable (v : Value) : truthy v = false -> printable v = true.
Proof. destruct v; cbn; congruence. Qed.

Lemma or_else_printable (a b : Value) :
  printable b = true -> printable (or_else a b) = printable a.
Proof.
  intros Hb. unfold or_else. destruct (truthy a) eqn:Ha; [reflexivity|].
  rewrite Hb. symmetry. now apply falsy_printable.
Qed.

Lemma coalesce_printable (a b : Value) :
  printable b = true -> printable (coalesce a b) = printable a.
Proof. intros Hb. destruct a; cbn; auto. Qed.

Lemma opt_prop_present (v : Value) (k : string) :
  nullish (opt_prop v k) = false -> member v k = opt_prop v k.
Proof. unfold opt_prop. destruct (nullish v); [discriminate | reflexivity]. Qed.

Lemma opt_prop_absent (v : Value) (k : string) :
  nullish (opt_prop v k) = true -> printable (opt_prop v k) = true.
Proof. destruct (opt_prop v k); cbn; congruence. Qed.

Lemma textContent_of_run (v : Value) :
  textContent_of v = if printable v then Ret (text_of v) else Throw TypeError.
Proof. destruct v; reflexivity. Qed.

Lemma write_run (get : Panel -> Element) (put : Element -> Panel -> Panel)
    (value title_ : Value) (els : Panel) :
  printable value = true -> printable title_ = true ->
  write get put value title_ els
  = (Ret tt,
     put {| textContent := text_of value;
            title := if truthy title_ then Some (printed title_) else None |} els).
Proof.
  intros Hv Ht. unfold write, setRuntimeValue, ToString.
  rewrite textContent_of_run, Hv, Ht. destruct (truthy title_); reflexivity.
Qed.

Lemma write_raises (get : Panel -> Element) (put : Element -> Panel -> Panel)
    (value title_ : Value) (els : Panel) :
  printable value && (negb (truthy title_) || printable title_) = false ->
  fst (write get put value title_ els) = Throw TypeError.
Proof.
  unfold write, setRuntimeValue, ToString. rewrite textContent_of_run.
  destruct (printable value); [|reflexivity].
  destruct (truthy title_); [|discriminate].
  destruct (printable title_); [discriminate | reflexivity].
Qed.

Lemma trimModelId_of_raises `{Host} (value : Value) (e : Exn) :
  trimModelId_of value = Throw e -> e = TypeError.
Proof.
  unfold trimModelId_of, le_number, ToNumber, ToString.
  destruct (negb (truthy value)); [discriminate|].
  destruct value as [| | b | n | n d | m | items | props]; try congruence.
  - destruct (Z.of_nat (List.length items) <=? 52); [discriminate|].
    destruct (printable (VArr (firstn 24 items))); cbn [and_then]; [|congruence].
    destruct (printable (VArr (skipn (List.length items - 18) items)));
      cbn [and_then]; congruence.
  - destruct (lookup "length" props) as [| | b | n | n d | m | items | props'];
      cbn [and_then];
      repeat match goal with
             | |- context [if ?c then _ else _] => destruct c; cbn [and_then]
             | |- context [match ?c with Some _ => _ | None => _ end] => destruct c
             end; congruence.
Qed.

Lemma configBits_run (status : Value) :
  let config_ := member status "config" in
  configBits status
  = if printable (opt_prop config_ "max_concurrency")
       && printable (opt_prop config_ "queue_size")
       && printable (opt_prop config_ "queue_timeout")
    then Ret ((if nullish (opt_prop config_ "max_concurrency") then []
               else [("max:" ++ printed (opt_prop config_ "max_concurrency"))%string])
              ++ (if nullish (opt_prop config_ "queue_size") then []
                  else [("q:" ++ printed (opt_prop config_ "queue_size"))%string])
              ++ (if nullish (opt_prop config_ "queue_timeout") then []
                  else [("timeout:" ++ printed (opt_prop config_ "queue_timeout")
                         ++ "s")%string])
              ++ match opt_prop config_ "mlx_warmup" with
                 | VBool warm => [if warm then "warmup:on" else "warmup:off"]
                 | _ => []
                 end)%list
    else Throw TypeError.
Proof.
  cbv zeta. unfold configBits, ToString. cbv zeta.
  destruct (nullish (opt_prop (member status "config") "max_concurrency")) eqn:E1;
    [rewrite (opt_prop_absent _ _ E1) | rewrite (opt_prop_present _ _ E1)];
    cbn [negb andb and_then];
    [|destruct (printable (opt_prop (member status "config") "max_concurrency"));
      cbn [andb and_then]; [|reflexivity]];
    (destruct (nullish (opt_prop (member status "config") "queue_size")) eqn:E2;
     [rewrite (opt_prop_absent _ _ E2) | rewrite (opt_prop_present _ _ E2)];
     cbn [negb andb and_then];
     [|destruct (printable (opt_prop (member status "config") "queue_size"));
       cbn [andb and_then]; [|reflexivity]]);
    (destruct (nullish (opt_prop (member status "config") "queue_timeout")) eqn:E3;
     [rewrite (opt_prop_absent _ _ E3) | rewrite (opt_prop_present _ _ E3)];
     cbn [negb andb and_then];
     [|destruct (printable (opt_prop (member status "config") "queue_timeout"));
       cbn [andb and_then]; [|reflexivity]]);
    reflexivity.
Qed.

(** What [updateRuntimePanel] does with a status: it returns exactly when
    the status is displayable, and then every value has been written. *)
Lemma updateRuntimePanel_run (status : Value) (els : Panel) :
  truthy status = true ->
  let modelId :=
    or_else (or_else (member status "model_id") (member status "model_path"))
            (str EmptyString) in
  let queueStats := opt_prop (member status "queue") "queue_stats" in
  if displayable status then
    exists bits shown,
      configBits status = Ret bits
      /\ trimModelId_of modelId = Ret shown
      /\ updateRuntimePanel status els
         = (Ret tt,
            setRuntimeStatusText "LLM status updated."
              (with_config
                 {| textContent := match bits with
                                   | [] => "-"
                                   | _ => join " | " bits
                                   end;
                    title := None |}
              (with_active
                 {| textContent :=
                      printed (coalesce (opt_prop (member status "queue") "active_streams")
                                        (VNum 0)) ++ " streams";
                    title := None |}
              (with_queue
                 {| textContent :=
                      printed (coalesce (opt_prop queueStats "active_requests") (VNum 0))
                      ++ " active / "
                      ++ printed (coalesce (opt_prop queueStats "queue_size") (VNum 0))
                      ++ " queued";
                    title := None |}
              (with_model
                 {| textContent := text_of shown;
                    title := if truthy modelId then Some (printed modelId) else None |}
              (with_type
                 {| textContent := text_of (or_else (member status "model_type") (str "-"));
                    title := None |}
              (with_loaded
                 {| textContent := if truthy (member status "loaded")
                                   then "Loaded" else "Not loaded";
                    title := None |} els)))))))
  else fst (updateRuntimePanel status els) = Throw TypeError.
Proof.
  intros Ht modelId queueStats.
  unfold displayable, updateRuntimePanel. rewrite Ht. cbn [negb]. cbv zeta.
  fold modelId queueStats.
  pose proof (configBits_run status) as Hbits. cbv zeta in Hbits. rewrite Hbits.
  clear Hbits.
  assert (Htitle : truthy (or_else modelId VNull) = truthy modelId
                   /\ printable (or_else modelId VNull) = printable modelId
                   /\ (truthy modelId = true -> or_else modelId VNull = modelId)).
  { generalize modelId. intros m. unfold or_else. destruct (truthy m) eqn:E; [auto|].
    repeat split; [|discriminate]. symmetry. now apply falsy_printable. }
  destruct Htitle as (Ht1 & Ht2 & Ht3).
  unfold computing, and_write, write, setRuntimeValue, ToString.
  rewrite !textContent_of_run.
  rewrite !coalesce_printable, (or_else_printable (member status "model_type")),
    Ht1, Ht2 by reflexivity.
  destruct (printable (opt_prop (member status "config") "max_concurrency"));
    cbn [andb fst]; [|reflexivity].
  destruct (printable (opt_prop (member status "config") "queue_size"));
    cbn [andb fst]; [|reflexivity].
  destruct (printable (opt_prop (member status "config") "queue_timeout"));
    cbn [andb fst]; [|reflexivity].
  cbn [truthy].
  destruct (printable (member status "model_type")); cbn [andb fst]; [|reflexivity].
  destruct (trimModelId_of modelId) as [shown|e] eqn:Eshown; cbn [andb fst].
  2:{ rewrite (trimModelId_of_raises _ _ Eshown). reflexivity. }
  rewrite textContent_of_run.
  destruct (printable shown); cbn [andb fst]; [|reflexivity].
  destruct (printable modelId) eqn:Ep; cbn [andb fst].
  2:{ destruct (truthy modelId) eqn:Em; [reflexivity|].
      rewrite (falsy_printable _ Em) in Ep. discriminate. }
  destruct (printable (opt_prop queueStats "active_requests")); cbn [andb fst and_then];
    [|destruct (truthy modelId); reflexivity].
  destruct (printable (opt_prop queueStats "queue_size")); cbn [andb fst and_then];
    [|destruct (truthy modelId); reflexivity].
  destruct (printable (opt_prop (member status "queue") "active_streams"));
    cbn [andb fst and_then]; [|destruct (truthy modelId); reflexivity].
  eexists _, shown. split; [reflexivity|]. split; [reflexivity|].
  destruct (truthy modelId) eqn:Em; [rewrite (Ht3 eq_refl)|]; reflexivity.
Qed.

(** X13: when [updateRuntimePanel] has a status to show and returns, the
    line of the configuration is the placeholder exactly when none of
    [max_concurrency], [queue_size], [queue_timeout] is present and
    [mlx_warmup] is not a boolean; otherwise it is the list [configBits],
    joined; the status text says that the panel was updated. *)
Theorem updateRuntimePanel_config_line (status : Value) (els : Panel) :
  truthy status = true ->
  fst (updateRuntimePanel status els) = Ret tt ->
  let config_ := member status "config" in
  let shown := snd (updateRuntimePanel status els) in
  exists bits,
    configBits status = Ret bits
    /\ (textContent (llmRuntimeConfig shown) = "-"
        <-> nullish (opt_prop config_ "max_concurrency") = true
            /\ nullish (opt_prop config_ "queue_size") = true
            /\ nullish (opt_prop config_ "queue_timeout") = true
            /\ (forall b, opt_prop config_ "mlx_warmup" <> VBool b))
    /\ textContent (llmRuntimeConfig shown)
       = match bits with [] => "-" | _ => join " | " bits end
    /\ llmRuntimeStatus shown = "LLM status updated.".
Proof.
  intros Ht Hret. cbv zeta.
  pose proof (updateRuntimePanel_run status els Ht) as Hrun. cbv zeta in Hrun.
  destruct (displayable status); [|congruence].
  destruct Hrun as (bits & text & Hbits & _ & Hrun). rewrite Hrun.
  exists bits. split; [exact Hbits|].
  cbn [snd llmRuntimeConfig llmRuntimeStatus setRuntimeStatusText with_config
       textContent].
  split; [|split; reflexivity].
  rewrite <- (configBits_nil status).
  destruct bits as [|b bits]; [split; [intros _; exact Hbits | reflexivity]|].
  split; [|rewrite Hbits; discriminate].
  intros Hdash. exfalso.
  pose proof (configBits_long status _ Hbits) as Hlong.
  inversion Hlong as [|? ? Hb _]; subst.
  pose proof (join_length " | " b bits) as Hj. rewrite Hdash in Hj. cbn in Hj. lia.
Qed.

(** X14: what the panel shows of a reply of the diagnostics endpoint, once
    reshaped.  The call returns exactly when the reshaped status is
    displayable, which it is for a printable model type and a reply
    without [queue] and without [config]; it raises a [TypeError]
    otherwise.  When it returns, the panel says "Loaded" exactly when
    [handler_initialized] is truthy, shows the abbreviated id of the
    loaded model with the whole id as title, and, without [queue] and
    without [config], no request active or queued, no stream and the
    placeholder for the configuration. *)
Theorem updateRuntimePanel_of_diagnostics (diagnostics : Value)
    (id : string) (els : Panel) :
  nullish diagnostics = false ->
  member (member diagnostics "loaded_model") "model_id" = str id ->
  id <> EmptyString ->
  exists shaped outcome shown,
    reshapeDiagnostics diagnostics = Ret shaped
    /\ updateRuntimePanel shaped els = (outcome, shown)
    /\ outcome = (if displayable shaped then Ret tt else Throw TypeError)
    /\ (printable (member (member diagnostics "loaded_model") "model_type") = true ->
        truthy (member diagnostics "queue") = false ->
        truthy (member diagnostics "config") = false ->
        displayable shaped = true)
    /\ (outcome = Ret tt ->
        textContent (llmRuntimeLoaded shown)
        = (if truthy (member diagnostics "handler_initialized")
           then "Loaded" else "Not loaded")
        /\ llmRuntimeModel shown
           = {| textContent := trimModelId (Present id); title := Some id |}
        /\ (truthy (member diagnostics "queue") = false ->
            textContent (llmRuntimeQueue shown) = "0 active / 0 queued"
            /\ textContent (llmRuntimeActive shown) = "0 streams")
        /\ (truthy (member diagnostics "config") = false ->
            textContent (llmRuntimeConfig shown) = "-")).
Proof.
  intros Hnn Hid Hne.
  unfold reshapeDiagnostics. rewrite Hnn.
  assert (Hopt : opt_prop (member diagnostics "loaded_model") "model_id" = str id).
  { rewrite opt_prop_member. exact Hid. }
  assert (Htid : truthy (str id) = true).
  { cbn. destruct (String.eqb_spec id EmptyString); [contradiction | reflexivity]. }
  assert (Hm : forall other,
            or_else (or_else (str id) other) (str EmptyString) = VStr id).
  { intros other. unfold or_else. rewrite Htid. rewrite Htid. reflexivity. }
  assert (Hloaded : nullish (member diagnostics "loaded_model") = false).
  { destruct (member diagnostics "loaded_model"); try reflexivity; discriminate. }
  set (shaped := VObj _).
  pose proof (updateRuntimePanel_run shaped els eq_refl) as Hrun. cbv zeta in Hrun.
  exists shaped, (fst (updateRuntimePanel shaped els)), (snd (updateRuntimePanel shaped els)).
  split; [reflexivity|]. split; [apply surjective_pairing|].
  split; [|split].
  - destruct (displayable shaped); [|exact Hrun].
    destruct Hrun as (bits & text & _ & _ & Hrun). rewrite Hrun. reflexivity.
  - intros Htype Hq Hc. unfold displayable. cbv zeta.
    subst shaped. cbn [member lookup String.eqb Ascii.eqb Bool.eqb].
    rewrite Hopt, !Hm. unfold trimModelId_of.
    change (truthy (VStr id)) with (truthy (str id)). rewrite Htid. cbn [negb].
    unfold or_else at 1 2 3 4 5 6. rewrite Hq, Hc.
    unfold opt_prop at 1 2 3. cbn [nullish printable andb].
    unfold opt_prop. rewrite Hloaded. cbn [nullish printable andb]. rewrite Htype.
    reflexivity.
  - intros Hret. destruct (displayable shaped); [|congruence].
    destruct Hrun as (bits & text & Hbits & Htext & Hrun). rewrite Hrun.
    cbn [snd llmRuntimeLoaded llmRuntimeModel llmRuntimeQueue llmRuntimeActive
         llmRuntimeConfig setRuntimeStatusText with_config with_active with_queue
         with_model with_type with_loaded textContent].
    subst shaped. cbn [member lookup String.eqb Ascii.eqb Bool.eqb] in *.
    rewrite Hopt in *. rewrite !Hm in *.
    unfold trimModelId_of in Htext.
    change (truthy (VStr id)) with (truthy (str id)) in *.
    rewrite Htid in *. cbn [negb] in Htext. injection Htext as <-.
    split; [reflexivity|]. split; [reflexivity|]. split.
    + intros Hq. unfold or_else. rewrite Hq. split; reflexivity.
    + intros Hc. unfold configBits in Hbits. cbv zeta in Hbits.
      cbn [member lookup String.eqb Ascii.eqb Bool.eqb] in Hbits.
      unfold or_else in Hbits. rewrite Hc in Hbits. cbn in Hbits.
      injection Hbits as <-. reflexivity.
Qed.

End PanelShown.

Lemma updateRuntimePanel_config_line_witness :
  let status :=
    VObj [("loaded", VBool true); ("model_id", str "m1");
          ("config", VObj [("max_concurrency", VNum 2); ("mlx_warmup", VBool false)])] in
  truthy status = true
  /\ fst (@updateRuntimePanel offline status blank_panel) = Ret tt
  /\ textContent
       (llmRuntimeConfig (snd (@updateRuntimePanel offline status blank_panel)))
     = "max:2 | warmup:off".
Proof.
  intros status.
  assert (Ht : truthy status = true) by reflexivity.
  assert (Hr : fst (@updateRuntimePanel offline status blank_panel) = Ret tt)
    by reflexivity.
  split; [exact Ht|]. split; [exact Hr|].
  destruct (@updateRuntimePanel_config_line offline status blank_panel Ht Hr)
    as (bits & Hbits & _ & Hline & _).
  rewrite Hline. injection Hbits as <-. reflexivity.
Defined.

Lemma updateRuntimePanel_of_diagnostics_witness :
  let diagnostics :=
    VObj [("status", str "ok"); ("handler_initialized", VBool true);
          ("loaded_model", VObj [("model_id", str "m1"); ("model_type", str "chat")])] in
  nullish diagnostics = false
  /\ "m1" <> EmptyString
  /\ exists shaped shown,
       reshapeDiagnostics diagnostics = Ret shaped
       /\ @updateRuntimePanel offline shaped blank_panel = (Ret tt, shown)
       /\ textContent (llmRuntimeLoaded shown) = "Loaded"
       /\ textContent (llmRuntimeQueue shown) = "0 active / 0 queued".
Proof.
  intros diagnostics.
  assert (Hne : "m1"%string <> EmptyString) by discriminate.
  split; [reflexivity|]. split; [exact Hne|].
  destruct (@updateRuntimePanel_of_diagnostics offline diagnostics "m1" blank_panel
              eq_refl eq_refl Hne)
    as (shaped & outcome & shown & Hshape & Hrun & Hout & Hd & Hshown).
  assert (Hret : outcome = Ret tt).
  { rewrite Hout, (Hd eq_refl eq_refl eq_refl). reflexivity. }
  destruct (Hshown Hret) as (Hl & _ & Hq & _).
  exists shaped, shown. split; [exact Hshape|]. split; [rewrite Hrun, Hret; reflexivity|].
  split; [exact Hl | exact (proj1 (Hq eq_refl))].
Defined.

(** ** The actions of the panel *)

Section PanelProperties.

Context `{PanelHost}.

Lemma post_request_run (url : string) (body : Value) (s : State) :
  post_request url body s
  = (match fst (send url body (world s)) with
     | Rejected => Throw NetworkError
     | Responded r => Ret r
     end,
     {| world := snd (send url body (world s));
        requests := (requests s ++ [posted url])%list;
        page := page s |}).
Proof.
  unfold post_request. destruct (send url body (world s)) as [[|r] w]; reflexivity.
Qed.

Lemma refreshRuntimePanel_run (llm : string) (s : Session) :
  llm <> EmptyString ->
  refreshRuntimePanel llm s
  = let busy := setRuntimeStatusText "Refreshing..." (setRuntimeBusy true (els s)) in
    match fetchModelRuntimeStatus llm (net s) with
    | (Ret status, n) =>
        match updateRuntimePanel status busy with
        | (Ret _, p) => (Ret tt, {| net := n; els := setRuntimeBusy false p |})
        | (Throw e, p) => (Throw e, {| net := n; els := p |})
        end
    | (Throw e, n) => (Throw e, {| net := n; els := busy |})
    end.
Proof.
  intros Hne. unfold refreshRuntimePanel.
  destruct (String.eqb_spec llm EmptyString) as [He|_]; [contradiction|].
  unfold pbind, on_els, on_net. cbn [net els]. cbv zeta.
  destruct (fetchModelRuntimeStatus llm (net s)) as [[status|e] n]; [|reflexivity].
  cbn [net els].
  destruct (updateRuntimePanel status _) as [[u|e] p]; [destruct u|]; reflexivity.
Qed.

(** A refresh leaves the selector and the checkbox alone and only adds
    requests. *)
Lemma refreshRuntimePanel_steady (llm : string) (s : Session) :
  llm <> EmptyString ->
  same_controls (els s) (els (snd (refreshRuntimePanel llm s)))
  /\ exists more,
       requests (net (snd (refreshRuntimePanel llm s)))
       = (requests (net s) ++ more)%list.
Proof.
  intros Hne. rewrite (refreshRuntimePanel_run llm s Hne). cbv zeta.
  pose proof (fetchModelRuntimeStatus_run llm (net s) Hne) as Hrun. cbv zeta in Hrun.
  assert (Hreq : exists more,
    requests (snd (fetchModelRuntimeStatus llm (net s)))
    = (requests (net s) ++ more)%list).
  { rewrite Hrun.
    destruct (reply_to _ (net s)) as [|r];
      [|destruct (res_ok r); [destruct (res_body r)|]];
      cbn [snd after requests]; rewrite <- ?app_assoc; eauto. }
  destruct (fetchModelRuntimeStatus llm (net s)) as [[status|e] n]; cbn [snd] in Hreq.
  - pose proof (updateRuntimePanel_controls status
                  (setRuntimeStatusText "Refreshing..." (setRuntimeBusy true (els s))))
      as (Hc & _).
    destruct (updateRuntimePanel status _) as [[u|e] p]; cbn [snd els net] in *;
      (split; [|exact Hreq]); destruct Hc as (A & B & C); repeat split; assumption.
  - cbn [snd els net]. split; [repeat split | exact Hreq].
Qed.

(** X15: with a base URL, when neither the status endpoint nor the
    diagnostics endpoint can be had, a refresh makes the two requests and
    returns; the panel then says "Unavailable", shows the placeholder for
    the five other values, has its three buttons usable again, and its
    selector and checkbox as before. *)
Theorem refreshRuntimePanel_unavailable (llm : string) (s : Session) :
  llm <> EmptyString ->
  let statusUrl := llm ++ "/internal/models/status" in
  let diagnosticsUrl := llm ++ "/internal/diagnostics" in
  failed (reply_to statusUrl (net s)) ->
  failed (reply_to diagnosticsUrl (after statusUrl (net s))) ->
  exists shown,
    refreshRuntimePanel llm s
    = (Ret tt, {| net := after diagnosticsUrl (after statusUrl (net s));
                  els := shown |})
    /\ textContent (llmRuntimeLoaded shown) = "Unavailable"
    /\ map textContent [llmRuntimeModel shown; llmRuntimeType shown;
                        llmRuntimeQueue shown; llmRuntimeActive shown;
                        llmRuntimeConfig shown]
       = ["-"; "-"; "-"; "-"; "-"]
    /\ llmRuntimeStatus shown = "LLM diagnostics unavailable."
    /\ buttons_enabled shown
    /\ same_controls (els s) shown.
Proof.
  intros Hne statusUrl diagnosticsUrl Hf1 Hf2.
  rewrite (refreshRuntimePanel_run llm s Hne). cbv zeta.
  pose proof (fetchModelRuntimeStatus_run llm (net s) Hne) as Hrun. cbv zeta in Hrun.
  fold statusUrl diagnosticsUrl in Hrun.
  assert (Hnull : fetchModelRuntimeStatus llm (net s)
                  = (Ret VNull, after diagnosticsUrl (after statusUrl (net s)))).
  { rewrite Hrun.
    assert (Hsecond :
      (match reply_to diagnosticsUrl (after statusUrl (net s)) with
       | Rejected => VNull
       | Responded r =>
           match res_ok r, res_body r with
           | true, Some diagnostics =>
               match reshapeDiagnostics diagnostics with
               | Ret shaped => shaped
               | Throw _ => VNull
               end
           | _, _ => VNull
           end
       end) = VNull).
    { inversion Hf2 as [Hr | r Hok Hr | r Hbody Hr].
      - reflexivity.
      - now rewrite Hok.
      - rewrite Hbody. now destruct (res_ok r). }
    rewrite Hsecond.
    inversion Hf1 as [Hr | r Hok Hr | r Hbody Hr].
    - reflexivity.
    - now rewrite Hok.
    - rewrite Hbody. now destruct (res_ok r). }
  rewrite Hnull. cbn [updateRuntimePanel truthy negb].
  eexists. split; [reflexivity|]. repeat split.
Qed.

(** The part that unloading and loading share: the request, the text for
    a reply that is not ok, the refresh, the text for a rejection, and the
    buttons at the end. *)
Lemma guarded_action_settles (llm url : string) (body : Panel -> Value)
    (refused : Response -> string -> string) (caught : Exn -> string)
    (s : Session) :
  llm <> EmptyString ->
  exists s',
    pfinally
      (ptry
         (pbind get_els (fun panel =>
          pbind (on_net (post_request url (body panel))) (fun response =>
          if negb (res_ok response) then
            pbind (on_net (text response)) (fun detail =>
            on_els (setRuntimeStatusText (refused response detail)))
          else refreshRuntimePanel llm)))
         (fun error => on_els (setRuntimeStatusText (caught error))))
      (on_els (setRuntimeBusy false)) s
    = (Ret tt, s')
    /\ buttons_enabled (els s')
    /\ same_controls (els s) (els s')
    /\ exists more,
         requests (net s') = (requests (net s) ++ posted url :: more)%list.
Proof.
  intros Hne.
  unfold pfinally, ptry, pbind at 1, get_els. unfold pbind at 1. unfold on_net at 1.
  rewrite post_request_run. cbn [net els].
  destruct (fst (send url (body (els s)) (world (net s)))) as [|r].
  { unfold on_els. cbn [net els]. eexists. split; [reflexivity|].
    cbn [net els requests]. repeat split. exists []. reflexivity. }
  destruct (res_ok r); cbn [negb]; cbv beta iota.
  - pose proof (refreshRuntimePanel_steady llm
                  {| net := {| world := snd (send url (body (els s)) (world (net s)));
                               requests := (requests (net s) ++ [posted url])%list;
                               page := page (net s) |};
                     els := els s |} Hne) as (Hc & more & Hreq).
    destruct (refreshRuntimePanel llm _) as [[u|e] s2];
      cbn [snd net els requests] in *; unfold on_els; cbn [net els];
      (eexists; split; [try destruct u; reflexivity|]); cbn [net els];
      destruct Hc as (A & B & C);
      (split; [repeat split|]);
      (split; [repeat split; assumption|]);
      exists more; rewrite Hreq, <- app_assoc; reflexivity.
  - unfold pbind, on_net, text. cbn [net els].
    destruct (response_text r); unfold ret, throw, on_els; cbn [net els];
      (eexists; split; [reflexivity|]); cbn [net els requests];
      repeat split; exists []; reflexivity.
Qed.

(** X16: with a base URL, [unloadRuntimeModel] never raises, whatever the
    server does: it posts to [/internal/models/unload] first, and when it
    returns the three buttons can be used again and the selector and the
    checkbox are as before. *)
Theorem unloadRuntimeModel_settles (llm : string) (s : Session) :
  llm <> EmptyString ->
  exists s',
    unloadRuntimeModel llm s = (Ret tt, s')
    /\ buttons_enabled (els s')
    /\ same_controls (els s) (els s')
    /\ exists more,
         requests (net s')
         = (requests (net s) ++ posted (llm ++ "/internal/models/unload") :: more)%list.
Proof.
  intros Hne. unfold unloadRuntimeModel.
  destruct (String.eqb_spec llm EmptyString) as [He|_]; [contradiction|].
  unfold pbind at 1. unfold on_els at 1. cbv beta iota.
  unfold pbind at 1. unfold on_els at 1. cbv beta iota. cbn [net els].
  destruct (guarded_action_settles llm (llm ++ "/internal/models/unload")
              (fun panel => VObj [("force", VBool (forceChecked panel))])
              (fun response detail =>
                 "Unload failed (" ++ number_to_string (res_status response)
                 ++ "): " ++ detail)
              (fun error => "Unload failed (network): " ++ message error)
              {| net := net s;
                 els := setRuntimeStatusText "Unloading model..."
                          (setRuntimeBusy true (els s)) |} Hne)
    as (s' & Hrun & Hb & Hc & Hreq).
  exists s'. split; [exact Hrun|]. split; [exact Hb|]. split; [|exact Hreq].
  destruct Hc as (A & B & C). repeat split; assumption.
Qed.

(** X17: [loadRuntimeModel] with no model selected makes no request and
    changes nothing but the status text; with a model selected (and a base
    URL) it never raises, posts to [/internal/models/load] first, and
    leaves the three buttons usable and the selector and the checkbox as
    before. *)
Theorem loadRuntimeModel_settles (llm : string) (s : Session) :
  llm <> EmptyString ->
  if (selectValue (els s) =? EmptyString)%string
  then loadRuntimeModel llm s
       = (Ret tt, {| net := net s;
                     els := setRuntimeStatusText "Select a model to load." (els s) |})
  else exists s',
         loadRuntimeModel llm s = (Ret tt, s')
         /\ buttons_enabled (els s')
         /\ same_controls (els s) (els s')
         /\ exists more,
              requests (net s')
              = (requests (net s) ++ posted (llm ++ "/internal/models/load") :: more)%list.
Proof.
  intros Hne. unfold loadRuntimeModel.
  destruct (String.eqb_spec llm EmptyString) as [He|_]; [contradiction|].
  assert (Hstart :
    (selectValue (els s) =? EmptyString)%string = false ->
    pbind get_els (fun panel =>
      let modelId := selectValue panel in
      if (modelId =? EmptyString)%string then
        on_els (setRuntimeStatusText "Select a model to load.")
      else
        pbind (on_els (setRuntimeBusy true)) (fun _ =>
        pbind (on_els (setRuntimeStatusText ("Loading " ++ modelId ++ "..."))) (fun _ =>
        pfinally
          (ptry
             (pbind get_els (fun panel =>
              pbind (on_net (post_request (llm ++ "/internal/models/load")
                               (VObj [("model_id", str modelId);
                                      ("force", VBool (forceChecked panel))])))
                (fun response =>
              if negb (res_ok response) then
                pbind (on_net (text response)) (fun detail =>
                on_els (setRuntimeStatusText
                          ("Load failed (" ++ number_to_string (res_status response)
                           ++ "): " ++ detail)))
              else refreshRuntimePanel llm)))
             (fun error =>
                on_els (setRuntimeStatusText
                          ("Load failed (network): " ++ message error))))
          (on_els (setRuntimeBusy false))))) s
    = pfinally
        (ptry
           (pbind get_els (fun panel =>
            pbind (on_net (post_request (llm ++ "/internal/models/load")
                             (VObj [("model_id", str (selectValue (els s)));
                                    ("force", VBool (forceChecked panel))])))
              (fun response =>
            if negb (res_ok response) then
              pbind (on_net (text response)) (fun detail =>
              on_els (setRuntimeStatusText
                        ("Load failed (" ++ number_to_string (res_status response)
                         ++ "): " ++ detail)))
            else refreshRuntimePanel llm)))
           (fun error =>
              on_els (setRuntimeStatusText
                        ("Load failed (network): " ++ message error))))
        (on_els (setRuntimeBusy false))
        {| net := net s;
           els := setRuntimeStatusText ("Loading " ++ selectValue (els s) ++ "...")
                    (setRuntimeBusy true (els s)) |}).
  { intros E. unfold pbind at 1. unfold get_els at 1. cbv beta iota zeta.
    rewrite E. reflexivity. }
  destruct (selectValue (els s) =? EmptyString)%string eqn:E.
  { unfold pbind, get_els. cbv beta iota zeta. rewrite E. reflexivity. }
  destruct (guarded_action_settles llm (llm ++ "/internal/models/load")
              (fun panel => VObj [("model_id", str (selectValue (els s)));
                                  ("force", VBool (forceChecked panel))])
              (fun response detail =>
                 "Load failed (" ++ number_to_string (res_status response)
                 ++ "): " ++ detail)
              (fun error => "Load failed (network): " ++ message error)
              {| net := net s;
                 els := setRuntimeStatusText ("Loading " ++ selectValue (els s) ++ "...")
                          (setRuntimeBusy true (els s)) |} Hne)
    as (s' & Hrun & Hb & Hc & Hreq).
  exists s'.
  split; [etransitivity; [exact (Hstart eq_refl) | exact Hrun]|].
  split; [exact Hb|]. split; [|exact Hreq].
  destruct Hc as (A & B & C). repeat split; assumption.
Qed.

(** X18: when the server refuses to unload (a status outside 200..299),
    the status text tells the status and the body of the reply; the one
    request made is the [POST], the values shown stay those of before, and
    the buttons can be used again. *)
Theorem unloadRuntimeModel_refused (llm : string) (s : Session)
    (r : Response) (w : World) (detail : string) :
  llm <> EmptyString ->
  send (llm ++ "/internal/models/unload")
       (VObj [("force", VBool (forceChecked (els s)))]) (world (net s))
  = (Responded r, w) ->
  res_ok r = false ->
  response_text r = Some detail ->
  unloadRuntimeModel llm s
  = (Ret tt,
     {| net := {| world := w;
                  requests := (requests (net s)
                               ++ [posted (llm ++ "/internal/models/unload")])%list;
                  page := page (net s) |};
        els := setRuntimeBusy false
                 (setRuntimeStatusText
                    ("Unload failed (" ++ number_to_string (res_status r)
                     ++ "): " ++ detail) (els s)) |}).
Proof.
  intros Hne Hsend Hok Htext. unfold unloadRuntimeModel.
  destruct (String.eqb_spec llm EmptyString) as [He|_]; [contradiction|].
  unfold pbind, on_els, pfinally, ptry, get_els, on_net. cbn [net els].
  rewrite post_request_run. cbn [forceChecked setRuntimeStatusText setRuntimeBusy].
  rewrite Hsend. cbn [fst snd]. rewrite Hok. cbn [negb].
  unfold text. rewrite Htext. reflexivity.
Qed.

(** X19: when the server accepts to unload and the status endpoint then
    answers with a status, two requests were made, the call returns, the
    buttons can be used again and the selector and the checkbox are as
    before.  For a displayable status the panel shows it and the status
    text says that the panel was updated; for any other status the
    [TypeError] of [updateRuntimePanel] is caught and reported as a
    failure of the network. *)
Theorem unloadRuntimeModel_accepted (llm : string) (s : Session)
    (r answer : Response) (w : World) (status : Value) :
  llm <> EmptyString ->
  send (llm ++ "/internal/models/unload")
       (VObj [("force", VBool (forceChecked (els s)))]) (world (net s))
  = (Responded r, w) ->
  res_ok r = true ->
  let posted_state :=
    {| world := w;
       requests := (requests (net s)
                    ++ [posted (llm ++ "/internal/models/unload")])%list;
       page := page (net s) |} in
  reply_to (llm ++ "/internal/models/status") posted_state = Responded answer ->
  res_ok answer = true ->
  res_body answer = Some status ->
  truthy status = true ->
  exists shown,
    unloadRuntimeModel llm s
    = (Ret tt, {| net := after (llm ++ "/internal/models/status") posted_state;
                  els := shown |})
    /\ buttons_enabled shown
    /\ same_controls (els s) shown
    /\ (displayable status = true ->
        llmRuntimeStatus shown = "LLM status updated."
        /\ textContent (llmRuntimeLoaded shown)
           = (if truthy (member status "loaded") then "Loaded" else "Not loaded"))
    /\ (displayable status = false ->
        llmRuntimeStatus shown = "Unload failed (network): " ++ message TypeError).
Proof.
  intros Hne Hsend Hok posted_state Hreply Hok2 Hbody Htruthy.
  unfold unloadRuntimeModel.
  destruct (String.eqb_spec llm EmptyString) as [He|_]; [contradiction|].
  unfold pbind at 1. unfold on_els at 1. cbv beta iota.
  unfold pbind at 1. unfold on_els at 1. cbv beta iota.
  unfold pfinally, ptry. unfold pbind at 1. unfold get_els at 1. cbv beta iota.
  unfold pbind at 1. unfold on_net at 1. rewrite post_request_run.
  cbn [net els forceChecked setRuntimeStatusText setRuntimeBusy].
  rewrite Hsend. cbn [fst snd]. fold posted_state. rewrite Hok. cbn [negb].
  rewrite refreshRuntimePanel_run by exact Hne. cbv zeta. cbn [net els].
  pose proof (fetchModelRuntimeStatus_run llm posted_state Hne) as Hrun.
  cbv zeta in Hrun. rewrite Hreply, Hok2, Hbody in Hrun. rewrite Hrun.
  match goal with
  | |- context [updateRuntimePanel status ?p] =>
      pose proof (updateRuntimePanel_run status p Htruthy) as Hshown;
      pose proof (updateRuntimePanel_controls status p) as (Hc & _)
  end.
  cbv zeta in Hshown.
  destruct (displayable status).
  - destruct Hshown as (bits & text & _ & _ & Hshown). rewrite Hshown in *.
    cbn [snd] in Hc. destruct Hc as (A & B & C).
    unfold on_els. cbn [net els].
    eexists. split; [reflexivity|].
    split; [repeat split|]. split; [repeat split; assumption|].
    split; [intros _; split; reflexivity | discriminate].
  - destruct (updateRuntimePanel status _) as [[u|e] shown]; cbn [fst snd] in *;
      [discriminate|]. injection Hshown as ->.
    destruct Hc as (A & B & C). unfold on_els. cbn [net els].
    eexists. split; [reflexivity|].
    split; [repeat split|]. split; [repeat split; assumption|].
    split; [discriminate | intros _; reflexivity].
Qed.

(** X20: [loadRuntimeModels] makes one request; it returns no id when the
    request fails, when the body is falsy, and when the body has no array
    under [data]; the ids it returns are never falsy; and it raises, with
    a [TypeError], exactly when an entry of the array is [null]. *)
Theorem loadRuntimeModels_ids (llm : string) (s : State) :
  let url := llm ++ "/v1/models" in
  exists outcome,
    loadRuntimeModels llm s = (outcome, after url s)
    /\ (failed (reply_to url s) -> outcome = Ret [])
    /\ (forall r body,
          reply_to url s = Responded r -> res_ok r = true ->
          res_body r = Some body ->
          isArray (member body "data") = false -> outcome = Ret [])
    /\ match outcome with
       | Ret ids => Forall (fun id => truthy id = true) ids
       | Throw e =>
           e = TypeError
           /\ exists r body models,
                reply_to url s = Responded r /\ res_body r = Some body
                /\ member body "data" = VArr models
                /\ Exists (fun model => nullish model = true) models
       end.
Proof.
  cbv zeta. unfold loadRuntimeModels, bind. rewrite fetchJson_run.
  set (url := llm ++ "/v1/models").
  assert (Hids : forall models,
    match model_ids models with
    | Ret ids => True
    | Throw e => e = TypeError /\ Exists (fun model => nullish model = true) models
    end).
  { induction models as [|m ms IH]; cbn [model_ids]; [exact I|].
    unfold prop. destruct (nullish m) eqn:Hn.
    - split; [reflexivity|]. now constructor.
    - destruct (model_ids ms); [exact I|].
      destruct IH as [He Hex]. split; [exact He | now constructor 2]. }
  destruct (reply_to url s) as [|r] eqn:Hreply.
  { exists (Ret []). split; [reflexivity|]. split; [reflexivity|].
    split; [discriminate | constructor]. }
  unfold probe_of. destruct (res_ok r) eqn:Hok.
  2:{ exists (Ret []). split; [reflexivity|]. split; [reflexivity|].
      split; [|constructor]. intros r' body [= <-]. congruence. }
  destruct (res_body r) as [body|] eqn:Hbody.
  2:{ exists (Ret []). split; [reflexivity|]. split; [reflexivity|].
      split; [|constructor]. intros r' body [= <-] _ Hsome. congruence. }
  cbn [ok data negb orb].
  destruct (truthy body) eqn:Hb; cbn [negb].
  2:{ exists (Ret []). split; [reflexivity|]. split; [reflexivity|].
      split; [reflexivity | constructor]. }
  assert (Hlive : ~ failed (Responded r)).
  { intros Hf. inversion Hf; subst; congruence. }
  destruct (member body "data") as [| | | | | | models |] eqn:Hdata;
    try (exists (Ret []); split; [reflexivity|]; split; [reflexivity|];
         split; [reflexivity | constructor]).
  unfold lift. pose proof (Hids models) as Hm.
  destruct (model_ids models) as [ids|e].
  - unfold ret. eexists. split; [reflexivity|]. split; [|split].
    + intros Hf. now destruct Hlive.
    + intros r' body' [= <-] _ Hsome. rewrite Hbody in Hsome.
      injection Hsome as <-. rewrite Hdata. discriminate.
    + apply Forall_forall. intros id Hin. apply filter_In in Hin. apply Hin.
  - destruct Hm as [-> Hex]. eexists. split; [reflexivity|]. split; [|split].
    + intros Hf. now destruct Hlive.
    + intros r' body' [= <-] _ Hsome. rewrite Hbody in Hsome.
      injection Hsome as <-. rewrite Hdata. discriminate.
    + split; [reflexivity|]. exists r, body, models. auto.
Qed.

End PanelProperties.

Lemma refreshRuntimePanel_unavailable_witness :
  let s := start_session offline tt in
  "http://llm" <> EmptyString
  /\ failed (@reply_to offline "http://llm/internal/models/status" (net s))
  /\ exists shown,
       fst (@refreshRuntimePanel offline "http://llm" s) = Ret tt
       /\ els (snd (@refreshRuntimePanel offline "http://llm" s)) = shown
       /\ llmRuntimeStatus shown = "LLM diagnostics unavailable.".
Proof.
  intros s.
  assert (Hne : "http://llm"%string <> EmptyString) by discriminate.
  assert (Hstatus : failed (@reply_to offline "http://llm/internal/models/status" (net s)))
    by apply failed_transport.
  assert (Hdiag : failed (@reply_to offline "http://llm/internal/diagnostics"
                            (@after offline "http://llm/internal/models/status" (net s))))
    by apply failed_transport.
  split; [exact Hne|]. split; [exact Hstatus|].
  destruct (@refreshRuntimePanel_unavailable offline "http://llm" s Hne Hstatus Hdiag)
    as (shown & Hrun & _ & _ & Htext & _).
  exists shown. rewrite Hrun. repeat split. exact Htext.
Defined.

Lemma unloadRuntimeModel_settles_witness :
  let panel := posting offline Rejected EmptyString in
  let s := start_session offline tt in
  "http://llm" <> EmptyString
  /\ exists s',
       @unloadRuntimeModel offline panel "http://llm" s = (Ret tt, s')
       /\ buttons_enabled (els s').
Proof.
  intros panel s.
  assert (Hne : "http://llm"%string <> EmptyString) by discriminate.
  split; [exact Hne|].
  destruct (@unloadRuntimeModel_settles offline panel "http://llm" s Hne)
    as (s' & Hrun & Hb & _).
  exists s'. split; [exact Hrun | exact Hb].
Defined.

Lemma loadRuntimeModel_settles_witness :
  let panel := posting offline Rejected EmptyString in
  let s := start_session offline tt in
  "http://llm" <> EmptyString
  /\ @loadRuntimeModel offline panel "http://llm" s
     = (Ret tt, {| net := net s;
                   els := setRuntimeStatusText "Select a model to load." (els s) |}).
Proof.
  intros panel s.
  assert (Hne : "http://llm"%string <> EmptyString) by discriminate.
  split; [exact Hne|].
  exact (@loadRuntimeModel_settles offline panel "http://llm" s Hne).
Defined.

Lemma unloadRuntimeModel_refused_witness :
  let refusal := {| res_status := 409; res_body := None |} in
  let panel := posting offline (Responded refusal) "busy" in
  let s := start_session offline tt in
  "http://llm" <> EmptyString
  /\ res_ok refusal = false
  /\ llmRuntimeStatus (els (snd (@unloadRuntimeModel offline panel "http://llm" s)))
     = "Unload failed (409): busy".
Proof.
  intros refusal panel s.
  assert (Hne : "http://llm"%string <> EmptyString) by discriminate.
  split; [exact Hne|]. split; [reflexivity|].
  rewrite (@unloadRuntimeModel_refused offline panel "http://llm" s refusal tt "busy"
             Hne eq_refl eq_refl eq_refl).
  reflexivity.
Defined.

Lemma unloadRuntimeModel_accepted_witness :
  let status := VObj [("loaded", VBool false); ("model_id", VNull)] in
  let host := serving "http://llm/internal/models/status" (Some status) in
  let accepted := {| res_status := 200; res_body := None |} in
  let panel := posting host (Responded accepted) EmptyString in
  let s := start_session host tt in
  "http://llm" <> EmptyString
  /\ res_ok accepted = true
  /\ exists shown,
       els (snd (@unloadRuntimeModel host panel "http://llm" s)) = shown
       /\ textContent (llmRuntimeLoaded shown) = "Not loaded"
       /\ List.length (requests (net (snd (@unloadRuntimeModel host panel "http://llm" s))))
          = 2%nat.
Proof.
  intros status host accepted panel s.
  assert (Hne : "http://llm"%string <> EmptyString) by discriminate.
  split; [exact Hne|]. split; [reflexivity|].
  destruct (@unloadRuntimeModel_accepted host panel "http://llm" s accepted
              {| res_status := 200; res_body := Some status |} tt status
              Hne eq_refl eq_refl eq_refl eq_refl eq_refl eq_refl)
    as (shown & Hrun & _ & _ & Hshown & _).
  exists shown. rewrite Hrun. repeat split. exact (proj2 (Hshown eq_refl)).
Defined.

(** An entry [null] in the list of models does make [loadRuntimeModels]
    raise. *)
Example loadRuntimeModels_null_entry :
  let host := serving "http://llm/v1/models"
                (Some (VObj [("data", VArr [VObj [("id", str "m1")]; VNull])])) in
  fst (@loadRuntimeModels host "http://llm" (start host tt)) = Throw TypeError.
Proof. reflexivity. Qed.
